(** * kore cli: the incremental build of [src/cli.c]

    A shallow embedding of the build command of the kore command line
    tool ([cli_build] and the functions it calls) and the properties of
    its staleness tracking, asset embedding, compile loop and link step.

    The program is a sequence of system calls on one process.  It is
    modelled as a state-and-exit monad over a [world]: the part of the
    file system the build writes, the globals of [cli.c], and the trace
    of what the process printed and which system calls it made.
    [cli_fatal] prints one line and calls [exit(1)]; a computation that
    reaches it ends in [Died], with the world as it was at that point. *)

From Stdlib Require Import ZArith Ascii String List Lia DecimalString.
From stdpp Require Import base option list strings gmap.

Local Open Scope Z_scope.

(** ** C strings *)

Module CStr.

(** [s + i]: the string that starts [i] characters into [s]. *)
Fixpoint from (i : nat) (s : string) : string :=
  match i, s with
  | O, _ => s
  | S _, EmptyString => EmptyString
  | S i', String _ s' => from i' s'
  end.

(** The first [i] characters of [s]: what [s] reads as once [s[i]] has
    been overwritten with NUL. *)
Fixpoint upto (i : nat) (s : string) : string :=
  match i, s with
  | O, _ => EmptyString
  | S _, EmptyString => EmptyString
  | S i', String c s' => String c (upto i' s')
  end.

(** [strrchr(s, c)], as the offset of the match from [s]; [None] is the
    NULL pointer. *)
Fixpoint strrchr (s : string) (c : ascii) : option nat :=
  match s with
  | EmptyString => None
  | String a s' =>
      match strrchr s' c with
      | Some i => Some (S i)
      | None => if Ascii.eqb a c then Some O else None
      end
  end.

(** [isspace] in the "C" locale: space, and \t \n \v \f \r. *)
Definition isspace (c : ascii) : bool :=
  let n := N_of_ascii c in
  ((9 <=? n) && (n <=? 13) || (n =? 32))%N.

Fixpoint map (f : ascii → ascii) (s : string) : string :=
  match s with
  | EmptyString => EmptyString
  | String c s' => String (f c) (map f s')
  end.

Fixpoint mem (c : ascii) (s : string) : bool :=
  match s with
  | EmptyString => false
  | String a s' => Ascii.eqb a c || mem c s'
  end.

(** [!strcmp(a, b)] *)
Definition streq (a b : string) : bool := String.eqb a b.

End CStr.

(** ** Files and [stat] *)

Inductive ftype := S_IFREG | S_IFDIR | S_IFOTHER.

Record stat := Stat { st_mode : ftype; st_size : Z; st_mtime : Z }.

Definition ENOENT : Z := 2.
Definition EPERM : Z := 1.
Definition EACCES : Z := 13.
Definition ENOTDIR : Z := 20.

Inductive stat_result :=
| StatOk (st : stat)
| StatErr (errno : Z).

(** What lives at a path of the object directory.  [Inode st touch]: a
    file whose [stat] answers [st]; [touch] tells whether the kernel lets
    this process set its times.  [Denied e]: [stat] on the path fails
    with errno [e].  A path that is not in the map does not exist. *)
Inductive inode :=
| Inode (st : stat) (touch : bool)
| Denied (errno : Z).

Definition sys_stat (fs : gmap string inode) (path : string) : stat_result :=
  match fs !! path with
  | None => StatErr ENOENT
  | Some (Inode st _) => StatOk st
  | Some (Denied e) => StatErr e
  end.

(** [utimes(path, times)] with [times[0] = times[1] = {sec, 0}]: the new
    file system, or the errno. *)
Definition sys_utimes (fs : gmap string inode) (path : string) (sec : Z)
  : Z + gmap string inode :=
  match fs !! path with
  | Some (Inode st true) =>
      inr (<[path := Inode (Stat (st_mode st) (st_size st) sec) true]> fs)
  | Some (Inode st false) => inl EPERM
  | Some (Denied e) => inl e
  | None => inl ENOENT
  end.

(** A directory tree as [opendir]/[readdir]/[stat] show it.  The entries
    of a directory are in [readdir] order and carry their [d_name]. *)
Inductive node :=
| File (mtime : Z) (data : list Byte.byte)
| Dir (opendir_errno : option Z) (entries : list dirent)
| Special
| Unstattable (errno : Z)
with dirent :=
| Dirent (d_name : string) (d_node : node).

Definition file_stat (mtime : Z) (data : list Byte.byte) : stat :=
  Stat S_IFREG (Z.of_nat (length data)) mtime.

(** ** The compilation units: [struct cfile] *)

Record cfile := Cfile {
  cf_st : stat;
  cf_build : bool;
  cf_cpp : bool;
  cf_name : string;
  cf_fpath : string;
  cf_opath : string
}.

(** What [cli_spawn_proc] is given: a callback and its argument. *)
Inductive job :=
| Compile (cf : cfile)          (* cli_spawn_proc(cli_compile_cfile, cf) *)
| Link.                         (* cli_spawn_proc(cli_link_library, NULL) *)

(** ** The trace of the process *)

Inductive event :=
| Stdout (line : string)
| Stderr (line : string)
| Fork (ret : Z)
| Exec (j : job) (file : string) (argv : list string)
| Waitpid (pid : Z) (ret : Z) (status : Z)
| Utimes (path : string) (sec : Z) (ret : Z).

Record world := World {
  w_objs : gmap string inode;       (* <rootdir>/.objs/*.o *)
  w_text : gmap string string;      (* text files written by the build *)
  w_dirs : gset string;             (* directories made by the build *)
  w_trace : list event;
  (* globals of cli.c *)
  s_fd : string;                    (* the open asset header, by its path *)
  appl : string;
  rootdir : string;
  compiler : string;
  source_files : list cfile;
  cfiles_count : Z
}.

Inductive outcome (A : Type) :=
| Done (a : A) (w : world)
| Died (w : world).
Arguments Done {A} a w.
Arguments Died {A} w.

Definition M (A : Type) : Type := world → outcome A.

Global Instance M_ret : MRet M := λ A a w, Done a w.
Global Instance M_bind : MBind M := λ A B k m w,
  match m w with
  | Done a w' => k a w'
  | Died w' => Died w'
  end.

Definition final {A} (o : outcome A) : world :=
  match o with Done _ w => w | Died w => w end.

(** ** What the build is given

    The compile-time switches of [cli.c], the libc and [kore.h] functions
    it calls whose code is elsewhere, the environment of the process, the
    project tree it reads, and the answers of the kernel to the calls
    that can fail. *)

(** What [fork] and the child it starts come to, seen from the parent. *)
Inductive spawned :=
| ForkFailed (errno : Z)
| Forked (pid : positive)                 (* fork() returned [pid] *)
         (objs : gmap string inode)       (* the object directory the child left *)
         (reaped : option Z).             (* waitpid(pid): -1, or the status *)

Record environ := Environ {
  MACH : bool;                            (* defined(__MACH__) *)
  PREFIX : option string;
  KORE_USE_PGSQL : option string;         (* PGSQL_INCLUDE_PATH *)
  KORE_NO_TLS : bool;
  PRI_TIME_T : Z → string;                (* printf of a time_t *)
  strerror : Z → string;                  (* errno_s *)
  basename : string → string;
  kore_split_string : string → string → nat → list string;
  command : option string;                (* command->name *)
  getenv : string → option string;
  getcwd : Z + string;                    (* errno, or the directory *)
  tree : string → option node;            (* the project, by path *)
  open_errno : string → option Z;
  write_errno : string → option Z;
  close_errno : string → option Z;
  mmap_errno : string → option Z;
  munmap_errno : string → option Z;
  mkdir_errno : string → option Z;
  openssl_error : option string;          (* the calls of cli_generate_certs *)
  spawn : list string → gmap string inode → spawned
}.

Definition LD_FLAGS_MAX : nat := 10.
Definition CFLAGS_MAX : nat := 10.

Definition INT_MAX : Z := 2147483647.

(** [x + 1] on an [int], two's complement. *)
Definition int_incr (x : Z) : Z :=
  (x + 1 + 2147483648) mod 4294967296 - 2147483648.

(** *** printf conversions *)

Definition nl : string := String (ascii_of_nat 10) EmptyString.

(** [%d], [%u] and their kin on a value that is not negative. *)
Definition dec (n : Z) : string := NilZero.string_of_uint (N.to_uint (Z.to_N n)).

Definition hex_digit (n : N) : ascii :=
  ascii_of_N (if (n <? 10)%N then 48 + n else 87 + n)%N.

(** [%02x] on a [u_int8_t] *)
Definition fmt_02x (b : Byte.byte) : string :=
  let n := Byte.to_N b in
  String (hex_digit (n / 16)) (String (hex_digit (n mod 16)) EmptyString).

(** [(u_int32_t)x] *)
Definition u_int32_t (x : Z) : Z := x mod 4294967296.

(** [vsnprintf(buf, size, ...)] of a text: what fits [buf] before its
    NUL, the first [size - 1] bytes. *)
Definition vsnprintf (size : nat) (s : string) : string :=
  CStr.upto (size - 1) s.

Arguments vsnprintf : simpl never.

(** *** <sys/wait.h> *)

Definition WEXITSTATUS (status : Z) : Z := Z.shiftr (Z.land status 65280) 8.
Definition WTERMSIG (status : Z) : Z := Z.land status 127.
Definition WCOREDUMP (status : Z) : Z := Z.land status 128.

Section Build.

Variable E : environ.

(** *** Updates of one field of the world *)

Definition set_objs (f : gmap string inode → gmap string inode) (w : world) : world :=
  World (f (w_objs w)) (w_text w) (w_dirs w) (w_trace w) (s_fd w) (appl w)
    (rootdir w) (compiler w) (source_files w) (cfiles_count w).

Definition set_text (f : gmap string string → gmap string string) (w : world) : world :=
  World (w_objs w) (f (w_text w)) (w_dirs w) (w_trace w) (s_fd w) (appl w)
    (rootdir w) (compiler w) (source_files w) (cfiles_count w).

Definition set_dirs (f : gset string → gset string) (w : world) : world :=
  World (w_objs w) (w_text w) (f (w_dirs w)) (w_trace w) (s_fd w) (appl w)
    (rootdir w) (compiler w) (source_files w) (cfiles_count w).

Definition emit (e : event) (w : world) : world :=
  World (w_objs w) (w_text w) (w_dirs w) (w_trace w ++ [e]) (s_fd w) (appl w)
    (rootdir w) (compiler w) (source_files w) (cfiles_count w).

Definition set_s_fd (fd : string) (w : world) : world :=
  World (w_objs w) (w_text w) (w_dirs w) (w_trace w) fd (appl w)
    (rootdir w) (compiler w) (source_files w) (cfiles_count w).

Definition set_names (a r c : string) (w : world) : world :=
  World (w_objs w) (w_text w) (w_dirs w) (w_trace w) (s_fd w) a r c
    (source_files w) (cfiles_count w).

Definition set_source_files (l : list cfile) (n : Z) (w : world) : world :=
  World (w_objs w) (w_text w) (w_dirs w) (w_trace w) (s_fd w) (appl w)
    (rootdir w) (compiler w) l n.

(** [buf] written at the end of the file behind [fd]. *)
Definition append_text (fd buf : string) (w : world) : world :=
  set_text (λ t, <[fd := default EmptyString (t !! fd) +:+ buf]> t) w.

(** *** Printing and dying *)

Definition get {A} (f : world → A) : M A := λ w, Done (f w) w.
Definition modify (f : world → world) : M unit := λ w, Done tt (f w).

(** [printf] of one line, newline included. *)
Definition printf (line : string) : M unit := modify (emit (Stdout line)).
Definition fprintf_stderr (line : string) : M unit := modify (emit (Stderr line)).

(** [cli_fatal] formats its message into [buf[2048]] with [vsnprintf]:
    the line holds the first 2047 bytes of it. *)
Definition cli_fatal {A} (msg : string) : M A := λ w,
  let buf := vsnprintf 2048 msg in
  Died (emit (Stdout (match command E with
                      | Some name => "kore " +:+ name +:+ ": " +:+ buf
                      | None => "kore: " +:+ buf
                      end)) w).


(** *** [cli_file_requires_build] *)

Definition cli_file_requires_build (fst : stat) (opath : string) : M bool := λ w,
  match sys_stat (w_objs w) opath with
  | StatErr errno =>
      if errno =? ENOENT then Done true w
      else cli_fatal ("stat(" +:+ opath +:+ "): " +:+ strerror E errno) w
  | StatOk ost => Done (negb (st_mtime fst =? st_mtime ost)) w
  end.

(** *** Directories and files *)

Definition cli_mkdir (fpath : string) (mode : Z) : M unit :=
  match mkdir_errno E fpath with
  | Some errno =>
      cli_fatal ("cli_mkdir(" +:+ fpath +:+ "): " +:+ strerror E errno)
  | None => modify (set_dirs (λ d, {[fpath]} ∪ d))
  end.

(** The tree of [E] is the project as the command finds it.  A file the
    command writes itself is not looked for again by [cli_file_exists]
    or by the walker within that command (the asset header, which the
    walk of the sources would come across, has an extension that
    [cli_register_cfile] passes over), so both read the tree alone; what
    an earlier command of another process made has to be in the tree. *)
Definition cli_file_exists (fpath : string) : M bool :=
  mret (match tree E fpath with Some (File _ _) => true | _ => false end).

Definition cli_dir_exists (fpath : string) : M bool :=
  made ← get w_dirs;
  mret (bool_decide (fpath ∈ made)
        || match tree E fpath with Some (Dir _ _) => true | _ => false end).

Inductive oflags := O_RDONLY | O_CREAT_TRUNC_WRONLY.

(** A descriptor is named by the path it was opened on. *)
Definition cli_file_open (fpath : string) (flags : oflags) : M string :=
  match open_errno E fpath with
  | Some errno =>
      cli_fatal ("cli_file_open(" +:+ fpath +:+ "): " +:+ strerror E errno)
  | None =>
      match flags with
      | O_RDONLY => mret fpath
      | O_CREAT_TRUNC_WRONLY =>
          modify (set_text (λ t, <[fpath := EmptyString]> t));; mret fpath
      end
  end.

Definition cli_file_close (fd : string) : M unit :=
  match close_errno E fd with
  | Some errno => printf ("warning: close() " +:+ strerror E errno)
  | None => mret tt
  end.

(** The loop over short writes and EINTR, by its two exits: all of
    [buf] is in the file, or [write] failed and the build dies. *)
Definition cli_file_write (fd : string) (buf : string) : M unit :=
  match write_errno E fd with
  | Some errno => cli_fatal ("cli_file_write: " +:+ strerror E errno)
  | None => modify (append_text fd buf)
  end.

Definition cli_file_writef (fd : string) (text : string) : M unit :=
  cli_file_write fd text.

Definition unlink (path : string) : M unit :=
  modify (set_text (λ t, delete path t)).

Definition cli_file_create (name data : string) : M unit :=
  root ← get rootdir;
  let fpath := root +:+ "/" +:+ name in
  fd ← cli_file_open fpath O_CREAT_TRUNC_WRONLY;
  cli_file_write fd data;;
  cli_file_close fd;;
  printf ("created " +:+ fpath).

(** *** The asset embedder *)

Definition cli_write_asset (n e : string) : M unit :=
  fd ← get s_fd;
  cli_file_writef fd ("extern u_int8_t asset_" +:+ n +:+ "_" +:+ e +:+ "[];" +:+ nl);;
  cli_file_writef fd ("extern u_int32_t asset_len_" +:+ n +:+ "_" +:+ e +:+ ";" +:+ nl);;
  cli_file_writef fd ("extern time_t asset_mtime_" +:+ n +:+ "_" +:+ e +:+ ";" +:+ nl).

Definition cli_add_cfile (name fpath opath : string) (st : stat)
    (build cpp : bool) : M unit :=
  modify (λ w, set_source_files
                 (source_files w ++ [Cfile st build cpp name fpath opath])
                 (int_incr (cfiles_count w)) w).

(** The character the loop over [name] leaves at a position. *)
Definition sanitize_char (c : ascii) : ascii :=
  if Ascii.eqb c "." || CStr.isspace c || Ascii.eqb c "-" then "_"%char else c.

(** [for (off = 0; off < st.st_size; off++) writef(out, "0x%02x,", *d++)] *)
Fixpoint write_bytes (out : string) (d : list Byte.byte) : M unit :=
  match d with
  | [] => mret tt
  | b :: d' =>
      cli_file_writef out ("0x" +:+ fmt_02x b +:+ ",");; write_bytes out d'
  end.

(** The callbacks of [cli_find_files] get the path and the [d_name] of a
    regular file.  Both call [stat(fpath)] again and one maps the file:
    [sr] and [data] are what they get then. *)
Definition cli_build_asset (fpath d_name : string) (sr : stat_result)
    (data : list Byte.byte) : M unit :=
  let name := d_name in
  match CStr.strrchr name "." with
  | None => cli_fatal ("couldn't find ext in " +:+ name)
  | Some ext =>
      let name := CStr.map sanitize_char name in
      match sr with
      | StatErr errno =>
          cli_fatal ("stat: " +:+ fpath +:+ " " +:+ strerror E errno)
      | StatOk st =>
          if st_size st =? 0 then printf ("skipping empty asset " +:+ name)
          else
            root ← get rootdir;
            let opath := root +:+ "/.objs/" +:+ name +:+ ".o" in
            let cpath := root +:+ "/.objs/" +:+ name +:+ ".c" in
            (* once name[ext] is NUL: the name and the extension *)
            let n := CStr.upto ext name in
            let e := CStr.from (S ext) name in
            stale ← cli_file_requires_build st opath;
            if negb stale then
              cli_write_asset n e;;
              (* *ext = '_' is written after the NUL: name still reads n *)
              cli_add_cfile n cpath opath st false false
            else
              fin ← cli_file_open fpath O_RDONLY;
              match mmap_errno E fpath with
              | Some errno =>
                  cli_fatal ("mmap: " +:+ fpath +:+ " " +:+ strerror E errno)
              | None =>
                  out ← cli_file_open cpath O_CREAT_TRUNC_WRONLY;
                  printf ("building asset " +:+ d_name);;
                  cli_file_writef out ("/* Auto generated */" +:+ nl);;
                  cli_file_writef out ("#include <sys/param.h>" +:+ nl +:+ nl);;
                  cli_file_writef out
                    ("u_int8_t asset_" +:+ n +:+ "_" +:+ e +:+ "[] = {" +:+ nl);;
                  write_bytes out (take (Z.to_nat (st_size st)) data);;
                  cli_file_writef out "0x00";;
                  cli_file_writef out ("};" +:+ nl +:+ nl);;
                  cli_file_writef out
                    ("u_int32_t asset_len_" +:+ n +:+ "_" +:+ e +:+ " = "
                     +:+ dec (u_int32_t (st_size st)) +:+ ";" +:+ nl);;
                  cli_file_writef out
                    ("time_t asset_mtime_" +:+ n +:+ "_" +:+ e +:+ " = "
                     +:+ PRI_TIME_T E (st_mtime st) +:+ ";" +:+ nl);;
                  cli_write_asset n e;;
                  match munmap_errno E fpath with
                  | Some errno =>
                      cli_fatal ("munmap: " +:+ fpath +:+ " " +:+ strerror E errno)
                  | None =>
                      cli_file_close fin;;
                      cli_file_close out;;
                      (* *--ext = '.' *)
                      cli_add_cfile (n +:+ "." +:+ e) cpath opath st true false
                  end
              end
      end
  end.

(** *** Registering the sources *)

Definition cli_register_cfile (fpath d_name : string) (sr : stat_result)
    (data : list Byte.byte) : M unit :=
  match CStr.strrchr fpath "." with
  | None => mret tt
  | Some i =>
      let ext := CStr.from i fpath in
      if negb (CStr.streq ext ".c") && negb (CStr.streq ext ".cpp") then mret tt
      else
        let cpp := CStr.streq ext ".cpp" in
        match sr with
        | StatErr errno =>
            cli_fatal ("stat(" +:+ fpath +:+ "): " +:+ strerror E errno)
        | StatOk st =>
            root ← get rootdir;
            let opath := root +:+ "/.objs/" +:+ d_name +:+ ".o" in
            stale ← cli_file_requires_build st opath;
            if negb stale then cli_add_cfile d_name fpath opath st false cpp
            else cli_add_cfile d_name fpath opath st true cpp
        end
  end.

(** *** The walker *)

Definition callback : Type := string → string → stat_result → list Byte.byte → M unit.

(** [cli_find_files(path, cb)], with [n] what is at [path]. *)
Fixpoint find_files (cb : callback) (path : string) (n : node) {struct n} : M unit :=
  match n with
  | Dir None entries =>
      (fix readdir (entries : list dirent) : M unit :=
         match entries with
         | [] => mret tt
         | Dirent d_name nd :: rest =>
             (if CStr.streq d_name "." || CStr.streq d_name ".." then mret tt
              else
                let fpath := path +:+ "/" +:+ d_name in
                match nd with
                | Unstattable errno =>
                    fprintf_stderr ("stat(" +:+ fpath +:+ "): " +:+ strerror E errno)
                | Dir _ _ => find_files cb fpath nd
                | File mtime data =>
                    cb fpath d_name (StatOk (file_stat mtime data)) data
                | Special => fprintf_stderr ("ignoring " +:+ fpath)
                end);;
             readdir rest
         end) entries
  | Dir (Some errno) _ =>
      cli_fatal ("cli_find_files: opendir(" +:+ path +:+ "): " +:+ strerror E errno)
  | File _ _ | Special =>
      cli_fatal ("cli_find_files: opendir(" +:+ path +:+ "): " +:+ strerror E ENOTDIR)
  | Unstattable errno =>
      cli_fatal ("cli_find_files: opendir(" +:+ path +:+ "): " +:+ strerror E errno)
  end.

Definition cli_find_files (path : string) (cb : callback) : M unit :=
  match tree E path with
  | Some n => find_files cb path n
  | None =>
      cli_fatal ("cli_find_files: opendir(" +:+ path +:+ "): " +:+ strerror E ENOENT)
  end.

(** *** Certificates

    Without KORE_NO_TLS the function writes the DH parameters with
    [cli_file_create] and then makes a key and a certificate with
    OpenSSL; each of those calls dies on failure.  The OpenSSL part is
    taken as one step that succeeds or dies with a message. *)

Definition dh2048_data : string :=
  "-----BEGIN DH PARAMETERS-----" +:+ nl +:+
  "MIIBCAKCAQEAn4f4Qn5SudFjEYPWTbUaOTLUH85YWmmPFW1+b5bRa9ygr+1wfamv" +:+ nl +:+
  "VKVT7jO8c4msSNikUf6eEfoH0H4VTCaj+Habwu+Sj+I416r3mliMD4SjNsUJrBrY" +:+ nl +:+
  "Y0QV3ZUgZz4A8ARk/WwQcRl8+ZXJz34IaLwAcpyNhoV46iHVxW0ty8ND0U4DIku/" +:+ nl +:+
  "PNayKimu4BXWXk4RfwNVP59t8DQKqjshZ4fDnbotskmSZ+e+FHrd+Kvrq/WButvV" +:+ nl +:+
  "Bzy9fYgnUlJ82g/bziCI83R2xAdtH014fR63MpElkqdNeChb94pPbEdFlNUvYIBN" +:+ nl +:+
  "xx2vTUQMqRbB4UdG2zuzzr5j98HDdblQ+wIBAg==" +:+ nl +:+
  "-----END DH PARAMETERS-----".

Definition cli_generate_certs : M unit :=
  if KORE_NO_TLS E then mret tt
  else
    cli_file_create "dh2048.pem" dh2048_data;;
    match openssl_error E with
    | Some msg => cli_fatal msg
    | None => mret tt
    end.

(** *** The drivers: the argument vector the child hands to [execvp] *)

Definition user_flags (var : string) (max : nat) : list string :=
  match getenv E var with
  | Some p => kore_split_string E p " " max
  | None => []
  end.

Definition cli_compile_cfile (w : world) (cf : cfile) : list string :=
  [compiler w;
   "-I" +:+ rootdir w +:+ "/src";
   "-I" +:+ rootdir w +:+ "/src/includes";
   match PREFIX E with
   | Some prefix => "-I" +:+ prefix +:+ "/include"
   | None => "-I/usr/local/include"
   end]
  ++ (if MACH E
      then ["-I/opt/local/include"; "-I/usr/local/opt/openssl/include"]
      else [])
  ++ user_flags "CFLAGS" CFLAGS_MAX
  ++ match KORE_USE_PGSQL E with
     | Some ppath => ["-I" +:+ ppath]
     | None => []
     end
  ++ ["-Wall"; "-Wmissing-declarations"; "-Wshadow"; "-Wpointer-arith";
      "-Wcast-qual"; "-Wsign-compare"; "-fPIC"; "-g"]
  ++ (if cf_cpp cf
      then ["-Woverloaded-virtual"; "-Wold-style-cast"; "-Wnon-virtual-dtor"]
           ++ match getenv E "CXXSTD" with
              | Some p => ["-std=" +:+ p]
              | None => []
              end
      else ["-Wstrict-prototypes"; "-Wmissing-prototypes"])
  ++ ["-c"; cf_fpath cf; "-o"; cf_opath cf].

Definition cli_link_library (w : world) : list string :=
  let flags := user_flags "LDFLAGS" LD_FLAGS_MAX in
  let libname := rootdir w +:+ "/" +:+ appl w +:+ ".so" in
  let has_cpp := existsb cf_cpp (source_files w) in
  [compiler w]
  ++ (if MACH E
      then ["-dynamiclib"; "-undefined"; "suppress"; "-flat_namespace"]
      else ["-shared"])
  ++ map cf_opath (source_files w)
  ++ (if has_cpp
      then [match getenv E "CXXLIB" with
            | Some p => "-l" +:+ p
            | None => "-lstdc++"
            end]
      else [])
  ++ flags
  ++ ["-o"; libname].

Definition driver (j : job) (w : world) : list string :=
  match j with
  | Compile cf => cli_compile_cfile w cf
  | Link => cli_link_library w
  end.

(** *** The supervisor

    The parent's side of [cli_spawn_proc].  The child runs the driver
    on a copy of the globals and is replaced by the compiler; a driver
    that returns makes the child die with status 1.  Either way the
    parent sees a status, which [spawn] gives. *)
Definition cli_spawn_proc (j : job) : M unit := λ w,
  let argv := driver j w in
  match spawn E argv (w_objs w) with
  | ForkFailed errno =>
      cli_fatal ("cli_compile_cfile: fork() " +:+ strerror E errno)
        (emit (Fork (-1)) w)
  | Forked pid objs reaped =>
      let pid := Z.pos pid in
      let w := emit (Exec j (compiler w) argv) (emit (Fork pid) w) in
      let w := set_objs (λ _, objs) w in
      match reaped with
      | None =>
          cli_fatal ("couldn't wait for child " +:+ dec pid)
            (emit (Waitpid pid (-1) 0) w)
      | Some status =>
          let w := emit (Waitpid pid pid status) w in
          if negb (WEXITSTATUS status =? 0) || negb (WTERMSIG status =? 0)
             || negb (WCOREDUMP status =? 0)
          then cli_fatal "subprocess trouble, check output" w
          else Done tt w
      end
  end.

(** *** [cli_build] *)

(** [utimes(cf->opath, times)] and the message when it fails. *)
Definition set_object_times (cf : cfile) : M unit := λ w,
  let sec := st_mtime (cf_st cf) in
  match sys_utimes (w_objs w) (cf_opath cf) sec with
  | inr objs =>
      Done tt (emit (Utimes (cf_opath cf) sec 0) (set_objs (λ _, objs) w))
  | inl errno =>
      printf ("utime(" +:+ cf_opath cf +:+ "): " +:+ strerror E errno)
        (emit (Utimes (cf_opath cf) sec (-1)) w)
  end.

(** The body of the loop of [cli_build] for a unit with [build] set. *)
Definition compile_unit (cf : cfile) : M unit :=
  printf ("compiling " +:+ cf_name cf);;
  cli_spawn_proc (Compile cf);;
  set_object_times cf.

(** [TAILQ_FOREACH(cf, &source_files, list)] of [cli_build], from
    [cfs] on, with the value of [requires_relink]. *)
Fixpoint compile_loop (cfs : list cfile) (requires_relink : Z) : M Z :=
  match cfs with
  | [] => mret requires_relink
  | cf :: rest =>
      if negb (cf_build cf) then compile_loop rest requires_relink
      else compile_unit cf;; compile_loop rest (int_incr requires_relink)
  end.

Definition assets_header (root : string) : string := root +:+ "/src/assets.h".

(** [cli_build] is the sequence of the seven steps below. *)

(** The application, its directory and the compiler; the empty list of
    units. *)
Definition build_names (argv : list string) : M unit :=
  match argv with
  | [] =>
      match getcwd E with
      | inl errno => cli_fatal ("could not get cwd: " +:+ strerror E errno)
      | inr pwd => modify (λ w, set_names (basename E pwd) "." (compiler w) w)
      end
  | a :: _ => modify (λ w, set_names a a (compiler w) w)
  end;;
  match getenv E "CC" with
  | Some p => modify (λ w, set_names (appl w) (rootdir w) p w)
  | None => mret tt
  end;;
  modify (set_source_files [] 0).

(** Is this a kore application; the object directory. *)
Definition build_check : M unit :=
  root ← get rootdir;
  app ← get appl;
  is_src ← cli_dir_exists (root +:+ "/src");
  is_conf ← cli_file_exists (root +:+ "/conf/" +:+ app +:+ ".conf");
  (if negb is_src || negb is_conf
   then cli_fatal (app +:+ " doesn't appear to be a kore app")
   else mret tt);;
  let obj_path := root +:+ "/.objs" in
  is_obj ← cli_dir_exists obj_path;
  (if negb is_obj then cli_mkdir obj_path 493 else mret tt);;
  unlink (assets_header root).

(** Generate the assets. *)
Definition build_assets : M unit :=
  root ← get rootdir;
  let assets_path := root +:+ "/assets" in
  is_assets ← cli_dir_exists assets_path;
  if (is_assets : bool) then
    fd ← cli_file_open (assets_header root) O_CREAT_TRUNC_WRONLY;
    modify (set_s_fd fd);;
    cli_file_writef fd ("#ifndef __H_KORE_ASSETS_H" +:+ nl);;
    cli_file_writef fd ("#define __H_KORE_ASSETS_H" +:+ nl);;
    cli_find_files assets_path cli_build_asset;;
    cli_file_writef fd (nl +:+ "#endif" +:+ nl);;
    cli_file_close fd
  else mret tt.

(** Build all source files: find them. *)
Definition build_sources : M unit :=
  root ← get rootdir;
  cli_find_files (root +:+ "/src") cli_register_cfile.

(** Build all source files: compile the ones to build. *)
Definition build_objects : M Z :=
  cfs ← get source_files;
  compile_loop cfs 0.

Definition build_certs : M unit :=
  root ← get rootdir;
  unlink (assets_header root);;
  let cpath := root +:+ "/cert" in
  is_cert ← cli_dir_exists cpath;
  if negb is_cert then cli_mkdir cpath 448;; cli_generate_certs
  else mret tt.

Definition build_link (requires_relink : Z) : M unit :=
  if negb (requires_relink =? 0) then
    cli_spawn_proc Link;;
    app ← get appl;
    printf (app +:+ " built successfully!")
  else printf "nothing to be done".

Definition cli_build (argv : list string) : M unit :=
  build_names argv;;
  build_check;;
  build_assets;;
  build_sources;;
  requires_relink ← build_objects;
  build_certs;;
  build_link requires_relink.

(** A process starts with the globals as [cli.c] initialises them. *)
Definition exec_kore (w : world) : world :=
  World (w_objs w) (w_text w) (w_dirs w) (w_trace w)
    EmptyString EmptyString EmptyString "gcc" [] 0.

End Build.

(** ** The other commands: [kore_cli_main] and what it dispatches to

    [cli_fatal] and [kore_cli_usage] leave through [exit(1)]; [cli_run]
    ends in [execvp], which replaces the process when it succeeds; a
    command that returns makes [kore_cli_main] return 0. *)
Inductive process :=
| Returns (w : world)                         (* back in the caller *)
| Exits (w : world)                           (* exit(1) *)
| Becomes (file : string) (argv : list string) (w : world).   (* execvp *)

Definition of_outcome (o : outcome unit) : process :=
  match o with Done _ w => Returns w | Died w => Exits w end.

(** The world a process ends in. *)
Definition ended (p : process) : world :=
  match p with Returns w | Exits w | Becomes _ _ w => w end.

(** [exit(1)] *)
Definition exit1 {A} : M A := λ w, Died w.

(** [command = &cmds[i]]: [cli_fatal] prints the name of the command. *)
Definition with_command (E : environ) (name : string) : environ :=
  {| MACH := MACH E; PREFIX := PREFIX E; KORE_USE_PGSQL := KORE_USE_PGSQL E;
     KORE_NO_TLS := KORE_NO_TLS E; PRI_TIME_T := PRI_TIME_T E;
     strerror := strerror E; basename := basename E;
     kore_split_string := kore_split_string E;
     command := Some name;
     getenv := getenv E; getcwd := getcwd E; tree := tree E;
     open_errno := open_errno E; write_errno := write_errno E;
     close_errno := close_errno E; mmap_errno := mmap_errno E;
     munmap_errno := munmap_errno E; mkdir_errno := mkdir_errno E;
     openssl_error := openssl_error E; spawn := spawn E |}.

Definition tab : string := String (ascii_of_nat 9) EmptyString.

(** The callbacks of the table, by name. *)
Inductive cmd_cb := CLI_HELP | CLI_RUN | CLI_BUILD | CLI_CLEAN | CLI_CREATE.

(** [struct cmd cmds[]], up to its sentinel. *)
Definition cmds : list (string * string * cmd_cb) :=
  [("help", "this help text", CLI_HELP);
   ("run", "run an application (-fnr implied)", CLI_RUN);
   ("build", "build an application", CLI_BUILD);
   ("clean", "cleanup the build files", CLI_CLEAN);
   ("create", "create a new application skeleton", CLI_CREATE)].

(** [for (i = 0; cmds[i].name != NULL; i++) printf("\t%s\t%s\n", ...)] *)
Fixpoint usage_rows (table : list (string * string * cmd_cb)) : M unit :=
  match table with
  | [] => mret tt
  | (name, descr, _) :: rest =>
      printf (tab +:+ name +:+ tab +:+ descr);; usage_rows rest
  end.

(** The two calls that write "Production servers ... the options." put
    one line on stderr between them. *)
Definition kore_cli_usage {A} (local : bool) : M A :=
  (if local then fprintf_stderr "Usage: kore [command]" else mret tt);;
  fprintf_stderr (nl +:+ "Available commands:");;
  usage_rows cmds;;
  fprintf_stderr (nl +:+ "The commands mostly exist for your convenience");;
  fprintf_stderr "when hacking on your Kore applications.";;
  fprintf_stderr EmptyString;;
  fprintf_stderr "Production servers should be started using the options.";;
  fprintf_stderr (nl +:+ "Find more information on https://kore.io");;
  exit1.

Definition cli_help (argv : list string) : M unit := kore_cli_usage true.

(** *** [cli_create] *)

Definition gen_dirs (E : environ) : list string :=
  ["src"] ++ (if KORE_NO_TLS E then [] else ["cert"]) ++ ["conf"; "assets"].

Definition src_data : string :=
  "#include <kore/kore.h>" +:+ nl +:+
  "#include <kore/http.h>" +:+ nl +:+
  nl +:+
  "int" +:+ tab +:+ tab +:+ "page(struct http_request *);" +:+ nl +:+
  nl +:+
  "int" +:+ nl +:+
  "page(struct http_request *req)" +:+ nl +:+
  "{" +:+ nl +:+
  tab +:+ "http_response(req, 200, NULL, 0);" +:+ nl +:+
  tab +:+ "return (KORE_RESULT_OK);" +:+ nl +:+
  "}" +:+ nl.

(** [config_data] with its [%s] filled in. *)
Definition config_data (E : environ) (app : string) : string :=
  "# Placeholder configuration" +:+ nl +:+
  nl +:+
  "bind" +:+ tab +:+ tab +:+ "127.0.0.1 8888" +:+ nl +:+
  "load" +:+ tab +:+ tab +:+ "./" +:+ app +:+ ".so" +:+ nl +:+
  (if KORE_NO_TLS E then EmptyString
   else "tls_dhparam" +:+ tab +:+ "dh2048.pem" +:+ nl) +:+
  nl +:+
  "domain 127.0.0.1 {" +:+ nl +:+
  (if KORE_NO_TLS E then EmptyString
   else tab +:+ "certfile" +:+ tab +:+ "cert/server.crt" +:+ nl +:+
        tab +:+ "certkey" +:+ tab +:+ tab +:+ "cert/server.key" +:+ nl) +:+
  tab +:+ "static" +:+ tab +:+ "/" +:+ tab +:+ "page" +:+ nl +:+
  "}" +:+ nl.

(** [gitignore_data] with its [%s] filled in. *)
Definition gitignore_data (app : string) : string :=
  "*.o" +:+ nl +:+ ".objs" +:+ nl +:+ app +:+ ".so" +:+ nl +:+
  "assets.h" +:+ nl +:+ "cert" +:+ nl.

Section Commands.

Variable E : environ.

Definition file_create_src : M unit :=
  app ← get appl;
  cli_file_create E ("src/" +:+ app +:+ ".c") src_data.

Definition file_create_config : M unit :=
  app ← get appl;
  cli_file_create E ("conf/" +:+ app +:+ ".conf") (config_data E app).

Definition file_create_gitignore : M unit :=
  app ← get appl;
  cli_file_create E ".gitignore" (gitignore_data app).

(** [struct filegen gen_files[]], up to its sentinel. *)
Definition gen_files : list (M unit) :=
  [file_create_src; file_create_config; file_create_gitignore].

(** [for (i = 0; gen_dirs[i] != NULL; i++) cli_mkdir("%s/%s", 0755)] *)
Fixpoint make_dirs (dirs : list string) : M unit :=
  match dirs with
  | [] => mret tt
  | d :: rest =>
      app ← get appl;
      cli_mkdir E (app +:+ "/" +:+ d) 493;;
      make_dirs rest
  end.

(** [for (i = 0; gen_files[i].cb != NULL; i++) gen_files[i].cb()] *)
Fixpoint make_files (gens : list (M unit)) : M unit :=
  match gens with
  | [] => mret tt
  | gen :: rest => gen;; make_files rest
  end.

Definition cli_create (argv : list string) : M unit :=
  match argv with
  | [a] =>
      modify (λ w, set_names a (rootdir w) (compiler w) w);;
      cli_mkdir E a 493;;
      modify (λ w, set_names (appl w) (appl w) (compiler w) w);;
      make_dirs (gen_dirs E);;
      make_files gen_files;;
      cli_generate_certs E;;
      app ← get appl;
      printf (app +:+ " created successfully!");;
      if KORE_NO_TLS E then mret tt
      else printf
        "note: do NOT use the created DH parameters/certificates in production"
  | _ => cli_fatal E "missing application name"
  end.

(** *** [cli_run]

    [chdir] and the [execvp] of kore are calls whose answer the process
    is given: the errno of each, if it fails. *)
Variable chdir_errno : string → option Z.
Variable execvp_errno : string → option Z.

(** The vector [cli_run_kore] hands to [execvp]. *)
Definition cli_run_kore (w : world) : list string :=
  ["kore"; "-fnrc"; "conf/" +:+ appl w +:+ ".conf"].

Definition cli_run (argv : list string) (w : world) : process :=
  match cli_build E argv w with
  | Died w' => Exits w'
  | Done _ w' =>
      match chdir_errno (rootdir w') with
      | Some _ =>
          of_outcome
            (cli_fatal E ("couldn't change directory to " +:+ rootdir w') w')
      | None =>
          match execvp_errno "kore" with
          | None => Becomes "kore" (cli_run_kore w') w'
          | Some _ => Returns w'    (* cli_run_kore returns, and so does cli_run *)
          end
      end
  end.

End Commands.

(** *** [kore_cli_main]

    [cli_clean] removes files and a directory, which the world keeps no
    account of; what it does is left open here. *)
Section Main.

Variable cli_clean : environ → list string → M unit.
Variable chdir_errno : string → option Z.
Variable execvp_errno : string → option Z.

(** [cmds[i].cb(argc, argv)] *)
Definition call (cb : cmd_cb) (E : environ) (argv : list string) (w : world)
  : process :=
  match cb with
  | CLI_HELP => of_outcome (cli_help argv w)
  | CLI_RUN => cli_run E chdir_errno execvp_errno argv w
  | CLI_BUILD => of_outcome (cli_build E argv w)
  | CLI_CLEAN => of_outcome (cli_clean E argv w)
  | CLI_CREATE => of_outcome (cli_create E argv w)
  end.

(** The loop over the table: the first entry whose name is [argv[0]]. *)
Fixpoint find_cmd (table : list (string * string * cmd_cb)) (name : string)
  : option (string * cmd_cb) :=
  match table with
  | [] => None
  | (n, _, cb) :: rest =>
      if CStr.streq name n then Some (n, cb) else find_cmd rest name
  end.

(** [umask] sets the modes of the files made later, which the world
    does not record. *)
Definition kore_cli_main (E : environ) (argv : list string) (w : world)
  : process :=
  match argv with
  | [] => of_outcome (kore_cli_usage true w)
  | a :: rest =>
      match find_cmd cmds a with
      | Some (name, cb) => call cb (with_command E name) rest w
      | None =>
          of_outcome
            ((fprintf_stderr ("No such command: " +:+ a);;
              kore_cli_usage true) w)
      end
  end.

End Main.

(** ** A small project to run the build on *)

Module Demo.

(** A tool chain: the child writes a file dated [now] at the path
    after [-o] when [writes] is set, and ends with [status]. *)
Definition toolchain (writes : bool) (now status : Z)
    (argv : list string) (objs : gmap string inode) : spawned :=
  Forked 4321
    (if writes
     then <[List.last argv EmptyString := Inode (Stat S_IFREG 64 now) true]> objs
     else objs)
    (Some status).

Definition layout (src assets : list dirent) (path : string) : option node :=
  if String.eqb path "./src" then Some (Dir None src)
  else if String.eqb path "./conf/app.conf" then Some (File 0 [])
  else if String.eqb path "./assets" then Some (Dir None assets)
  else None.

(** Linux, TLS compiled out, no variable set, every call succeeds. *)
Definition env (t : string → option node)
    (tc : list string → gmap string inode → spawned) : environ :=
  {| MACH := false; PREFIX := None; KORE_USE_PGSQL := None;
     KORE_NO_TLS := true; PRI_TIME_T := dec;
     strerror := λ errno, "errno " +:+ dec errno;
     basename := λ _, "app";
     kore_split_string := λ _ _ _, [];
     command := Some "build";
     getenv := λ _, None;
     getcwd := inr "/home/dev/app";
     tree := t;
     open_errno := λ _, None; write_errno := λ _, None;
     close_errno := λ _, None; mmap_errno := λ _, None;
     munmap_errno := λ _, None; mkdir_errno := λ _, None;
     openssl_error := None;
     spawn := tc |}.

Definition boot (objs : gmap string inode) : world :=
  World objs ∅ ∅ [] EmptyString EmptyString EmptyString "gcc" [] 0.

(** "int x;" *)
Definition text : list Byte.byte :=
  [Byte.x69; Byte.x6e; Byte.x74; Byte.x20; Byte.x78; Byte.x3b].

Definition a_stat (mtime : Z) : stat := file_stat mtime text.

(** The world once [cli_build] has set its globals in ".", with the
    asset header open. *)
Definition building (objs : gmap string inode) : world :=
  World objs ∅ ∅ [] "./src/assets.h" "app" "." "gcc" [] 0.

Definition a_source (mtime : Z) : cfile :=
  Cfile (a_stat mtime) true false "a.c" "./src/a.c" "./.objs/a.c.o".

End Demo.

(** ** The claims of the specification that the code does not meet,
    as the specification words them *)

(** The three declarations of an asset in the header. *)
Definition asset_externs (n e : string) : string :=
  ("extern u_int8_t asset_" +:+ n +:+ "_" +:+ e +:+ "[];" +:+ nl) +:+
  ("extern u_int32_t asset_len_" +:+ n +:+ "_" +:+ e +:+ ";" +:+ nl) +:+
  ("extern time_t asset_mtime_" +:+ n +:+ "_" +:+ e +:+ ";" +:+ nl).

(** ** The walk as a list

    What [cli_find_files] comes across, in order: the regular files it
    hands to the callback, the entries it reports on stderr and skips,
    and the directory it cannot open, where the build dies. *)
Inductive found :=
| Visit (fpath d_name : string) (mtime : Z) (data : list Byte.byte)
| Note (line : string)
| Stop (msg : string).

Definition entry_node (e : dirent) : node :=
  match e with Dirent _ n => n end.

Definition opendir_failed (E : environ) (path : string) (errno : Z) : string :=
  "cli_find_files: opendir(" +:+ path +:+ "): " +:+ strerror E errno.

Fixpoint found_in (E : environ) (path : string) (n : node) {struct n}
  : list found :=
  match n with
  | Dir None entries =>
      (fix readdir (entries : list dirent) : list found :=
         match entries with
         | [] => []
         | Dirent d_name nd :: rest =>
             (if CStr.streq d_name "." || CStr.streq d_name ".." then []
              else
                let fpath := path +:+ "/" +:+ d_name in
                match nd with
                | Unstattable errno =>
                    [Note ("stat(" +:+ fpath +:+ "): " +:+ strerror E errno)]
                | Dir _ _ => found_in E fpath nd
                | File mtime data => [Visit fpath d_name mtime data]
                | Special => [Note ("ignoring " +:+ fpath)]
                end)
             ++ readdir rest
         end) entries
  | Dir (Some errno) _ => [Stop (opendir_failed E path errno)]
  | File _ _ | Special => [Stop (opendir_failed E path ENOTDIR)]
  | Unstattable errno => [Stop (opendir_failed E path errno)]
  end.

Definition found_at (E : environ) (path : string) : list found :=
  match tree E path with
  | Some n => found_in E path n
  | None => [Stop (opendir_failed E path ENOENT)]
  end.

Fixpoint visit_all (E : environ) (cb : callback) (l : list found) : M unit :=
  match l with
  | [] => mret tt
  | Visit fpath d_name mtime data :: rest =>
      cb fpath d_name (StatOk (file_stat mtime data)) data;; visit_all E cb rest
  | Note line :: rest => fprintf_stderr line;; visit_all E cb rest
  | Stop msg :: _ => cli_fatal E msg
  end.

(** The events that are lines of output. *)
Definition printed (e : event) : Prop :=
  match e with Stdout _ | Stderr _ => True | _ => False end.

(** How a child ends, and the status [waitpid] stores for it. *)
Inductive ending :=
| Exited (code : Z)                 (* exit(code) *)
| Killed (sig : Z) (core : bool).   (* a signal, with or without a core *)

Definition wstatus (e : ending) : Z :=
  match e with
  | Exited code => Z.shiftl (Z.land code 255) 8
  | Killed sig core => Z.lor sig (if core then 128 else 0)
  end.

(** The child ended with exit status 0. *)
Definition clean_exit (e : ending) : bool :=
  match e with
  | Exited code => Z.land code 255 =? 0
  | Killed _ _ => false
  end.

(** A [waitpid] that failed, or that reported a child in trouble. *)
Definition failed_wait (e : event) : Prop :=
  match e with
  | Waitpid pid ret status =>
      ret ≠ pid ∨ WEXITSTATUS status ≠ 0 ∨ WTERMSIG status ≠ 0
      ∨ WCOREDUMP status ≠ 0
  | _ => False
  end.

Definition calm (t : list event) : Prop := Forall (λ e, ¬ failed_wait e) t.

(** A trace that ends with a failed wait and one line of output. *)
Definition bad_end (t : list event) : Prop :=
  ∃ t1 pid ret status msg,
    t = t1 ++ [Waitpid pid ret status; Stdout msg] ∧ calm t1
    ∧ failed_wait (Waitpid pid ret status).

(** The line [cli_fatal] prints. *)
Definition fatal_line (E : environ) (msg : string) : string :=
  match command E with
  | Some name => "kore " +:+ name +:+ ": " +:+ msg
  | None => "kore: " +:+ msg
  end.

(** The units [cli_build] compiles and the children it plans: one
    compile for each unit to build, in order, and then the link. *)
Definition flagged (cfs : list cfile) : list cfile := filter (λ cf, cf_build cf = true) cfs.

Definition plan (cfs : list cfile) : list job := map Compile (flagged cfs) ++ [Link].

(** What the build added to the trace. *)
Definition since (w0 w : world) : list event :=
  drop (length (w_trace w0)) (w_trace w).

(** What a trace shows of the standard output and of the children. *)
Definition stdout_of (t : list event) : list string :=
  omap (λ e, match e with Stdout line => Some line | _ => None end) t.

Definition jobs_of (t : list event) : list job :=
  omap (λ e, match e with Exec j _ _ => Some j | _ => None end) t.

Definition links_of (t : list event) : list (list string) :=
  omap (λ e, match e with Exec Link _ argv => Some argv | _ => None end) t.

(** What the loop over the bytes of an asset writes: a literal and a
    comma for each byte. *)
Definition hex_literals (d : list Byte.byte) : string :=
  foldr (λ b rest, ("0x" +:+ fmt_02x b +:+ ",") +:+ rest) EmptyString d.

(** The initializer of the generated array: the literals of the bytes,
    then the literal of the NUL. *)
Definition array_initializer (d : list Byte.byte) : string :=
  hex_literals d +:+ "0x00".

(** The generated source of an asset, write after write. *)
Definition asset_source (E : environ) (n e : string) (st : stat)
    (d : list Byte.byte) : string :=
  ("/* Auto generated */" +:+ nl) +:+
  ("#include <sys/param.h>" +:+ nl +:+ nl) +:+
  ("u_int8_t asset_" +:+ n +:+ "_" +:+ e +:+ "[] = {" +:+ nl) +:+
  array_initializer d +:+
  ("};" +:+ nl +:+ nl) +:+
  ("u_int32_t asset_len_" +:+ n +:+ "_" +:+ e +:+ " = "
   +:+ dec (u_int32_t (st_size st)) +:+ ";" +:+ nl) +:+
  ("time_t asset_mtime_" +:+ n +:+ "_" +:+ e +:+ " = "
   +:+ PRI_TIME_T E (st_mtime st) +:+ ";" +:+ nl).

Definition hex_value (c : ascii) : option N :=
  let n := N_of_ascii c in
  if ((48 <=? n) && (n <=? 57))%N then Some (n - 48)%N
  else if ((97 <=? n) && (n <=? 102))%N then Some (n - 87)%N
  else None.

(** The elements a C compiler reads in an initializer made of two-digit
    hexadecimal literals with commas between them. *)
Fixpoint initializer_values (s : string) : option (list N) :=
  match s with
  | String "0" (String "x" (String h (String l rest))) =>
      match hex_value h, hex_value l with
      | Some a, Some b =>
          match rest with
          | EmptyString => Some [(16 * a + b)%N]
          | String "," rest' =>
              match initializer_values rest' with
              | Some vs => Some ((16 * a + b)%N :: vs)
              | None => None
              end
          | _ => None
          end
      | _, _ => None
      end
  | _ => None
  end.

(** "Every unit has a logical name that is unique across all units, and
    no two discovered files map to the same logical name or object
    path." *)
Definition units_distinct (w : world) : Prop :=
  NoDup (map cf_name (source_files w)) ∧ NoDup (map cf_opath (source_files w)).

(** The name the object of a file is made from: the [d_name] of a
    source, the [d_name] of an asset once the loop over it has replaced
    dots, spaces and dashes. *)
Definition logical_name (asset : bool) (d_name : string) : string :=
  if asset then CStr.map sanitize_char d_name else d_name.

Definition object_path (root name : string) : string :=
  root +:+ "/.objs/" +:+ name +:+ ".o".

(** Where a unit comes from: a regular file found under the assets or
    under the sources of the project in [root]. *)
Definition unit_from (E : environ) (root : string) (u : cfile) : Prop :=
  (∃ fpath d_name mtime data,
     Visit fpath d_name mtime data ∈ found_at E (root +:+ "/assets")
     ∧ cf_opath u = object_path root (logical_name true d_name)
     ∧ cf_fpath u = root +:+ "/.objs/" +:+ logical_name true d_name +:+ ".c"
     ∧ cf_st u = file_stat mtime data)
  ∨ (∃ fpath d_name mtime data,
       Visit fpath d_name mtime data ∈ found_at E (root +:+ "/src")
       ∧ cf_opath u = object_path root (logical_name false d_name)
       ∧ cf_name u = d_name ∧ cf_fpath u = fpath
       ∧ cf_st u = file_stat mtime data).

(** [stat] on [path] succeeds and answers the time [sec]. *)
Definition dated_at (objs : gmap string inode) (path : string) (sec : Z) : Prop :=
  ∃ ost, sys_stat objs path = StatOk ost ∧ st_mtime ost = sec.

(** The object of a unit bears the time of its source. *)
Definition dated (objs : gmap string inode) (u : cfile) : Prop :=
  dated_at objs (cf_opath u) (st_mtime (cf_st u)).

(** The test of [cli_register_cfile] on the extension of a path. *)
Definition is_source (fpath : string) : bool :=
  match CStr.strrchr fpath "." with
  | None => false
  | Some i =>
      negb (negb (CStr.streq (CStr.from i fpath) ".c")
            && negb (CStr.streq (CStr.from i fpath) ".cpp"))
  end.

(** A file found under the assets that a build leaves alone: it has an
    extension, and it is empty or its object bears its time. *)
Definition asset_fresh (root : string) (objs : gmap string inode) (f : found) : Prop :=
  match f with
  | Visit fpath d_name mtime data =>
      CStr.strrchr d_name "." ≠ None
      ∧ (data = []
         ∨ dated_at objs (object_path root (logical_name true d_name)) mtime)
  | Note _ => True
  | Stop _ => False
  end.

(** A file found under the sources that a build leaves alone: it is not
    a C or C++ file, or its object bears its time. *)
Definition source_fresh (root : string) (objs : gmap string inode) (f : found) : Prop :=
  match f with
  | Visit fpath d_name mtime data =>
      is_source fpath = false
      ∨ dated_at objs (object_path root (logical_name false d_name)) mtime
  | Note _ => True
  | Stop _ => False
  end.

(** A file found under the assets that a build went past: it has an
    extension, and it is empty or one of [units] is made of it. *)
Definition asset_seen (root : string) (units : list cfile) (f : found) : Prop :=
  match f with
  | Visit fpath d_name mtime data =>
      CStr.strrchr d_name "." ≠ None
      ∧ (data = []
         ∨ ∃ u, u ∈ units
                ∧ cf_opath u = object_path root (logical_name true d_name)
                ∧ cf_st u = file_stat mtime data)
  | Note _ => True
  | Stop _ => False
  end.

(** A file found under the sources that a build went past: it is not a
    C or C++ file, or one of [units] is made of it. *)
Definition source_seen (root : string) (units : list cfile) (f : found) : Prop :=
  match f with
  | Visit fpath d_name mtime data =>
      is_source fpath = false
      ∨ ∃ u, u ∈ units
             ∧ cf_opath u = object_path root (logical_name false d_name)
             ∧ cf_st u = file_stat mtime data
  | Note _ => True
  | Stop _ => False
  end.

(** The answer of [cli_dir_exists]. *)
Definition dir_exists (E : environ) (fpath : string) (w : world) : bool :=
  bool_decide (fpath ∈ w_dirs w)
  || match tree E fpath with Some (Dir _ _) => true | _ => false end.

(** A child writes no file but the one it is told to write, after -o. *)
Definition tidy (E : environ) : Prop :=
  ∀ argv objs pid objs' reaped,
    spawn E argv objs = Forked pid objs' reaped →
    ∀ path, path ≠ List.last argv EmptyString → objs' !! path = objs !! path.

(** "Running the build twice in succession with nothing changed in
    between: the second run compiles nothing, links nothing and reports
    nothing to be done." *)
Definition second_run_idle (E : environ) (argv : list string) (w0 : world) : Prop :=
  let w1 := final (cli_build E argv w0) in
  let w2 := final (cli_build E argv (exec_kore w1)) in
  jobs_of (since w1 w2) = []
  ∧ last (since w1 w2) = Some (Stdout "nothing to be done").

(** "If zero units are flagged the link step does not run and the build
    prints nothing to be done; if at least one is, the link step runs
    exactly once, on the object paths of all the units, in order, and
    then the output path": of the build that took [w0] to [w']. *)
Definition relinks (w0 w' : world) : Prop :=
  let t := since w0 w' in
  let units := source_files w' in
  (flagged units = [] →
   links_of t = [] ∧ last t = Some (Stdout "nothing to be done"))
  ∧ (flagged units ≠ [] →
     ∃ pre mid,
       links_of t
       = [pre ++ map cf_opath units ++ mid
          ++ [rootdir w' +:+ "/" +:+ appl w' +:+ ".so"]]).

(** "After every successful compile of a unit the modification time of
    its object is the one of its source." *)
Definition object_dated (E : environ) (cf : cfile) (w : world) : Prop :=
  ∀ w', compile_unit E cf w = Done tt w' →
    ∃ ost, sys_stat (w_objs w') (cf_opath cf) = StatOk ost
           ∧ st_mtime ost = st_mtime (cf_st cf).

(** "A zero-byte file under the assets tree is skipped with a
    diagnostic": the callback returns, and all it did was print a line. *)
Definition empty_asset_skipped (E : environ) (fpath d_name : string)
    (mtime : Z) (w : world) : Prop :=
  ∃ line,
    cli_build_asset E fpath d_name (StatOk (file_stat mtime [])) [] w
    = Done tt (emit (Stdout line) w).

(** "For every non-empty asset whose object is not stale, the build
    still registers a compilation unit flagged as not needing rebuild and
    still emits the three extern forward declarations into the shared
    asset header." *)
Definition fresh_asset_registered (E : environ) (fpath d_name : string)
    (st : stat) (data : list Byte.byte) (w : world) : Prop :=
  st_size st ≠ 0 →
  cli_file_requires_build E st
    (object_path (rootdir w) (logical_name true d_name)) w = Done false w →
  ∃ w' u n e,
    cli_build_asset E fpath d_name (StatOk st) data w = Done tt w'
    ∧ source_files w' = source_files w ++ [u] ∧ cf_build u = false
    ∧ w_text w' !! s_fd w
      = Some (default EmptyString (w_text w !! s_fd w) +:+ asset_externs n e).

(** * Properties *)

(** ** The monad *)

Lemma bind_unfold {A B} (m : M A) (k : A → M B) w :
  (m ≫= k) w = match m w with Done a w' => k a w' | Died w' => Died w' end.
Proof. reflexivity. Qed.

Lemma bind_Done {A B} (m : M A) (k : A → M B) w b w'' :
  (m ≫= k) w = Done b w'' ↔ ∃ a w', m w = Done a w' ∧ k a w' = Done b w''.
Proof.
  rewrite bind_unfold. split.
  - destruct (m w) as [a w'|w']; [eauto | discriminate].
  - intros (a & w' & -> & H). exact H.
Qed.

Lemma bind_Died {A B} (m : M A) (k : A → M B) w w'' :
  (m ≫= k) w = Died w'' ↔
  m w = Died w'' ∨ ∃ a w', m w = Done a w' ∧ k a w' = Died w''.
Proof.
  rewrite bind_unfold. split.
  - destruct (m w) as [a w'|w']; [eauto | intros [= ->]; auto].
  - intros [-> | (a & w' & -> & H)]; [reflexivity | exact H].
Qed.

(** ** C strings *)

Lemma append_cons (x : ascii) (a b : string) :
  String x a +:+ b = String x (a +:+ b).
Proof. reflexivity. Qed.

Lemma append_nil_l (b : string) : EmptyString +:+ b = b.
Proof. reflexivity. Qed.

Lemma append_assoc (a b c : string) : (a +:+ b) +:+ c = a +:+ (b +:+ c).
Proof.
  induction a as [|x a IH]; [reflexivity|].
  rewrite !append_cons. by rewrite IH.
Qed.

Lemma append_nil_r (a : string) : a +:+ EmptyString = a.
Proof.
  induction a as [|x a IH]; [reflexivity|]. rewrite append_cons. by rewrite IH.
Qed.

(** ** The staleness check *)

(** C1: the staleness check answers true when [stat] on the object fails
    with ENOENT; it ends the build with a fatal message when [stat]
    fails with another errno; and when [stat] succeeds it answers true
    exactly when the two modification times are not equal. *)
Theorem cli_file_requires_build_spec (E : environ) (fst : stat) (opath : string)
    (w : world) :
  (sys_stat (w_objs w) opath = StatErr ENOENT →
   cli_file_requires_build E fst opath w = Done true w) ∧
  (∀ errno, sys_stat (w_objs w) opath = StatErr errno → errno ≠ ENOENT →
   ∃ line, cli_file_requires_build E fst opath w = Died (emit (Stdout line) w)) ∧
  (∀ ost, sys_stat (w_objs w) opath = StatOk ost →
   ∃ b, cli_file_requires_build E fst opath w = Done b w ∧
        (b = true ↔ st_mtime fst ≠ st_mtime ost)).
Proof.
  unfold cli_file_requires_build. repeat split.
  - intros ->. reflexivity.
  - intros errno -> Hne. apply Z.eqb_neq in Hne. rewrite Hne.
    unfold cli_fatal. eauto.
  - intros ost ->. eexists. split; [reflexivity|].
    rewrite negb_true_iff. apply Z.eqb_neq.
Qed.

Lemma cli_file_requires_build_witness :
  let E := Demo.env (Demo.layout [] []) (Demo.toolchain true 0 0) in
  let fst := Demo.a_stat 100 in
  cli_file_requires_build E fst "./.objs/a.c.o" (Demo.boot ∅)
    = Done true (Demo.boot ∅)
  ∧ (∃ line,
       cli_file_requires_build E fst "./.objs/a.c.o"
         (Demo.boot {["./.objs/a.c.o" := Denied EACCES]})
       = Died (emit (Stdout line) (Demo.boot {["./.objs/a.c.o" := Denied EACCES]})))
  ∧ (∃ b,
       cli_file_requires_build E fst "./.objs/a.c.o"
         (Demo.boot {["./.objs/a.c.o" := Inode (Demo.a_stat 99) true]})
       = Done b (Demo.boot {["./.objs/a.c.o" := Inode (Demo.a_stat 99) true]})
       ∧ (b = true ↔ st_mtime fst ≠ 99)).
Proof.
  intros E fst. split; [|split].
  - apply (cli_file_requires_build_spec E fst "./.objs/a.c.o" (Demo.boot ∅)).
    reflexivity.
  - apply (cli_file_requires_build_spec E fst "./.objs/a.c.o"
             (Demo.boot {["./.objs/a.c.o" := Denied EACCES]})) with (errno := EACCES).
    + reflexivity.
    + discriminate.
  - apply (cli_file_requires_build_spec E fst "./.objs/a.c.o"
             (Demo.boot {["./.objs/a.c.o" := Inode (Demo.a_stat 99) true]})
          ) with (ost := Demo.a_stat 99).
    reflexivity.
Defined.

(** ** The extension of a path *)

Lemma strrchr_lt (s : string) (c : ascii) (i : nat) :
  CStr.strrchr s c = Some i → (i < String.length s)%nat.
Proof.
  revert i. induction s as [|a s IH]; intros i; simpl; [discriminate|].
  destruct (CStr.strrchr s c) as [j|].
  - intros [= <-]. specialize (IH j eq_refl). lia.
  - destruct (Ascii.eqb a c); intros [= <-]. lia.
Qed.

Lemma strrchr_app (a b : string) (c : ascii) :
  CStr.strrchr (a +:+ b) c =
  match CStr.strrchr b c with
  | Some i => Some (String.length a + i)%nat
  | None => CStr.strrchr a c
  end.
Proof.
  induction a as [|x a IH].
  - rewrite append_nil_l. simpl. by destruct (CStr.strrchr b c).
  - rewrite append_cons. simpl. rewrite IH.
    by destruct (CStr.strrchr b c).
Qed.

Lemma from_app_length (a b : string) (i : nat) :
  CStr.from (String.length a + i) (a +:+ b) = CStr.from i b.
Proof.
  induction a as [|x a IH]; [reflexivity|]. rewrite append_cons. exact IH.
Qed.

Lemma from_app_lt (a b : string) (i : nat) :
  (i < String.length a)%nat → CStr.from i (a +:+ b) = CStr.from i a +:+ b.
Proof.
  revert i. induction a as [|x a IH]; intros i Hi; simpl in Hi; [lia|].
  destruct i as [|i]; [reflexivity|].
  rewrite append_cons. simpl. apply IH. lia.
Qed.

Lemma mem_app (c : ascii) (a b : string) :
  CStr.mem c (a +:+ b) = CStr.mem c a || CStr.mem c b.
Proof.
  induction a as [|x a IH]; [reflexivity|].
  rewrite append_cons. simpl. rewrite IH. by rewrite orb_assoc.
Qed.

(** The extension [cli_register_cfile] reads off the path is the one of
    the file name, or holds a slash. *)
Lemma strrchr_path (dir d_name : string) :
  match CStr.strrchr (dir +:+ "/" +:+ d_name) "." with
  | None => CStr.strrchr d_name "." = None
  | Some j =>
      match CStr.strrchr d_name "." with
      | Some i => CStr.from j (dir +:+ "/" +:+ d_name) = CStr.from i d_name
      | None => CStr.mem "/" (CStr.from j (dir +:+ "/" +:+ d_name)) = true
      end
  end.
Proof.
  rewrite strrchr_app. change ("/" +:+ d_name) with (String "/" d_name).
  cbn [CStr.strrchr]. destruct (CStr.strrchr d_name ".") as [i|] eqn:Hn.
  - replace (String.length dir + S i)%nat with (String.length dir + 1 + i)%nat by lia.
    change (String "/" d_name) with ("/" +:+ d_name).
    rewrite <- append_assoc.
    replace (String.length dir + 1)%nat with (String.length (dir +:+ "/")).
    + by rewrite from_app_length.
    + clear. induction dir as [|x dir IH]; [reflexivity|].
      rewrite append_cons. simpl. by rewrite IH.
  - cbn. destruct (CStr.strrchr dir ".") as [j|] eqn:Hd; [|reflexivity].
    rewrite from_app_lt by eauto using strrchr_lt.
    rewrite mem_app. cbn. by rewrite orb_true_r.
Qed.

(** C10: a regular file found under the source directory whose name has
    no extension, or an extension that is neither ".c" nor ".cpp", is
    passed over: [cli_register_cfile] returns with the world as it was,
    so no unit is registered and nothing is printed. *)
Theorem cli_register_cfile_ignores (E : environ) (dir d_name : string)
    (sr : stat_result) (data : list Byte.byte) (w : world) :
  match CStr.strrchr d_name "." with
  | None => True
  | Some i => CStr.from i d_name ≠ ".c" ∧ CStr.from i d_name ≠ ".cpp"
  end →
  cli_register_cfile E (dir +:+ "/" +:+ d_name) d_name sr data w = Done tt w.
Proof.
  intros Hext. unfold cli_register_cfile.
  pose proof (strrchr_path dir d_name) as Hp.
  destruct (CStr.strrchr (dir +:+ "/" +:+ d_name) ".") as [j|]; [|reflexivity].
  set (ext := CStr.from j (dir +:+ "/" +:+ d_name)) in *.
  assert (CStr.streq ext ".c" = false ∧ CStr.streq ext ".cpp" = false) as [-> ->];
    [|reflexivity].
  unfold CStr.streq. rewrite !String.eqb_neq.
  destruct (CStr.strrchr d_name ".") as [i|].
  - rewrite Hp. exact Hext.
  - split; intros Heq; rewrite Heq in Hp; discriminate.
Qed.

Lemma cli_register_cfile_ignores_witness :
  let E := Demo.env (Demo.layout [] []) (Demo.toolchain true 0 0) in
  cli_register_cfile E ("./src" +:+ "/" +:+ "Makefile") "Makefile"
    (StatOk (Demo.a_stat 5)) [] (Demo.boot ∅) = Done tt (Demo.boot ∅)
  ∧ cli_register_cfile E ("./src" +:+ "/" +:+ "kore.h") "kore.h"
      (StatOk (Demo.a_stat 5)) [] (Demo.boot ∅) = Done tt (Demo.boot ∅).
Proof.
  intros E. split.
  - apply (cli_register_cfile_ignores E "./src" "Makefile"). exact I.
  - apply (cli_register_cfile_ignores E "./src" "kore.h"). split; discriminate.
Defined.

(** ** Writing text *)

Lemma cli_file_writef_ok (E : environ) (fd buf : string) (w : world) :
  write_errno E fd = None →
  cli_file_writef E fd buf w = Done tt (append_text fd buf w).
Proof. intros H. unfold cli_file_writef, cli_file_write. by rewrite H. Qed.

Lemma append_text_twice (fd a b : string) (w : world) :
  append_text fd b (append_text fd a w) = append_text fd (a +:+ b) w.
Proof.
  destruct w. unfold append_text, set_text. simpl. f_equal.
  rewrite lookup_insert_eq, insert_insert_eq. simpl. by rewrite append_assoc.
Qed.

Lemma cli_write_asset_ok (E : environ) (n e : string) (w : world) :
  write_errno E (s_fd w) = None →
  cli_write_asset E n e w = Done tt (append_text (s_fd w) (asset_externs n e) w).
Proof.
  intros H. unfold cli_write_asset.
  rewrite bind_unfold. unfold get at 1.
  rewrite bind_unfold, (cli_file_writef_ok _ _ _ _ H).
  rewrite bind_unfold, (cli_file_writef_ok _ _ _ _ H).
  rewrite (cli_file_writef_ok _ _ _ _ H).
  by rewrite !append_text_twice.
Qed.

(** ** Empty assets *)

(** C7, as amended: a zero-byte asset whose file name holds a '.' is
    skipped: the callback prints "skipping empty asset" with the
    sanitized name and returns; the world is otherwise as it was, so no
    unit is registered, no source is generated and the header gets no
    symbol. *)
Theorem cli_build_asset_skips_empty (E : environ) (fpath d_name : string)
    (mtime : Z) (w : world) :
  CStr.strrchr d_name "." ≠ None →
  cli_build_asset E fpath d_name (StatOk (file_stat mtime [])) [] w
  = Done tt (emit (Stdout ("skipping empty asset "
                           +:+ CStr.map sanitize_char d_name)) w).
Proof.
  intros Hext. unfold cli_build_asset.
  destruct (CStr.strrchr d_name ".") as [ext|]; [reflexivity | done].
Qed.

Lemma cli_build_asset_skips_empty_witness :
  cli_build_asset (Demo.env (Demo.layout [] []) (Demo.toolchain true 0 0))
    "./assets/empty.txt" "empty.txt" (StatOk (file_stat 5 [])) [] (Demo.boot ∅)
  = Done tt (emit (Stdout "skipping empty asset empty_txt") (Demo.boot ∅)).
Proof.
  apply (cli_build_asset_skips_empty _ "./assets/empty.txt" "empty.txt" 5).
  discriminate.
Defined.

(** C7, as the specification words it, fails on an empty asset whose
    name has no '.': the extension is looked for before the size, and
    the build dies there. *)
Lemma empty_asset_without_extension_is_fatal :
  let E := Demo.env (Demo.layout [] [Dirent "README" (File 5 [])])
             (Demo.toolchain true 0 0) in
  ¬ empty_asset_skipped E "./assets/README" "README" 5 (Demo.boot ∅)
  ∧ ∃ w, cli_build E [] (Demo.boot ∅) = Died w
         ∧ last (w_trace w) = Some (Stdout "kore build: couldn't find ext in README").
Proof.
  intros E. split.
  - intros [line H]. discriminate H.
  - eexists. split; reflexivity.
Qed.

(** ** Assets that are up to date *)

(** C8, as amended: for an asset whose file name holds a '.', that is
    not empty and whose object is not stale, the callback writes the
    three [extern] declarations at the end of the asset header (the write
    succeeding) and registers a unit with [build] clear; nothing else
    changes. *)
Theorem cli_build_asset_up_to_date (E : environ) (fpath d_name : string)
    (st : stat) (data : list Byte.byte) (w : world) (ext : nat) :
  let name := CStr.map sanitize_char d_name in
  let opath := rootdir w +:+ "/.objs/" +:+ name +:+ ".o" in
  let cpath := rootdir w +:+ "/.objs/" +:+ name +:+ ".c" in
  let n := CStr.upto ext name in
  let e := CStr.from (S ext) name in
  CStr.strrchr d_name "." = Some ext →
  st_size st ≠ 0 →
  cli_file_requires_build E st opath w = Done false w →
  write_errno E (s_fd w) = None →
  cli_build_asset E fpath d_name (StatOk st) data w
  = Done tt
      (set_source_files
         (source_files w ++ [Cfile st false false n cpath opath])
         (int_incr (cfiles_count w))
         (append_text (s_fd w) (asset_externs n e) w)).
Proof.
  intros name opath cpath n e Hext Hsize Hfresh Hwrite.
  unfold cli_build_asset. rewrite Hext.
  apply Z.eqb_neq in Hsize. rewrite Hsize.
  rewrite bind_unfold. unfold get at 1.
  rewrite bind_unfold. fold name. fold opath. rewrite Hfresh. cbn [negb].
  rewrite bind_unfold. fold n e. rewrite (cli_write_asset_ok _ _ _ _ Hwrite).
  reflexivity.
Qed.

Lemma cli_build_asset_up_to_date_witness :
  let E := Demo.env (Demo.layout [] []) (Demo.toolchain true 0 0) in
  let w := Demo.building {["./.objs/page_html.o" := Inode (Demo.a_stat 7) true]} in
  ∃ w', cli_build_asset E "./assets/page.html" "page.html"
          (StatOk (Stat S_IFREG 2 7)) [Byte.x68; Byte.x69] w = Done tt w'
        ∧ source_files w'
          = [Cfile (Stat S_IFREG 2 7) false false "page"
               "./.objs/page_html.c" "./.objs/page_html.o"]
        ∧ w_text w' !! "./src/assets.h" = Some (asset_externs "page" "html").
Proof.
  intros E w. eexists. split.
  - apply (cli_build_asset_up_to_date E "./assets/page.html" "page.html"
             (Stat S_IFREG 2 7) [Byte.x68; Byte.x69] w 4);
      [reflexivity | discriminate | reflexivity | reflexivity].
  - split; reflexivity.
Defined.

(** C8, as the specification words it, fails on an asset whose name has
    no '.': the extension is looked for before the object is, and the
    build dies there, although the asset is not empty and its object is
    up to date; no unit is registered and the header, opened with its
    guard, gets no declaration. *)
Lemma fresh_asset_without_extension_is_fatal :
  let E := Demo.env (Demo.layout [] [Dirent "README" (File 7 Demo.text)])
             (Demo.toolchain true 0 0) in
  let objs : gmap string inode :=
    {["./.objs/README.o" := Inode (Demo.a_stat 7) true]} in
  let w := Demo.building objs in
  st_size (Demo.a_stat 7) ≠ 0
  ∧ cli_file_requires_build E (Demo.a_stat 7) "./.objs/README.o" w = Done false w
  ∧ ¬ fresh_asset_registered E "./assets/README" "README" (Demo.a_stat 7)
        Demo.text w
  ∧ ∃ w', cli_build E [] (Demo.boot objs) = Died w'
          ∧ last (w_trace w')
            = Some (Stdout "kore build: couldn't find ext in README")
          ∧ source_files w' = []
          ∧ w_text w' !! "./src/assets.h"
            = Some (("#ifndef __H_KORE_ASSETS_H" +:+ nl)
                    +:+ ("#define __H_KORE_ASSETS_H" +:+ nl)).
Proof.
  intros E objs w.
  assert (st_size (Demo.a_stat 7) ≠ 0) as Hsize by (vm_compute; discriminate).
  assert (cli_file_requires_build E (Demo.a_stat 7) "./.objs/README.o" w
          = Done false w) as Hfresh by (vm_compute; reflexivity).
  split; [exact Hsize|]. split; [exact Hfresh|]. split.
  - intros H. destruct (H Hsize Hfresh) as (w' & u & n & e & Hd & _).
    vm_compute in Hd. discriminate Hd.
  - destruct (cli_build E [] (Demo.boot objs)) as [[] w'|w'] eqn:Hb;
      vm_compute in Hb; [discriminate Hb|].
    injection Hb as <-. eexists. split; [reflexivity|].
    repeat split; vm_compute; reflexivity.
Qed.

(** ** The time of an object after its compile *)

Lemma sys_utimes_stat (fs fs' : gmap string inode) (path : string) (sec : Z) :
  sys_utimes fs path sec = inr fs' →
  ∃ ost, sys_stat fs' path = StatOk ost ∧ st_mtime ost = sec.
Proof.
  unfold sys_utimes, sys_stat.
  destruct (fs !! path) as [[st [|]|e]|]; intros [= <-].
  rewrite lookup_insert_eq. eauto.
Qed.

Lemma set_object_times_spec (E : environ) (cf : cfile) (w : world) :
  let sec := st_mtime (cf_st cf) in
  match sys_utimes (w_objs w) (cf_opath cf) sec with
  | inr objs =>
      set_object_times E cf w
      = Done tt (emit (Utimes (cf_opath cf) sec 0) (set_objs (λ _, objs) w))
  | inl errno =>
      set_object_times E cf w
      = Done tt (emit (Stdout ("utime(" +:+ cf_opath cf +:+ "): "
                               +:+ strerror E errno))
                   (emit (Utimes (cf_opath cf) sec (-1)) w))
  end.
Proof.
  unfold set_object_times. simpl.
  by destruct (sys_utimes (w_objs w) (cf_opath cf) (st_mtime (cf_st cf))).
Qed.

(** C4, as amended: after a compile that succeeded the build calls
    [utimes] on the object with the modification time its source had
    when it was found.  When the call succeeds, [stat] on the object
    answers exactly that time, whatever the compiler left.  When it
    fails, the build prints "utime(<object>): <error>" and goes on. *)
Theorem compile_unit_dates_object (E : environ) (cf : cfile) (w w' : world) :
  let sec := st_mtime (cf_st cf) in
  compile_unit E cf w = Done tt w' →
  (last (w_trace w') = Some (Utimes (cf_opath cf) sec 0)
   ∧ ∃ ost, sys_stat (w_objs w') (cf_opath cf) = StatOk ost ∧ st_mtime ost = sec)
  ∨ (Utimes (cf_opath cf) sec (-1) ∈ w_trace w'
     ∧ ∃ errno, last (w_trace w')
                = Some (Stdout ("utime(" +:+ cf_opath cf +:+ "): "
                                +:+ strerror E errno))).
Proof.
  intros sec H. unfold compile_unit in H.
  apply bind_Done in H as ([] & w1 & _ & H).
  apply bind_Done in H as ([] & w2 & _ & H).
  pose proof (set_object_times_spec E cf w2) as Hs. fold sec in Hs. cbn zeta in Hs.
  destruct (sys_utimes (w_objs w2) (cf_opath cf) sec) as [errno|objs] eqn:Hu;
    rewrite Hs in H; injection H as <-.
  - right. split.
    + simpl. set_solver.
    + exists errno. simpl. apply last_snoc.
  - left. split.
    + simpl. apply last_snoc.
    + simpl. eapply sys_utimes_stat, Hu.
Qed.

Lemma compile_unit_dates_object_witness :
  let E := Demo.env (Demo.layout [] []) (Demo.toolchain true 1700000000 0) in
  let cf := Demo.a_source 42 in
  ∃ w', compile_unit E cf (Demo.building ∅) = Done tt w'
        ∧ ((last (w_trace w') = Some (Utimes (cf_opath cf) 42 0)
            ∧ ∃ ost, sys_stat (w_objs w') (cf_opath cf) = StatOk ost
                     ∧ st_mtime ost = 42)
           ∨ (Utimes (cf_opath cf) 42 (-1) ∈ w_trace w'
              ∧ ∃ errno, last (w_trace w')
                         = Some (Stdout ("utime(" +:+ cf_opath cf +:+ "): "
                                         +:+ strerror E errno)))).
Proof.
  intros E cf. eexists. split; [vm_compute; reflexivity|].
  apply (compile_unit_dates_object E cf (Demo.building ∅)).
  vm_compute; reflexivity.
Defined.

(** C4, as the specification words it, fails when [utimes] fails: a
    compiler that exits with status 0 and leaves no object (or one this
    process may not touch) is a successful compile, [utimes] returns -1,
    the build prints the error and goes on; the object has no time set. *)
Lemma object_not_dated_when_utimes_fails :
  let E := Demo.env (Demo.layout [Dirent "a.c" (File 42 Demo.text)] [])
             (Demo.toolchain false 1700000000 0) in
  ¬ object_dated E (Demo.a_source 42) (Demo.building ∅)
  ∧ ∃ w, cli_build E [] (Demo.boot ∅) = Done tt w
         ∧ stdout_of (w_trace w)
           = ["compiling a.c"; "utime(./.objs/a.c.o): errno 2";
              "app built successfully!"]
         ∧ sys_stat (w_objs w) "./.objs/a.c.o" = StatErr ENOENT.
Proof.
  intros E. split.
  - intros H.
    destruct (H (final (compile_unit E (Demo.a_source 42) (Demo.building ∅))))
      as (ost & Hst & _); [vm_compute; reflexivity|].
    vm_compute in Hst. discriminate Hst.
  - eexists. split; [vm_compute; reflexivity|]. split; vm_compute; reflexivity.
Qed.

(** ** The generated source of an asset *)

Lemma write_bytes_ok (E : environ) (fd : string) (d : list Byte.byte) (w : world) :
  write_errno E fd = None →
  ∃ w1, write_bytes E fd d w = Done tt w1
        ∧ ∀ tail, append_text fd tail w1
                  = append_text fd (hex_literals d +:+ tail) w.
Proof.
  intros Hw. revert w. induction d as [|b d IH]; intros w.
  - exists w. split; reflexivity.
  - cbn [write_bytes]. rewrite bind_unfold, (cli_file_writef_ok _ _ _ _ Hw).
    destruct (IH (append_text fd ("0x" +:+ fmt_02x b +:+ ",") w)) as (w1 & -> & Ht).
    exists w1. split; [reflexivity|]. intros tail.
    rewrite Ht, append_text_twice. cbn [hex_literals foldr].
    by rewrite !append_assoc.
Qed.

Lemma initializer_values_cons (b : Byte.byte) (s : string) :
  initializer_values (("0x" +:+ fmt_02x b +:+ ",") +:+ s)
  = match initializer_values s with
    | Some vs => Some (Byte.to_N b :: vs)
    | None => None
    end.
Proof. destruct b; reflexivity. Qed.

Lemma initializer_values_array (d : list Byte.byte) :
  initializer_values (array_initializer d) = Some (map Byte.to_N d ++ [0%N]).
Proof.
  unfold array_initializer. induction d as [|b d IH]; [reflexivity|].
  cbn [hex_literals foldr]. rewrite append_assoc, initializer_values_cons.
  fold (hex_literals d). by rewrite IH.
Qed.

Lemma assets_header_not_generated (root name : string) :
  assets_header root ≠ root +:+ "/.objs/" +:+ name +:+ ".c".
Proof.
  unfold assets_header. intros H. apply (inj (String.app root)) in H.
  discriminate H.
Qed.

Lemma cli_file_close_text (E : environ) (fd : string) (w : world) :
  ∃ w', cli_file_close E fd w = Done tt w'
        ∧ w_text w' = w_text w ∧ source_files w' = source_files w.
Proof.
  unfold cli_file_close. destruct (close_errno E fd); eexists; split; done.
Qed.

(** C6: the source generated for an asset of S bytes, S not 0, holds an
    array whose initializer is one two-digit hexadecimal literal for each
    byte of the asset, in order, and then one more element, 0; the
    length constant that follows is S as a [u_int32_t] and does not count
    that last element. *)
Theorem cli_build_asset_source (E : environ) (fpath d_name : string)
    (mtime : Z) (data : list Byte.byte) (w w' : world) (ext : nat) :
  let st := file_stat mtime data in
  let name := CStr.map sanitize_char d_name in
  let opath := rootdir w +:+ "/.objs/" +:+ name +:+ ".o" in
  let cpath := rootdir w +:+ "/.objs/" +:+ name +:+ ".c" in
  let n := CStr.upto ext name in
  let e := CStr.from (S ext) name in
  data ≠ [] →
  CStr.strrchr d_name "." = Some ext →
  s_fd w = assets_header (rootdir w) →
  cli_file_requires_build E st opath w = Done true w →
  cli_build_asset E fpath d_name (StatOk st) data w = Done tt w' →
  w_text w' !! cpath = Some (asset_source E n e st data)
  ∧ asset_source E n e st data
    = ("/* Auto generated */" +:+ nl) +:+
      ("#include <sys/param.h>" +:+ nl +:+ nl) +:+
      ("u_int8_t asset_" +:+ n +:+ "_" +:+ e +:+ "[] = {" +:+ nl) +:+
      array_initializer data +:+
      ("};" +:+ nl +:+ nl) +:+
      ("u_int32_t asset_len_" +:+ n +:+ "_" +:+ e +:+ " = "
       +:+ dec (Z.of_nat (length data) mod 2 ^ 32) +:+ ";" +:+ nl) +:+
      ("time_t asset_mtime_" +:+ n +:+ "_" +:+ e +:+ " = "
       +:+ PRI_TIME_T E mtime +:+ ";" +:+ nl)
  ∧ initializer_values (array_initializer data)
    = Some (map Byte.to_N data ++ [0%N]).
Proof.
  intros st name opath cpath n e Hdata Hext Hfd Hstale H.
  split; [|split; [reflexivity | apply initializer_values_array]].
  unfold cli_build_asset in H. rewrite Hext in H.
  assert ((st_size st =? 0) = false) as Hsz.
  { apply Z.eqb_neq. unfold st, file_stat. simpl. destruct data; [done|simpl; lia]. }
  rewrite Hsz in H.
  rewrite bind_unfold in H. unfold get at 1 in H.
  rewrite bind_unfold in H. fold name opath in H. rewrite Hstale in H. cbn [negb] in H.
  fold cpath n e in H.
  unfold cli_file_open in H. rewrite bind_unfold in H.
  destruct (open_errno E fpath); [discriminate H|]. cbn [mret M_ret] in H.
  destruct (mmap_errno E fpath); [discriminate H|].
  rewrite bind_unfold in H.
  destruct (open_errno E cpath); [discriminate H|].
  rewrite bind_unfold in H. unfold modify at 1 in H. cbn [mret M_ret] in H.
  rewrite bind_unfold in H. unfold printf at 1, modify at 1 in H.
  set (w1 := emit _ (set_text _ w)) in H.
  destruct (write_errno E cpath) eqn:Hwc.
  { rewrite bind_unfold in H. unfold cli_file_writef at 1, cli_file_write in H.
    rewrite Hwc in H. discriminate H. }
  do 3 (rewrite bind_unfold, (cli_file_writef_ok _ _ _ _ Hwc) in H).
  rewrite !append_text_twice in H.
  replace (take (Z.to_nat (st_size st)) data) with data in H
    by (unfold st; simpl; by rewrite Nat2Z.id, firstn_all).
  rewrite bind_unfold in H.
  match type of H with
  | context [write_bytes E cpath data ?w0] =>
      destruct (write_bytes_ok E cpath data w0 Hwc) as (w2 & Hb & Ht)
  end.
  rewrite Hb in H.
  do 4 (rewrite bind_unfold, (cli_file_writef_ok _ _ _ _ Hwc) in H).
  rewrite !append_text_twice, Ht, append_text_twice in H.
  rewrite bind_unfold in H.
  match type of H with
  | context [cli_write_asset E n e ?w0] => set (w3 := w0) in H
  end.
  assert (s_fd w3 = s_fd w) as Hfd3 by reflexivity.
  destruct (write_errno E (s_fd w3)) eqn:Hwh.
  { unfold cli_write_asset in H. rewrite bind_unfold in H. unfold get at 1 in H.
    rewrite bind_unfold in H. unfold cli_file_writef at 1, cli_file_write in H.
    rewrite Hwh in H. discriminate H. }
  rewrite (cli_write_asset_ok _ _ _ _ Hwh) in H.
  destruct (munmap_errno E fpath); [discriminate H|].
  rewrite bind_unfold in H.
  match type of H with
  | context [cli_file_close E fpath ?w0] =>
      destruct (cli_file_close_text E fpath w0) as (w4 & Hc4 & Ht4 & _)
  end.
  rewrite Hc4, bind_unfold in H.
  destruct (cli_file_close_text E cpath w4) as (w5 & Hc5 & Ht5 & _).
  rewrite Hc5 in H.
  unfold cli_add_cfile, modify in H. injection H as <-.
  cbn [w_text set_source_files]. rewrite Ht5, Ht4.
  unfold append_text at 1. cbn [w_text set_text].
  rewrite lookup_insert_ne.
  2:{ rewrite Hfd3, Hfd. apply assets_header_not_generated. }
  unfold w3, append_text. cbn [w_text set_text]. rewrite lookup_insert_eq.
  unfold w1. cbn [w_text set_text emit]. rewrite lookup_insert_eq.
  cbn [default]. rewrite append_nil_l.
  unfold asset_source, array_initializer. by rewrite !append_assoc.
Qed.

Lemma cli_build_asset_source_witness :
  let E := Demo.env (Demo.layout [] []) (Demo.toolchain true 0 0) in
  let data := [Byte.x68; Byte.x69; Byte.xff] in
  ∃ w', cli_build_asset E "./assets/page.html" "page.html"
          (StatOk (file_stat 7 data)) data (Demo.building ∅) = Done tt w'
        ∧ w_text w' !! "./.objs/page_html.c"
          = Some (asset_source E "page" "html" (file_stat 7 data) data)
        ∧ initializer_values (array_initializer data)
          = Some [104; 105; 255; 0]%N.
Proof.
  intros E data. eexists. split; [vm_compute; reflexivity|].
  match goal with
  | |- w_text ?w' !! _ = _ ∧ _ =>
      pose proof (cli_build_asset_source E "./assets/page.html" "page.html" 7
                    data (Demo.building ∅) w' 4) as H
  end.
  cbn zeta in H.
  destruct H as (Ht & _ & Hv);
    [discriminate | reflexivity | reflexivity | vm_compute; reflexivity
    | vm_compute; reflexivity | ].
  split; [exact Ht | exact Hv].
Defined.

(** ** The walk *)

Lemma node_induction (P : node → Prop) :
  (∀ mtime data, P (File mtime data)) →
  (∀ o entries, Forall (λ e, P (entry_node e)) entries → P (Dir o entries)) →
  P Special →
  (∀ errno, P (Unstattable errno)) →
  ∀ n, P n.
Proof.
  intros HF HD HS HU. fix IH 1.
  intros [mtime data|o entries| |errno]; [apply HF | | apply HS | apply HU].
  apply HD. induction entries as [|[d_name nd] entries IHe]; constructor.
  - apply IH.
  - exact IHe.
Qed.

Lemma visit_all_app (E : environ) (cb : callback) (l1 l2 : list found) (w : world) :
  visit_all E cb (l1 ++ l2) w = (visit_all E cb l1;; visit_all E cb l2) w.
Proof.
  revert w. induction l1 as [|[fpath d_name mtime data|line|msg] l1 IH]; intros w.
  - reflexivity.
  - cbn [visit_all app]. rewrite !bind_unfold.
    destruct (cb fpath d_name _ data w); [apply IH | reflexivity].
  - cbn [visit_all app]. rewrite !bind_unfold.
    destruct (fprintf_stderr line w); [apply IH | reflexivity].
  - reflexivity.
Qed.

(** [cli_find_files] calls the callback on the regular files of the
    tree, in the order of [found_in]. *)
Lemma find_files_found (E : environ) (cb : callback) (n : node) :
  ∀ path w, find_files E cb path n w = visit_all E cb (found_in E path n) w.
Proof.
  induction n as [mtime data|o entries IH| |errno] using node_induction;
    intros path w; try reflexivity.
  destruct o as [errno|]; [reflexivity|].
  cbn [find_files found_in]. revert w.
  induction IH as [|[d_name nd] entries Hnd _ IHe]; intros w; [reflexivity|].
  rewrite visit_all_app, !bind_unfold.
  destruct (CStr.streq d_name "." || CStr.streq d_name "..").
  { cbn [mret M_ret visit_all]. apply IHe. }
  destruct nd as [mtime data|o sub| |errno].
  - cbn [visit_all]. rewrite bind_unfold.
    destruct (cb _ d_name _ data w); [apply IHe | reflexivity].
  - rewrite <- (Hnd _ w). cbn [entry_node].
    destruct (find_files E cb _ (Dir o sub) w); [apply IHe | reflexivity].
  - cbn [visit_all]. apply IHe.
  - cbn [visit_all]. apply IHe.
Qed.

Lemma cli_find_files_found (E : environ) (path : string) (cb : callback) (w : world) :
  cli_find_files E path cb w = visit_all E cb (found_at E path) w.
Proof.
  unfold cli_find_files, found_at.
  destruct (tree E path); [apply find_files_found | reflexivity].
Qed.

(** ** What finding the files leaves alone

    From the check of the project to the end of the two walks the build
    starts no process and touches no object: it prints, writes text
    files, makes the object directory and appends units. *)

Definition respects (R : world → world → Prop) {A} (m : M A) : Prop :=
  ∀ w, R w (final (m w)).

Lemma respects_bind (R : world → world → Prop) `{!Transitive R} {A B}
    (m : M A) (k : A → M B) :
  respects R m → (∀ a, respects R (k a)) → respects R (m ≫= k).
Proof.
  intros Hm Hk w. rewrite bind_unfold. specialize (Hm w).
  destruct (m w) as [a w1|w1]; [|exact Hm].
  etrans; [exact Hm | apply Hk].
Qed.

Lemma respects_ret (R : world → world → Prop) `{!Reflexive R} {A} (a : A) :
  respects R (mret a).
Proof. intros w. reflexivity. Qed.

Lemma respects_get (R : world → world → Prop) `{!Reflexive R} {A} (f : world → A) :
  respects R (get f).
Proof. intros w. reflexivity. Qed.

Record discovers (w w' : world) : Prop := Discovers {
  dv_objs : w_objs w' = w_objs w;
  dv_dirs : w_dirs w ⊆ w_dirs w';
  dv_root : rootdir w' = rootdir w;
  dv_appl : appl w' = appl w;
  dv_compiler : compiler w' = compiler w;
  dv_trace : ∃ t, w_trace w' = w_trace w ++ t ∧ Forall printed t;
  dv_units : ∃ us, source_files w' = source_files w ++ us
}.

Global Instance discovers_refl : Reflexive discovers.
Proof.
  intros w. split; try reflexivity.
  - exists []. by rewrite app_nil_r.
  - exists []. by rewrite app_nil_r.
Qed.

Global Instance discovers_trans : Transitive discovers.
Proof.
  intros w1 w2 w3 [Ho Hd Hr Ha Hc (t & Ht & Hp) (us & Hu)]
    [Ho' Hd' Hr' Ha' Hc' (t' & Ht' & Hp') (us' & Hu')].
  split; try congruence.
  - set_solver.
  - exists (t ++ t'). rewrite Ht', Ht, <- app_assoc. split; [done|].
    by apply Forall_app.
  - exists (us ++ us'). by rewrite Hu', Hu, <- app_assoc.
Qed.

(** What the compiles and the link leave alone. *)
Record settled (w w' : world) : Prop := Settled {
  sd_units : source_files w' = source_files w;
  sd_root : rootdir w' = rootdir w;
  sd_appl : appl w' = appl w;
  sd_compiler : compiler w' = compiler w;
  sd_dirs : w_dirs w ⊆ w_dirs w'
}.

Global Instance settled_refl : Reflexive settled.
Proof. intros w. by split. Qed.

Global Instance settled_trans : Transitive settled.
Proof.
  intros w1 w2 w3 [Hu Hr Ha Hc Hd] [Hu' Hr' Ha' Hc' Hd'].
  split; try congruence. set_solver.
Qed.

(** A relation between worlds that holds across printing, writing text
    and opening the header is kept by every step of the build that does
    nothing else; [FrameDirs] adds making a directory. *)
Class Frame (R : world → world → Prop) := {
  frame_refl :: Reflexive R;
  frame_trans :: Transitive R;
  frame_emit e w : printed e → R w (emit e w);
  frame_text f w : R w (set_text f w);
  frame_s_fd fd w : R w (set_s_fd fd w)
}.

Class FrameDirs (R : world → world → Prop) :=
  frame_dirs p w : R w (set_dirs (λ d, {[p]} ∪ d) w).

Global Instance discovers_frame : Frame discovers.
Proof.
  split; try apply _.
  - intros e w He. split; try reflexivity.
    + exists [e]. split; [reflexivity | by constructor].
    + exists []. simpl. by rewrite app_nil_r.
  - intros f w. split; try reflexivity; exists []; simpl; by rewrite app_nil_r.
  - intros fd w. split; try reflexivity; exists []; simpl; by rewrite app_nil_r.
Qed.

Global Instance discovers_frame_dirs : FrameDirs discovers.
Proof.
  intros p w. split; try reflexivity; [simpl; set_solver | |];
    exists []; simpl; by rewrite app_nil_r.
Qed.

Global Instance settled_frame : Frame settled.
Proof. split; try apply _; intros; split; reflexivity. Qed.

Global Instance settled_frame_dirs : FrameDirs settled.
Proof. intros p w. split; try reflexivity. simpl. set_solver. Qed.

(** No directory is made, no object is touched. *)
Record same_files (w w' : world) : Prop := SameFiles {
  sf_dirs : w_dirs w' = w_dirs w;
  sf_objs : w_objs w' = w_objs w
}.

Global Instance same_files_frame : Frame same_files.
Proof.
  split.
  - by intros w.
  - intros w1 w2 w3 [] []. split; congruence.
  - by intros.
  - by intros.
  - by intros.
Qed.

Lemma discovers_add (u : cfile) (n : Z) (w : world) :
  discovers w (set_source_files (source_files w ++ [u]) n w).
Proof.
  split; try reflexivity; [exists []; simpl; by rewrite app_nil_r|].
  by exists [u].
Qed.

Section Frames.

Variable E : environ.
Context (R : world → world → Prop) `{!Frame R}.

Lemma frame_add_cfile name fpath opath st build cpp :
  (∀ u n w, R w (set_source_files (source_files w ++ [u]) n w)) →
  respects R (cli_add_cfile name fpath opath st build cpp).
Proof. intros H w. apply H. Qed.

Lemma frame_printf line : respects R (printf line).
Proof. intros w. by apply frame_emit. Qed.

Lemma frame_stderr line : respects R (fprintf_stderr line).
Proof. intros w. by apply frame_emit. Qed.

Lemma frame_fatal {A} msg : respects R (@cli_fatal E A msg).
Proof. intros w. by apply frame_emit. Qed.

Lemma frame_mkdir `{!FrameDirs R} fpath mode : respects R (cli_mkdir E fpath mode).
Proof.
  unfold cli_mkdir. destruct (mkdir_errno E fpath).
  - apply frame_fatal.
  - intros w. apply frame_dirs.
Qed.

Lemma frame_file_exists fpath : respects R (cli_file_exists E fpath).
Proof. apply respects_ret, _. Qed.

Lemma frame_dir_exists fpath : respects R (cli_dir_exists E fpath).
Proof. intros w. reflexivity. Qed.

Lemma frame_open fpath flags : respects R (cli_file_open E fpath flags).
Proof.
  unfold cli_file_open. destruct (open_errno E fpath).
  - apply frame_fatal.
  - destruct flags; [apply respects_ret, _|].
    intros w. apply frame_text.
Qed.

Lemma frame_close fd : respects R (cli_file_close E fd).
Proof.
  unfold cli_file_close. destruct (close_errno E fd).
  - apply frame_printf.
  - apply respects_ret, _.
Qed.

Lemma frame_write fd buf : respects R (cli_file_write E fd buf).
Proof.
  unfold cli_file_write. destruct (write_errno E fd).
  - apply frame_fatal.
  - intros w. apply frame_text.
Qed.

Lemma frame_writef fd buf : respects R (cli_file_writef E fd buf).
Proof. apply frame_write. Qed.

Lemma frame_unlink path : respects R (unlink path).
Proof. intros w. apply frame_text. Qed.

Lemma frame_write_bytes out d : respects R (write_bytes E out d).
Proof.
  induction d as [|b d IH]; [apply respects_ret, _|].
  cbn [write_bytes]. apply respects_bind; [apply _ | apply frame_writef | done].
Qed.

Lemma frame_requires_build fst opath :
  respects R (cli_file_requires_build E fst opath).
Proof.
  intros w. unfold cli_file_requires_build.
  destruct (sys_stat (w_objs w) opath) as [ost|errno]; [reflexivity|].
  destruct (errno =? ENOENT); [reflexivity | apply frame_fatal].
Qed.

End Frames.

Ltac frame_step :=
  first
    [ apply respects_ret, _ | apply respects_get, _
    | apply frame_printf, _ | apply frame_stderr, _ | apply frame_fatal, _
    | apply frame_mkdir; apply _ | apply frame_file_exists, _
    | apply frame_dir_exists, _ | apply frame_open, _ | apply frame_close, _
    | apply frame_write, _ | apply frame_writef, _ | apply frame_unlink, _
    | apply frame_write_bytes, _ | apply frame_requires_build, _
    | apply respects_bind; [apply _ | | intros ?]
    | match goal with
      | |- respects _ (match ?x with _ => _ end) => destruct x
      end ].

Section Discovers.

Variable E : environ.

Lemma frame_write_asset R `{!Frame R} n e : respects R (cli_write_asset E n e).
Proof. unfold cli_write_asset. repeat frame_step. Qed.

Lemma frame_file_create R `{!Frame R} name data :
  respects R (cli_file_create E name data).
Proof. unfold cli_file_create. repeat frame_step. Qed.

Lemma frame_generate_certs R `{!Frame R} : respects R (cli_generate_certs E).
Proof.
  unfold cli_generate_certs. repeat frame_step.
Qed.

Lemma frame_build_certs R `{!Frame R, !FrameDirs R} : respects R (build_certs E).
Proof.
  unfold build_certs. repeat frame_step. apply frame_generate_certs, _.
Qed.

Lemma discovers_add_cfile name fpath opath st build cpp :
  respects discovers (cli_add_cfile name fpath opath st build cpp).
Proof. intros w. apply discovers_add. Qed.

Ltac discover :=
  repeat first
    [ apply frame_write_asset, _ | apply discovers_add_cfile | frame_step ].

Lemma discovers_build_asset fpath d_name sr data :
  respects discovers (cli_build_asset E fpath d_name sr data).
Proof. unfold cli_build_asset. discover. Qed.

Lemma discovers_register_cfile fpath d_name sr data :
  respects discovers (cli_register_cfile E fpath d_name sr data).
Proof. unfold cli_register_cfile. discover. Qed.

Lemma discovers_visit_all (cb : callback) l :
  (∀ fpath d_name sr data, respects discovers (cb fpath d_name sr data)) →
  respects discovers (visit_all E cb l).
Proof.
  intros Hcb. induction l as [|[fpath d_name mtime data|line|msg] l IH];
    cbn [visit_all]; discover; done.
Qed.

Lemma discovers_find_files path (cb : callback) :
  (∀ fpath d_name sr data, respects discovers (cb fpath d_name sr data)) →
  respects discovers (cli_find_files E path cb).
Proof.
  intros Hcb w. rewrite cli_find_files_found. by apply discovers_visit_all.
Qed.

Lemma discovers_build_check : respects discovers (build_check E).
Proof. unfold build_check. discover. Qed.

Lemma discovers_build_assets : respects discovers (build_assets E).
Proof.
  unfold build_assets. discover.
  - intros w. apply frame_s_fd.
  - apply discovers_find_files, discovers_build_asset.
Qed.

Lemma discovers_build_sources : respects discovers (build_sources E).
Proof.
  unfold build_sources. discover.
  apply discovers_find_files, discovers_register_cfile.
Qed.

End Discovers.

(** ** The status of a child *)

Lemma WEXITSTATUS_exited (code : Z) :
  WEXITSTATUS (wstatus (Exited code)) = Z.land code 255.
Proof.
  unfold WEXITSTATUS, wstatus.
  change 65280 with (Z.shiftl 255 8).
  rewrite <- Z.shiftl_land, Z.shiftr_shiftl_l by lia.
  rewrite Z.sub_diag, Z.shiftl_0_r, <- Z.land_assoc. reflexivity.
Qed.

Lemma low_bits_exited (code mask : Z) :
  0 <= mask < 256 → Z.land (wstatus (Exited code)) mask = 0.
Proof.
  intros Hm. unfold wstatus. apply Z.bits_inj'. intros n Hn.
  rewrite Z.land_spec, Z.bits_0.
  destruct (Z.lt_ge_cases n 8) as [Hlt|Hge].
  - by rewrite Z.shiftl_spec_low.
  - rewrite (Z.bits_above_log2 mask n), andb_false_r; [done | lia |].
    destruct (Z.eq_dec mask 0) as [->|]; [simpl; lia|].
    apply Z.log2_lt_pow2; [lia|].
    apply Z.lt_le_trans with (2 ^ 8); [lia|].
    apply Z.pow_le_mono_r; lia.
Qed.

Lemma WTERMSIG_killed (sig : Z) (core : bool) :
  1 <= sig <= 127 → WTERMSIG (wstatus (Killed sig core)) = sig.
Proof.
  intros Hs. unfold WTERMSIG, wstatus.
  rewrite Z.land_lor_distr_l.
  change 127 with (Z.ones 7). rewrite !Z.land_ones by lia.
  rewrite Z.mod_small by lia.
  destruct core;
    [change (128 mod 2 ^ 7) with 0 | change (0 mod 2 ^ 7) with 0];
    apply Z.lor_0_r.
Qed.

(** The test of [cli_spawn_proc] on the status of a child that ended. *)
Lemma status_test (e : ending) :
  match e with Exited _ => True | Killed sig _ => 1 <= sig <= 127 end →
  negb (WEXITSTATUS (wstatus e) =? 0) || negb (WTERMSIG (wstatus e) =? 0)
  || negb (WCOREDUMP (wstatus e) =? 0)
  = negb (clean_exit e).
Proof.
  destruct e as [code|sig core]; intros He.
  - rewrite WEXITSTATUS_exited. unfold WTERMSIG, WCOREDUMP.
    rewrite !low_bits_exited by lia. cbn [clean_exit]. simpl.
    by rewrite !orb_false_r.
  - rewrite WTERMSIG_killed by done. cbn [clean_exit].
    assert ((sig =? 0) = false) as -> by (apply Z.eqb_neq; lia).
    simpl. by rewrite orb_true_r.
Qed.

(** ** Children and the trace *)

Lemma jobs_of_app (t1 t2 : list event) :
  jobs_of (t1 ++ t2) = jobs_of t1 ++ jobs_of t2.
Proof. apply omap_app. Qed.

Lemma links_of_app (t1 t2 : list event) :
  links_of (t1 ++ t2) = links_of t1 ++ links_of t2.
Proof. apply omap_app. Qed.

Lemma stdout_of_app (t1 t2 : list event) :
  stdout_of (t1 ++ t2) = stdout_of t1 ++ stdout_of t2.
Proof. apply omap_app. Qed.

Lemma calm_app (t1 t2 : list event) : calm (t1 ++ t2) ↔ calm t1 ∧ calm t2.
Proof. apply Forall_app. Qed.

Lemma bad_end_app (t1 t2 : list event) : calm t1 → bad_end t2 → bad_end (t1 ++ t2).
Proof.
  intros H1 (t & pid & ret & status & msg & -> & Ht & Hf).
  exists (t1 ++ t), pid, ret, status, msg.
  rewrite app_assoc. split; [done|]. split; [by apply calm_app | done].
Qed.

Lemma printed_calm (t : list event) : Forall printed t → calm t.
Proof. intros H. eapply Forall_impl; [exact H|]. intros []; simpl; tauto. Qed.

Lemma printed_jobs (t : list event) : Forall printed t → jobs_of t = [].
Proof. induction 1 as [|[] t He _ IH]; try done. Qed.

Lemma printed_links (t : list event) : Forall printed t → links_of t = [].
Proof. induction 1 as [|[] t He _ IH]; try done. Qed.

Lemma good_wait (pid status : Z) :
  negb (WEXITSTATUS status =? 0) || negb (WTERMSIG status =? 0)
  || negb (WCOREDUMP status =? 0) = false →
  ¬ failed_wait (Waitpid pid pid status).
Proof.
  rewrite !orb_false_iff, !negb_false_iff, !Z.eqb_eq.
  intros [[? ?] ?] [?|[?|[?|?]]]; congruence.
Qed.

Lemma poor_wait (pid status : Z) :
  negb (WEXITSTATUS status =? 0) || negb (WTERMSIG status =? 0)
  || negb (WCOREDUMP status =? 0) = true →
  failed_wait (Waitpid pid pid status).
Proof.
  rewrite !orb_true_iff, !negb_true_iff, !Z.eqb_neq. simpl. tauto.
Qed.

Section Children.

Variable E : environ.

(** One call of the supervisor: what it adds to the trace. *)
Lemma cli_spawn_proc_outcome (j : job) (w : world) :
  let o := cli_spawn_proc E j w in
  settled w (final o) ∧
  ∃ t, w_trace (final o) = w_trace w ++ t ∧
    match o with
    | Done _ _ =>
        calm t ∧ jobs_of t = [j]
        ∧ links_of t = match j with Link => [driver E j w] | Compile _ => [] end
    | Died _ =>
        (calm t ∧ jobs_of t = []) ∨ (bad_end t ∧ jobs_of t = [j])
    end.
Proof.
  unfold cli_spawn_proc.
  destruct (spawn E (driver E j w) (w_objs w)) as [errno|pid objs [status|]].
  - split; [by split|]. eexists. split.
    + simpl. rewrite <- app_assoc. reflexivity.
    + left. split; [|done]. repeat constructor; by intros [].
  - destruct (negb (WEXITSTATUS status =? 0) || _ || _) eqn:Hs.
    + split; [by split|]. eexists. split.
      * simpl. rewrite <- !app_assoc. reflexivity.
      * right. split; [|done].
        exists [Fork (Z.pos pid); Exec j (compiler w) (driver E j w)],
          (Z.pos pid), (Z.pos pid), status. eexists.
        split; [reflexivity|]. split; [|by apply poor_wait].
        repeat constructor; by intros [].
    + split; [by split|]. eexists. split.
      * simpl. rewrite <- !app_assoc. reflexivity.
      * split; [|split; [done | by destruct j]].
        repeat constructor; try (by intros []). by apply good_wait.
  - split; [by split|]. eexists. split.
    + simpl. rewrite <- !app_assoc. reflexivity.
    + right. split; [|done].
      exists [Fork (Z.pos pid); Exec j (compiler w) (driver E j w)],
        (Z.pos pid), (-1), 0. eexists.
      split; [reflexivity|]. split; [|left; lia].
      repeat constructor; by intros [].
Qed.

Lemma set_object_times_outcome (cf : cfile) (w : world) :
  ∃ w' t, set_object_times E cf w = Done tt w' ∧ settled w w'
          ∧ w_trace w' = w_trace w ++ t ∧ calm t ∧ jobs_of t = []
          ∧ links_of t = [].
Proof.
  pose proof (set_object_times_spec E cf w) as H. cbn zeta in H.
  destruct (sys_utimes _ _ _); rewrite H; eexists _, _;
    (split; [reflexivity|]); (split; [by split|]);
    (split; [simpl; rewrite <- ?app_assoc; reflexivity|]);
    (split; [repeat constructor; by intros [] | done]).
Qed.

Lemma compile_unit_outcome (cf : cfile) (w : world) :
  let o := compile_unit E cf w in
  settled w (final o) ∧
  ∃ t, w_trace (final o) = w_trace w ++ t ∧
    match o with
    | Done _ _ => calm t ∧ jobs_of t = [Compile cf] ∧ links_of t = []
    | Died _ =>
        (calm t ∧ jobs_of t = []) ∨ (bad_end t ∧ jobs_of t = [Compile cf])
    end.
Proof.
  set (w1 := emit (Stdout ("compiling " +:+ cf_name cf)) w).
  assert (calm [Stdout ("compiling " +:+ cf_name cf)]) as Hp
    by (repeat constructor; by intros []).
  assert (settled w w1) as Hs0 by (by split).
  destruct (cli_spawn_proc_outcome (Compile cf) w1) as (Hs & t & Ht & Ho).
  cbn zeta.
  destruct (compile_unit E cf w) as [[] w3|w3] eqn:H; unfold compile_unit in H;
    cbn [final].
  - apply bind_Done in H as ([] & ? & [= <-] & H).
    apply bind_Done in H as ([] & w2 & H2 & H3). fold w1 in H2.
    rewrite H2 in Hs, Ht, Ho. cbn [final] in *.
    destruct Ho as (Hc & Hj & Hl).
    destruct (set_object_times_outcome cf w2)
      as (w3' & t' & H3' & Hs' & Ht' & Hc' & Hj' & Hl').
    rewrite H3' in H3. injection H3 as <-.
    split; [by repeat (etrans; [eassumption|])|].
    exists ([Stdout ("compiling " +:+ cf_name cf)] ++ t ++ t').
    rewrite Ht', Ht. unfold w1. cbn [w_trace emit]. rewrite <- !app_assoc.
    split; [done|].
    rewrite !calm_app, !jobs_of_app, !links_of_app, Hl, Hl', Hj, Hj'. done.
  - apply bind_Died in H as [[=]|([] & ? & [= <-] & H)].
    apply bind_Died in H as [H2|([] & w2 & H2 & H3)]; fold w1 in H2.
    2:{ destruct (set_object_times_outcome cf w2) as (? & ? & H3' & _).
        rewrite H3' in H3. discriminate H3. }
    rewrite H2 in Hs, Ht, Ho. cbn [final] in *.
    split; [by etrans|].
    exists ([Stdout ("compiling " +:+ cf_name cf)] ++ t).
    rewrite Ht. unfold w1. cbn [w_trace emit]. rewrite <- !app_assoc.
    split; [done|].
    rewrite calm_app, jobs_of_app. cbn [jobs_of omap app].
    destruct Ho as [[Hc Hj]|[Hb Hj]]; [by left | right].
    split; [by apply (bad_end_app [_] t) | done].
Qed.

End Children.

(** ** The loop over the units *)

Lemma flagged_cons (cf : cfile) (cfs : list cfile) :
  flagged (cf :: cfs) = if cf_build cf then cf :: flagged cfs else flagged cfs.
Proof.
  unfold flagged. destruct (cf_build cf) eqn:Hb.
  - by rewrite filter_cons_True.
  - rewrite filter_cons_False; [done|]. by rewrite Hb.
Qed.

Lemma flagged_app (l1 l2 : list cfile) :
  flagged (l1 ++ l2) = flagged l1 ++ flagged l2.
Proof. apply filter_app. Qed.

(** [requires_relink] after [n] increments, below the overflow. *)
Lemma iter_int_incr (n : nat) :
  Z.of_nat n <= INT_MAX → Nat.iter n int_incr 0 = Z.of_nat n.
Proof.
  unfold INT_MAX. induction n as [|n IH]; intros Hn; [reflexivity|].
  rewrite Nat.iter_succ, IH by lia. unfold int_incr.
  rewrite Z.mod_small by lia. lia.
Qed.

Section Loop.

Variable E : environ.

Lemma compile_loop_outcome (cfs : list cfile) :
  ∀ r w,
    let o := compile_loop E cfs r w in
    settled w (final o) ∧
    ∃ t, w_trace (final o) = w_trace w ++ t ∧
      match o with
      | Done r' _ =>
          calm t ∧ jobs_of t = map Compile (flagged cfs) ∧ links_of t = []
          ∧ r' = Nat.iter (length (flagged cfs)) int_incr r
      | Died _ =>
          (calm t ∨ bad_end t)
          ∧ jobs_of t `prefix_of` map Compile (flagged cfs)
      end.
Proof.
  induction cfs as [|cf cfs IH]; intros r w; cbn zeta.
  { split; [done|]. exists []. cbn. rewrite app_nil_r.
    split; [done|]. split; [constructor | done]. }
  cbn [compile_loop]. rewrite flagged_cons.
  destruct (cf_build cf); cbn [negb]; [|apply IH].
  rewrite bind_unfold.
  destruct (compile_unit_outcome E cf w) as (Hs & t & Ht & Ho).
  destruct (compile_unit E cf w) as [[] w1|w1]; cbn [final] in *.
  - destruct Ho as (Hc & Hj & Hl).
    destruct (IH (int_incr r) w1) as (Hs' & t' & Ht' & Ho').
    split; [by etrans|]. exists (t ++ t').
    rewrite Ht', Ht, <- app_assoc. split; [done|].
    destruct (compile_loop E cfs (int_incr r) w1) as [r' w2|w2].
    + destruct Ho' as (Hc' & Hj' & Hl' & ->).
      rewrite calm_app, jobs_of_app, links_of_app, Hj, Hj', Hl, Hl'.
      repeat split; try done. cbn [length map]. by rewrite Nat.iter_succ_r.
    + destruct Ho' as (Hc' & Hj').
      rewrite jobs_of_app, Hj. split.
      * destruct Hc'; [left; by apply calm_app | right; by apply bad_end_app].
      * cbn [map app]. by apply prefix_cons.
  - split; [done|]. exists t. split; [done|].
    destruct Ho as [[Hc ->]|[Hb ->]].
    + split; [by left | apply prefix_nil].
    + split; [by right|]. cbn [map]. apply prefix_cons, prefix_nil.
Qed.

Lemma build_link_outcome (r : Z) (w : world) :
  let o := build_link E r w in
  settled w (final o) ∧
  ∃ t, w_trace (final o) = w_trace w ++ t ∧
    match o with
    | Done _ _ =>
        calm t
        ∧ jobs_of t = (if r =? 0 then [] else [Link])
        ∧ links_of t = (if r =? 0 then [] else [cli_link_library E w])
        ∧ last t = Some (Stdout (if r =? 0 then "nothing to be done"
                                 else appl w +:+ " built successfully!"))
    | Died _ =>
        ((calm t ∧ jobs_of t = []) ∨ (bad_end t ∧ jobs_of t = [Link]))
        ∧ r ≠ 0
    end.
Proof.
  unfold build_link. destruct (r =? 0) eqn:Hr; cbn [negb].
  { split; [by split|]. exists [Stdout "nothing to be done"].
    split; [done|]. repeat split; try done. repeat constructor. by intros []. }
  apply Z.eqb_neq in Hr.
  destruct (cli_spawn_proc_outcome E Link w) as (Hs & t & Ht & Ho).
  cbn zeta. rewrite bind_unfold.
  destruct (cli_spawn_proc E Link w) as [[] w1|w1]; cbn [final] in *.
  - destruct Ho as (Hc & Hj & Hl).
    split; [etrans; [exact Hs|]; by split|].
    exists (t ++ [Stdout (appl w1 +:+ " built successfully!")]).
    unfold mbind, M_bind, get, printf, modify. cbn [final w_trace emit].
    rewrite Ht, <- app_assoc. split; [done|].
    rewrite calm_app, jobs_of_app, links_of_app, Hj, Hl, last_snoc.
    destruct Hs as [_ _ -> _ _].
    repeat split; try done. repeat constructor. by intros [].
  - split; [done|]. exists t. by repeat split.
Qed.

Lemma build_names_outcome (argv : list string) (w : world) :
  match build_names E argv w with
  | Done _ w' =>
      w_trace w' = w_trace w ∧ w_objs w' = w_objs w ∧ w_dirs w' = w_dirs w
      ∧ w_text w' = w_text w ∧ source_files w' = []
  | Died w' =>
      (∃ msg, w_trace w' = w_trace w ++ [Stdout msg])
      ∧ source_files w' = source_files w
  end.
Proof.
  unfold build_names, mbind, M_bind, modify, cli_fatal, mret, M_ret.
  destruct argv as [|a argv]; [destruct (getcwd E) as [errno|pwd]|];
    destruct (getenv E "CC"); cbn; eauto.
Qed.

End Loop.

(** ** The whole build: its children, in order *)

Lemma settled_link (E : environ) (w w' : world) :
  settled w w' → cli_link_library E w' = cli_link_library E w.
Proof. intros [Hu Hr Ha Hc _]. unfold cli_link_library. by rewrite Hu, Hr, Ha, Hc. Qed.

Lemma build_objects_outcome (E : environ) (w : world) :
  let o := build_objects E w in
  settled w (final o) ∧
  ∃ t, w_trace (final o) = w_trace w ++ t ∧
    match o with
    | Done r' _ =>
        calm t ∧ jobs_of t = map Compile (flagged (source_files w))
        ∧ links_of t = []
        ∧ r' = Nat.iter (length (flagged (source_files w))) int_incr 0
    | Died _ =>
        (calm t ∨ bad_end t)
        ∧ jobs_of t `prefix_of` map Compile (flagged (source_files w))
    end.
Proof. apply (compile_loop_outcome E (source_files w) 0 w). Qed.

(** The facts about one step of [cli_build] from its lemma [L], once the
    outcome [H] of the step is known. *)
Ltac step_facts L H :=
  let F := fresh "F" in
  pose proof L as F; cbn zeta in F; unfold respects in F;
  first [rewrite H in F | specialize (F _); rewrite H in F];
  cbn [final] in F.

Lemma cli_build_outcome (E : environ) (argv : list string) (w0 : world) :
  let o := cli_build E argv w0 in
  ∃ t, w_trace (final o) = w_trace w0 ++ t ∧
    match o with
    | Done _ w' =>
        let fl := flagged (source_files w') in
        let r := Nat.iter (length fl) int_incr 0 in
        calm t
        ∧ jobs_of t = map Compile fl ++ (if r =? 0 then [] else [Link])
        ∧ links_of t = (if r =? 0 then [] else [cli_link_library E w'])
        ∧ last t = Some (Stdout (if r =? 0 then "nothing to be done"
                                 else appl w' +:+ " built successfully!"))
    | Died w' =>
        (calm t ∨ bad_end t) ∧ jobs_of t `prefix_of` plan (source_files w')
    end.
Proof.
  cbn zeta. destruct (cli_build E argv w0) as [[] w7|wx] eqn:H;
    unfold cli_build in H; cbn [final].
  - apply bind_Done in H as ([] & w1 & H1 & H).
    apply bind_Done in H as ([] & w2 & H2 & H).
    apply bind_Done in H as ([] & w3 & H3 & H).
    apply bind_Done in H as ([] & w4 & H4 & H).
    apply bind_Done in H as (r & w5 & H5 & H).
    apply bind_Done in H as ([] & w6 & H6 & H7).
    step_facts (build_names_outcome E argv w0) H1.
    destruct F as (T1 & _).
    step_facts (discovers_build_check E w1) H2.
    destruct F as [_ _ _ _ _ (t2 & T2 & P2) _].
    step_facts (discovers_build_assets E w2) H3.
    destruct F as [_ _ _ _ _ (t3 & T3 & P3) _].
    step_facts (discovers_build_sources E w3) H4.
    destruct F as [_ _ _ _ _ (t4 & T4 & P4) _].
    step_facts (build_objects_outcome E w4) H5.
    destruct F as (S5 & t5 & T5 & C5 & J5 & L5 & ->).
    step_facts (frame_build_certs E discovers w5) H6.
    destruct F as [_ _ _ _ _ (t6 & T6 & P6) _].
    step_facts (frame_build_certs E settled w5) H6. rename F into S6.
    step_facts (build_link_outcome E
                  (Nat.iter (length (flagged (source_files w4))) int_incr 0) w6) H7.
    destruct F as (S7 & t7 & T7 & C7 & J7 & L7 & O7).
    assert (settled w4 w7) as S by (etrans; [exact S5|]; by etrans).
    assert (source_files w7 = source_files w4) as -> by apply S.
    exists (t2 ++ t3 ++ t4 ++ t5 ++ t6 ++ t7).
    rewrite T7, T6, T5, T4, T3, T2, T1, <- !app_assoc. split; [done|].
    rewrite !calm_app, !jobs_of_app, !links_of_app.
    rewrite !(printed_jobs _ P2), !(printed_jobs _ P3), !(printed_jobs _ P4),
      !(printed_jobs _ P6), !(printed_links _ P2), !(printed_links _ P3),
      !(printed_links _ P4), !(printed_links _ P6), J5, J7, L5, L7.
    rewrite (settled_link E w6 w7 S7), (sd_appl _ _ S7).
    cbn [app]. repeat split; auto using printed_calm.
    destruct t7 as [|e7 t7 _] using rev_ind; [discriminate O7|].
    rewrite !app_assoc, last_snoc. by rewrite last_snoc in O7.
  - assert (∀ w t, calm t → jobs_of t = [] →
              (calm t ∨ bad_end t) ∧ jobs_of t `prefix_of` plan (source_files w))
      as Hquiet by (intros ?? ? ->; split; [by left | apply prefix_nil]).
    apply bind_Died in H as [H1|([] & w1 & H1 & H)].
    { step_facts (build_names_outcome E argv w0) H1.
      destruct F as ((msg & T1) & _). exists [Stdout msg]. split; [done|].
      apply Hquiet; [|done]. repeat constructor. by intros []. }
    step_facts (build_names_outcome E argv w0) H1. destruct F as (T1 & _).
    apply bind_Died in H as [H2|([] & w2 & H2 & H)].
    { step_facts (discovers_build_check E w1) H2.
      destruct F as [_ _ _ _ _ (t2 & T2 & P2) _].
      exists t2. rewrite T2, T1. split; [done|].
      apply Hquiet; auto using printed_calm, printed_jobs. }
    step_facts (discovers_build_check E w1) H2.
    destruct F as [_ _ _ _ _ (t2 & T2 & P2) _].
    apply bind_Died in H as [H3|([] & w3 & H3 & H)].
    { step_facts (discovers_build_assets E w2) H3.
      destruct F as [_ _ _ _ _ (t3 & T3 & P3) _].
      exists (t2 ++ t3). rewrite T3, T2, T1, <- app_assoc. split; [done|].
      apply Hquiet; [apply printed_calm | apply printed_jobs];
        rewrite !Forall_app; auto. }
    step_facts (discovers_build_assets E w2) H3.
    destruct F as [_ _ _ _ _ (t3 & T3 & P3) _].
    apply bind_Died in H as [H4|([] & w4 & H4 & H)].
    { step_facts (discovers_build_sources E w3) H4.
      destruct F as [_ _ _ _ _ (t4 & T4 & P4) _].
      exists (t2 ++ t3 ++ t4). rewrite T4, T3, T2, T1, <- !app_assoc.
      split; [done|].
      apply Hquiet; [apply printed_calm | apply printed_jobs];
        rewrite !Forall_app; auto. }
    step_facts (discovers_build_sources E w3) H4.
    destruct F as [_ _ _ _ _ (t4 & T4 & P4) _].
    assert (Forall printed (t2 ++ t3 ++ t4)) as P by (rewrite !Forall_app; auto).
    apply bind_Died in H as [H5|(r & w5 & H5 & H)].
    { step_facts (build_objects_outcome E w4) H5.
      destruct F as (S5 & t5 & T5 & C5 & J5).
      exists ((t2 ++ t3 ++ t4) ++ t5).
      split; [by rewrite T5, T4, T3, T2, T1, <- !app_assoc|].
      rewrite jobs_of_app, (printed_jobs _ P). cbn [app].
      rewrite (sd_units _ _ S5). split.
      - destruct C5; [left; apply calm_app; auto using printed_calm|].
        right. apply bad_end_app; auto using printed_calm.
      - unfold plan. by apply prefix_app_r. }
    step_facts (build_objects_outcome E w4) H5.
    destruct F as (S5 & t5 & T5 & C5 & J5 & L5 & ->).
    apply bind_Died in H as [H6|([] & w6 & H6 & H7)].
    { step_facts (frame_build_certs E discovers w5) H6.
      destruct F as [_ _ _ _ _ (t6 & T6 & P6) _].
      step_facts (frame_build_certs E settled w5) H6. rename F into S6.
      exists ((t2 ++ t3 ++ t4) ++ t5 ++ t6).
      split; [by rewrite T6, T5, T4, T3, T2, T1, <- !app_assoc|].
      rewrite !jobs_of_app, (printed_jobs _ P2), (printed_jobs _ P3),
      (printed_jobs _ P4), (printed_jobs _ P6), J5.
      rewrite app_nil_r. cbn [app].
      rewrite (sd_units _ _ S6), (sd_units _ _ S5). split.
      - left. rewrite !calm_app. repeat split; auto using printed_calm.
      - unfold plan. rewrite ?app_nil_r. by apply prefix_app_r. }
    step_facts (frame_build_certs E discovers w5) H6.
    destruct F as [_ _ _ _ _ (t6 & T6 & P6) _].
    step_facts (frame_build_certs E settled w5) H6. rename F into S6.
    step_facts (build_link_outcome E
                  (Nat.iter (length (flagged (source_files w4))) int_incr 0) w6) H7.
    destruct F as (S7 & t7 & T7 & C7 & _).
    exists (((t2 ++ t3 ++ t4) ++ t5 ++ t6) ++ t7).
    split; [by rewrite T7, T6, T5, T4, T3, T2, T1, <- !app_assoc|].
    rewrite !jobs_of_app, (printed_jobs _ P2), (printed_jobs _ P3),
      (printed_jobs _ P4), (printed_jobs _ P6), J5.
    rewrite app_nil_r. cbn [app].
    rewrite (sd_units _ _ S7), (sd_units _ _ S6), (sd_units _ _ S5).
    assert (calm ((t2 ++ t3 ++ t4) ++ t5 ++ t6)) as C
      by (rewrite !calm_app; repeat split; auto using printed_calm).
    unfold plan. destruct C7 as [[C7 ->]|[C7 ->]].
    + split; [left; by apply calm_app|].
      rewrite ?app_nil_r. by apply prefix_app_r.
    + split; [right; by apply bad_end_app|]. by rewrite app_nil_r.
Qed.

Lemma since_app (w w' : world) (t : list event) :
  w_trace w' = w_trace w ++ t → since w w' = t.
Proof. intros H. unfold since. by rewrite H, drop_app_length. Qed.

Lemma failed_wait_at (t1 pre post : list event) (e w s : event) :
  calm t1 → ¬ failed_wait s → failed_wait e →
  pre ++ e :: post = t1 ++ [w; s] → post = [s].
Proof.
  intros Hc Hs He. revert pre. induction t1 as [|x t1 IH]; intros pre H.
  - destruct pre as [|? [|? [|? pre]]]; simplify_eq/=; done.
  - inversion Hc as [|?? Hx Hc']; subst.
    destruct pre as [|y pre]; simplify_eq/=; [done|]. by eapply IH.
Qed.

(** ** The supervisor *)

(** C9: [cli_spawn_proc] forks, the child runs the driver, and the
    parent waits for the pid [fork] returned.  A child that ended with an
    exit status other than 0, or was killed by a signal, with or without
    a core, makes the build die on the spot with "subprocess trouble,
    check output"; a child that exited with 0 lets it go on.  In a whole
    build the children are the planned ones, each at most once and in
    order, and a wait that fails or reports trouble is followed by the
    fatal line and nothing else. *)
Theorem cli_spawn_proc_supervises (E : environ) :
  (∀ j w pid objs e,
     spawn E (driver E j w) (w_objs w) = Forked pid objs (Some (wstatus e)) →
     match e with Exited _ => True | Killed sig _ => 1 <= sig <= 127 end →
     let seen := [Fork (Z.pos pid); Exec j (compiler w) (driver E j w);
                  Waitpid (Z.pos pid) (Z.pos pid) (wstatus e)] in
     if clean_exit e
     then ∃ w', cli_spawn_proc E j w = Done tt w' ∧ since w w' = seen
     else ∃ w', cli_spawn_proc E j w = Died w'
                ∧ since w w'
                  = seen ++ [Stdout (fatal_line E "subprocess trouble, check output")])
  ∧ (∀ argv w0,
       let o := cli_build E argv w0 in
       let t := since w0 (final o) in
       jobs_of t `prefix_of` plan (source_files (final o))
       ∧ ∀ pre e post,
           t = pre ++ e :: post → failed_wait e →
           (∃ line, post = [Stdout line]) ∧ ∃ w', o = Died w').
Proof.
  split.
  - intros j w pid objs e Hspawn He seen.
    pose proof (status_test e He) as Hs.
    unfold cli_spawn_proc. rewrite Hspawn, Hs.
    destruct (clean_exit e); cbn [negb]; eexists; (split; [reflexivity|]);
      apply since_app; cbn [w_trace emit set_objs]; by rewrite <- !app_assoc.
  - intros argv w0 o t.
    destruct (cli_build_outcome E argv w0) as (t' & Ht & Ho).
    fold o in Ht, Ho. apply since_app in Ht. fold t in Ht. subst t'.
    destruct o as [[] w'|w']; cbn [final] in *.
    + destruct Ho as (Hc & Hj & _). split.
      * rewrite Hj. unfold plan. apply prefix_app.
        destruct (_ =? 0); [apply prefix_nil | done].
      * intros pre e post -> He. apply calm_app in Hc as [_ Hc].
        inversion Hc; subst. done.
    + destruct Ho as (Hc & Hj). split; [done|].
      intros pre e post Ht He. destruct Hc as [Hc|Hb].
      * rewrite Ht in Hc. apply calm_app in Hc as [_ Hc].
        inversion Hc; subst. done.
      * destruct Hb as (t1 & pid & ret & status & msg & Hb & Hc & _).
        rewrite Ht in Hb. split; [|by eauto]. exists msg.
        eapply failed_wait_at; [exact Hc | | exact He | exact Hb]. by intros [].
Qed.

Lemma cli_spawn_proc_supervises_witness :
  let E := Demo.env (Demo.layout [] []) (Demo.toolchain true 0 (wstatus (Exited 1))) in
  let E' := Demo.env (Demo.layout [] [])
              (Demo.toolchain false 0 (wstatus (Killed 11 true))) in
  let w := Demo.building ∅ in
  (∃ w', cli_spawn_proc E Link w = Died w'
         ∧ since w w'
           = [Fork 4321; Exec Link "gcc" (driver E Link w); Waitpid 4321 4321 256;
              Stdout "kore build: subprocess trouble, check output"])
  ∧ (∃ w', cli_spawn_proc E' Link w = Died w'
           ∧ since w w'
             = [Fork 4321; Exec Link "gcc" (driver E' Link w);
                Waitpid 4321 4321 139;
                Stdout "kore build: subprocess trouble, check output"]).
Proof.
  intros E E' w. split.
  - apply (proj1 (cli_spawn_proc_supervises E) Link w 4321%positive
             (<["./app.so" := Inode (Stat S_IFREG 64 0) true]> ∅) (Exited 1));
      [reflexivity | exact I].
  - apply (proj1 (cli_spawn_proc_supervises E') Link w 4321%positive ∅
             (Killed 11 true)); [reflexivity | lia].
Defined.

(** ** The link step *)

Lemma flagged_length (cfs : list cfile) : (length (flagged cfs) <= length cfs)%nat.
Proof. apply length_filter. Qed.

(** C2, as amended: in a build that is not cut short by a fatal error
    (and has at most INT_MAX units), when no unit is flagged the link
    step does not run and the last thing printed is "nothing to be
    done"; when at least one is, the link step runs exactly once, and
    its argument vector is the one of [cli_link_library]: the object
    paths of all the units, in the order of the list, then "-o" and
    <rootdir>/<appl>.so last. *)
Theorem cli_build_relinks (E : environ) (argv : list string) (w0 w' : world) :
  cli_build E argv w0 = Done tt w' →
  Z.of_nat (length (source_files w')) <= INT_MAX →
  relinks w0 w'
  ∧ (flagged (source_files w') ≠ [] →
     links_of (since w0 w') = [cli_link_library E w']).
Proof.
  intros H Hn.
  destruct (cli_build_outcome E argv w0) as (t & Ht & Ho).
  rewrite H in Ht, Ho. cbn [final] in *. cbn zeta in Ho.
  destruct Ho as (_ & _ & Hl & Hlast).
  apply since_app in Ht. unfold relinks. cbn zeta. rewrite Ht.
  rewrite iter_int_incr in Hl, Hlast
    by (pose proof (flagged_length (source_files w')); lia).
  destruct (flagged (source_files w')) as [|cf fl] eqn:Hfl.
  - cbn in Hl, Hlast. by repeat split.
  - assert ((Z.of_nat (length (cf :: fl)) =? 0) = false) as Hz
      by (apply Z.eqb_neq; cbn [length]; lia).
    rewrite Hz in Hl. repeat split; try done. intros _.
    rewrite Hl. unfold cli_link_library. cbn zeta.
    match goal with
    | |- ∃ pre mid, [?a ++ ?b ++ ?m ++ ?c ++ ?f ++ [?o; ?l]] = _ =>
        exists (a ++ b), (c ++ f ++ [o])
    end.
    by rewrite <- !app_assoc.
Qed.

Lemma cli_build_relinks_witness :
  let E := Demo.env (Demo.layout [Dirent "a.c" (File 42 Demo.text)] [])
             (Demo.toolchain true 1700000000 0) in
  ∃ w', cli_build E [] (Demo.boot ∅) = Done tt w'
        ∧ relinks (Demo.boot ∅) w'
        ∧ (flagged (source_files w') ≠ [] →
           links_of (since (Demo.boot ∅) w') = [cli_link_library E w']).
Proof.
  intros E. eexists. split; [vm_compute; reflexivity|].
  apply (cli_build_relinks E [] (Demo.boot ∅)); [vm_compute; reflexivity|].
  vm_compute. discriminate.
Defined.

(** C2, as the specification words it, fails for a build that dies
    before the link: a unit is flagged, its compile exits with status 1,
    and the link step never runs. *)
Lemma no_link_after_failed_compile :
  let E := Demo.env (Demo.layout [Dirent "a.c" (File 42 Demo.text)] [])
             (Demo.toolchain false 1700000000 (wstatus (Exited 1))) in
  let w' := final (cli_build E [] (Demo.boot ∅)) in
  ¬ relinks (Demo.boot ∅) w'
  ∧ flagged (source_files w') = [Demo.a_source 42]
  ∧ jobs_of (since (Demo.boot ∅) w') = [Compile (Demo.a_source 42)]
  ∧ last (w_trace w')
    = Some (Stdout "kore build: subprocess trouble, check output").
Proof.
  intros E w'. split; [|by vm_compute].
  intros [_ H]. destruct H as (pre & mid & H); [by vm_compute|].
  vm_compute in H. discriminate H.
Qed.

(** ** The units and their object paths *)

Lemma append_length (a b : string) :
  String.length (a +:+ b) = (String.length a + String.length b)%nat.
Proof.
  induction a as [|x a IH]; [reflexivity|]. rewrite append_cons. simpl. by rewrite IH.
Qed.

Lemma append_inj_r (a b s : string) : a +:+ s = b +:+ s → a = b.
Proof.
  revert b. induction a as [|x a IH]; intros [|y b] H.
  - reflexivity.
  - apply (f_equal String.length) in H. rewrite !append_length in H.
    simpl in H. lia.
  - apply (f_equal String.length) in H. rewrite !append_length in H.
    simpl in H. lia.
  - rewrite !append_cons in H. injection H as -> H. f_equal. by apply IH.
Qed.

Lemma object_path_inj (root a b : string) :
  object_path root a = object_path root b ↔ a = b.
Proof.
  split; [|by intros ->]. unfold object_path. intros H.
  apply (inj (String.app root)) in H.
  apply (inj (String.app "/.objs/")) in H.
  exact (append_inj_r _ _ _ H).
Qed.

(** An invariant of the world, seen as a relation between the worlds
    before and after a step. *)
Definition keeps (I : world → Prop) (w w' : world) : Prop := I w → I w'.

Global Instance keeps_refl I : Reflexive (keeps I).
Proof. intros w H. exact H. Qed.

Global Instance keeps_trans I : Transitive (keeps I).
Proof. intros w1 w2 w3 H1 H2 H. exact (H2 (H1 H)). Qed.

(** The units all come from files of the project in [root]. *)
Definition from_project (E : environ) (root : string) (w : world) : Prop :=
  rootdir w = root ∧ Forall (unit_from E root) (source_files w).

Global Instance from_project_frame E root : Frame (keeps (from_project E root)).
Proof. split; try apply _; intros; intros Hw; exact Hw. Qed.

Global Instance from_project_frame_dirs E root :
  FrameDirs (keeps (from_project E root)).
Proof. intros p w Hw. exact Hw. Qed.

Section Units.

Variable E : environ.
Variable root : string.

Abbreviation R := (keeps (from_project E root)).

Lemma units_get_root {A} (k : string → M A) :
  respects R (k root) → respects R (get rootdir ≫= k).
Proof. intros Hk w Hw. rewrite bind_unfold. cbn. destruct Hw as [<- ?]. by apply Hk. Qed.

Lemma units_add_cfile name fpath opath st build cpp :
  unit_from E root (Cfile st build cpp name fpath opath) →
  respects R (cli_add_cfile name fpath opath st build cpp).
Proof.
  intros Hu w [Hr Hf]. split; [done|]. cbn.
  apply Forall_app_2; [done|]. by apply Forall_singleton.
Qed.

Lemma units_settled {A} (m : M A) : respects settled m → respects R m.
Proof. intros Hm w [Hr Hf]. destruct (Hm w) as [Hu Hr' _ _ _]. split; congruence. Qed.

Lemma units_build_asset fpath d_name mtime data :
  Visit fpath d_name mtime data ∈ found_at E (root +:+ "/assets") →
  respects R (cli_build_asset E fpath d_name (StatOk (file_stat mtime data)) data).
Proof.
  intros Hv. unfold cli_build_asset.
  destruct (CStr.strrchr d_name ".") as [ext|]; [|apply frame_fatal, _].
  destruct (_ =? 0); [apply frame_printf, _|].
  apply units_get_root.
  repeat first
    [ apply frame_write_asset, _
    | apply units_add_cfile; left; by exists fpath, d_name, mtime, data
    | frame_step ].
Qed.

Lemma units_register_cfile fpath d_name mtime data :
  Visit fpath d_name mtime data ∈ found_at E (root +:+ "/src") →
  respects R (cli_register_cfile E fpath d_name (StatOk (file_stat mtime data)) data).
Proof.
  intros Hv. unfold cli_register_cfile.
  destruct (CStr.strrchr fpath ".") as [i|]; [|apply respects_ret, _].
  destruct (_ && _); [apply respects_ret, _|].
  apply units_get_root.
  repeat first
    [ apply units_add_cfile; right; by exists fpath, d_name, mtime, data
    | frame_step ].
Qed.

Lemma frame_visit_all (Q : world → world → Prop) `{!Frame Q} (cb : callback) l :
  (∀ fpath d_name mtime data,
     Visit fpath d_name mtime data ∈ l →
     respects Q (cb fpath d_name (StatOk (file_stat mtime data)) data)) →
  respects Q (visit_all E cb l).
Proof.
  induction l as [|[fpath d_name mtime data|line|msg] l IH]; intros Hcb;
    cbn [visit_all]; repeat frame_step.
  - apply Hcb. left.
  - apply IH. intros. apply Hcb. by right.
  - apply IH. intros. apply Hcb. by right.
Qed.

Lemma units_build_assets : respects R (build_assets E).
Proof.
  unfold build_assets. apply units_get_root. repeat frame_step.
  - intros w. by apply frame_s_fd.
  - intros w. rewrite cli_find_files_found. revert w.
    apply frame_visit_all; [apply _|]. apply units_build_asset.
Qed.

Lemma units_build_sources : respects R (build_sources E).
Proof.
  unfold build_sources. apply units_get_root.
  intros w. rewrite cli_find_files_found. revert w.
  apply frame_visit_all; [apply _|]. apply units_register_cfile.
Qed.

Lemma units_build_rest :
  respects R (build_check E;; build_assets E;; build_sources E;;
              requires_relink ← build_objects E;
              build_certs E;; build_link E requires_relink).
Proof.
  apply respects_bind; [apply _ | unfold build_check; repeat frame_step | intros _].
  apply respects_bind; [apply _ | apply units_build_assets | intros _].
  apply respects_bind; [apply _ | apply units_build_sources | intros _].
  apply respects_bind; [apply _ | | intros r].
  { apply units_settled. intros w. apply build_objects_outcome. }
  apply respects_bind; [apply _ | apply frame_build_certs; apply _ | intros _].
  apply units_settled. intros w. apply build_link_outcome.
Qed.

End Units.

(** C3, as amended: every unit registered by a build comes from a
    regular file found under the assets or the sources, and its object
    path is <rootdir>/.objs/<name>.o, where <name> is the file's base name
    for a source and the file's base name with '.', white space and '-'
    replaced by '_' for an asset.  Two files get the same object path
    exactly when these names are equal; the build does nothing to keep
    them apart, so files of the same base name in different directories
    share their object. *)
Theorem units_come_from_files (E : environ) (argv : list string) (w : world) :
  let w' := final (cli_build E argv (exec_kore w)) in
  Forall (unit_from E (rootdir w')) (source_files w')
  ∧ ∀ root asset asset' a b,
      object_path root (logical_name asset a)
      = object_path root (logical_name asset' b)
      ↔ logical_name asset a = logical_name asset' b.
Proof.
  split; [|intros; apply object_path_inj].
  unfold cli_build. rewrite bind_unfold.
  pose proof (build_names_outcome E argv (exec_kore w)) as Hn.
  destruct (build_names E argv (exec_kore w)) as [[] w1|w1]; cbn [final].
  - destruct Hn as (_ & _ & _ & _ & Hu).
    destruct (units_build_rest E (rootdir w1) w1) as [-> Hf]; [|exact Hf].
    split; [done|]. rewrite Hu. constructor.
  - destruct Hn as (_ & ->). constructor.
Qed.

(** C3, as the specification words it, fails: two assets of the same
    name in two directories are two units with one name and one object
    path. *)
Lemma same_name_same_object :
  let E := Demo.env
             (Demo.layout []
                [Dirent "en" (Dir None [Dirent "index.html" (File 7 Demo.text)]);
                 Dirent "fr" (Dir None [Dirent "index.html" (File 9 Demo.text)])])
             (Demo.toolchain true 1700000000 0) in
  let w' := final (cli_build E [] (Demo.boot ∅)) in
  ¬ units_distinct w'
  ∧ map cf_opath (source_files w')
    = ["./.objs/index_html.o"; "./.objs/index_html.o"].
Proof.
  intros E w'. split; [|by vm_compute].
  intros [_ H]. vm_compute in H.
  apply NoDup_cons in H as [H _]. apply H. left.
Qed.

(** ** A second run: what each callback does on a file that is up to date *)

Section Again.

Variable E : environ.

Lemma requires_build_fresh (st : stat) (opath : string) (w : world) :
  dated_at (w_objs w) opath (st_mtime st) →
  cli_file_requires_build E st opath w = Done false w.
Proof.
  intros (ost & Hs & Hm). unfold cli_file_requires_build. rewrite Hs, Hm.
  by rewrite Z.eqb_refl.
Qed.

Lemma build_asset_empty (fpath d_name : string) (mtime : Z) (w : world) :
  CStr.strrchr d_name "." ≠ None →
  cli_build_asset E fpath d_name (StatOk (file_stat mtime [])) [] w
  = Done tt (emit (Stdout ("skipping empty asset "
                           +:+ CStr.map sanitize_char d_name)) w).
Proof.
  intros Hext. unfold cli_build_asset.
  by destruct (CStr.strrchr d_name ".").
Qed.

Lemma build_asset_fresh (fpath d_name : string) (mtime : Z)
    (data : list Byte.byte) (w : world) :
  CStr.strrchr d_name "." ≠ None →
  data ≠ [] →
  dated_at (w_objs w) (object_path (rootdir w) (logical_name true d_name)) mtime →
  write_errno E (s_fd w) = None →
  ∃ u n e,
    cli_build_asset E fpath d_name (StatOk (file_stat mtime data)) data w
    = Done tt (set_source_files (source_files w ++ [u]) (int_incr (cfiles_count w))
                 (append_text (s_fd w) (asset_externs n e) w))
    ∧ cf_build u = false.
Proof.
  intros Hext Hdata Hfresh Hwrite. unfold cli_build_asset.
  destruct (CStr.strrchr d_name ".") as [ext|]; [|done].
  assert ((st_size (file_stat mtime data) =? 0) = false) as ->.
  { apply Z.eqb_neq. destruct data; [done|]. simpl. lia. }
  rewrite bind_unfold. unfold get at 1.
  rewrite bind_unfold.
  pose proof (requires_build_fresh (file_stat mtime data) _ w Hfresh) as Hr.
  unfold object_path, logical_name in Hr. rewrite Hr. cbn [negb].
  rewrite bind_unfold, (cli_write_asset_ok _ _ _ _ Hwrite).
  eexists _, _, _. split; reflexivity.
Qed.

Lemma register_ignored (fpath d_name : string) (sr : stat_result)
    (data : list Byte.byte) (w : world) :
  is_source fpath = false →
  cli_register_cfile E fpath d_name sr data w = Done tt w.
Proof.
  unfold is_source, cli_register_cfile.
  destruct (CStr.strrchr fpath ".") as [i|]; [|done].
  rewrite negb_false_iff. by intros ->.
Qed.

Lemma register_fresh (fpath d_name : string) (st : stat)
    (data : list Byte.byte) (w : world) :
  is_source fpath = true →
  dated_at (w_objs w) (object_path (rootdir w) d_name) (st_mtime st) →
  ∃ u,
    cli_register_cfile E fpath d_name (StatOk st) data w
    = Done tt (set_source_files (source_files w ++ [u]) (int_incr (cfiles_count w)) w)
    ∧ cf_build u = false.
Proof.
  unfold is_source, cli_register_cfile. intros Hs Hfresh.
  destruct (CStr.strrchr fpath ".") as [i|]; [|done].
  rewrite negb_true_iff in Hs. rewrite Hs.
  rewrite bind_unfold. unfold get at 1.
  pose proof (requires_build_fresh st _ w Hfresh) as Hr.
  unfold object_path in Hr. rewrite bind_unfold, Hr. cbn [negb].
  eexists. split; reflexivity.
Qed.

(** ** A first run: what a callback that returned has registered *)

Ltac peel H :=
  repeat first
    [ apply bind_Done in H as (? & ? & _ & H)
    | match type of H with
      | (match ?x with _ => _ end) _ = Done _ _ =>
          destruct x; try (unfold cli_fatal in H; discriminate H)
      end ].

Lemma build_asset_Done (fpath d_name : string) (st : stat)
    (data : list Byte.byte) (w w' : world) :
  cli_build_asset E fpath d_name (StatOk st) data w = Done tt w' →
  CStr.strrchr d_name "." ≠ None
  ∧ (st_size st = 0
     ∨ ∃ u, u ∈ source_files w'
            ∧ cf_opath u = object_path (rootdir w) (logical_name true d_name)
            ∧ cf_st u = st).
Proof.
  unfold cli_build_asset. intros H.
  destruct (CStr.strrchr d_name ".") as [ext|]; [|discriminate H].
  split; [done|].
  destruct (st_size st =? 0) eqn:Hsz; [left; by apply Z.eqb_eq|right].
  rewrite bind_unfold in H. unfold get at 1 in H.
  apply bind_Done in H as (stale & w1 & _ & H).
  destruct (negb stale); peel H;
    unfold cli_add_cfile, modify in H; injection H as <-;
    (eexists; split; [cbn; apply elem_of_app; right; left | done]).
Qed.

Lemma register_cfile_Done (fpath d_name : string) (st : stat)
    (data : list Byte.byte) (w w' : world) :
  cli_register_cfile E fpath d_name (StatOk st) data w = Done tt w' →
  is_source fpath = false
  ∨ ∃ u, u ∈ source_files w'
         ∧ cf_opath u = object_path (rootdir w) d_name ∧ cf_st u = st.
Proof.
  unfold cli_register_cfile, is_source. intros H.
  destruct (CStr.strrchr fpath ".") as [i|]; [|by left].
  destruct (_ && _); [by left | right].
  rewrite bind_unfold in H. unfold get at 1 in H.
  apply bind_Done in H as (stale & w1 & _ & H).
  destruct (negb stale);
    unfold cli_add_cfile, modify in H; injection H as <-;
    (eexists; split; [cbn; apply elem_of_app; right; left | done]).
Qed.

End Again.

(** ** A first run: the units found up to date have a dated object *)

Definition fresh_units (objs : gmap string inode) (w : world) : Prop :=
  w_objs w = objs
  ∧ Forall (λ u, cf_build u = false → dated objs u) (source_files w).

Global Instance fresh_units_frame objs : Frame (keeps (fresh_units objs)).
Proof. split; try apply _; intros; intros Hw; exact Hw. Qed.

Global Instance fresh_units_frame_dirs objs : FrameDirs (keeps (fresh_units objs)).
Proof. intros p w Hw. exact Hw. Qed.

Section Fresh.

Variable E : environ.
Variable objs : gmap string inode.

Abbreviation Rf := (keeps (fresh_units objs)).

Lemma fresh_requires_build {A} st opath (k : bool → M A) :
  (∀ b, (b = false → dated_at objs opath (st_mtime st)) → respects Rf (k b)) →
  respects Rf (cli_file_requires_build E st opath ≫= k).
Proof.
  intros Hk w Hw. rewrite bind_unfold. unfold cli_file_requires_build.
  destruct Hw as [Ho Hf]. rewrite Ho.
  destruct (sys_stat objs opath) as [ost|errno] eqn:Hs.
  - apply Hk; [|by split]. rewrite negb_false_iff, Z.eqb_eq. intros Hm.
    exists ost. by split.
  - destruct (errno =? ENOENT).
    + apply Hk; [done | by split].
    + by split.
Qed.

Lemma fresh_add_cfile name fpath opath st build cpp :
  (build = false → dated_at objs opath (st_mtime st)) →
  respects Rf (cli_add_cfile name fpath opath st build cpp).
Proof.
  intros Hu w [Ho Hf]. split; [done|]. cbn.
  apply Forall_app_2; [done|]. by apply Forall_singleton.
Qed.

Lemma fresh_build_asset fpath d_name sr data :
  respects Rf (cli_build_asset E fpath d_name sr data).
Proof.
  unfold cli_build_asset.
  destruct (CStr.strrchr d_name ".") as [ext|]; [|apply frame_fatal, _].
  destruct sr as [st|errno]; [|apply frame_fatal, _].
  destruct (_ =? 0); [apply frame_printf, _|].
  apply respects_bind; [apply _ | apply respects_get, _ | intros root].
  apply fresh_requires_build. intros [|] Hb; cbn [negb];
    repeat first
      [ apply frame_write_asset, _
      | apply fresh_add_cfile; first [done | exact Hb]
      | frame_step ].
Qed.

Lemma fresh_register_cfile fpath d_name sr data :
  respects Rf (cli_register_cfile E fpath d_name sr data).
Proof.
  unfold cli_register_cfile.
  destruct (CStr.strrchr fpath ".") as [i|]; [|apply respects_ret, _].
  destruct (_ && _); [apply respects_ret, _|].
  destruct sr as [st|errno]; [|apply frame_fatal, _].
  apply respects_bind; [apply _ | apply respects_get, _ | intros root].
  apply fresh_requires_build. intros [|] Hb; cbn [negb];
    apply fresh_add_cfile; first [done | exact Hb].
Qed.

Lemma fresh_build_assets : respects Rf (build_assets E).
Proof.
  unfold build_assets. repeat frame_step.
  - intros w. by apply frame_s_fd.
  - intros w. rewrite cli_find_files_found. revert w.
    apply frame_visit_all; [apply _|]. intros. apply fresh_build_asset.
Qed.

Lemma fresh_build_sources : respects Rf (build_sources E).
Proof.
  unfold build_sources. repeat frame_step.
  intros w. rewrite cli_find_files_found. revert w.
  apply frame_visit_all; [apply _|]. intros. apply fresh_register_cfile.
Qed.

End Fresh.

(** ** A first run: the objects after the loop *)

Lemma last_snoc4 {A} (l : list A) (a b c d x : A) :
  List.last (l ++ [a; b; c; d]) x = d.
Proof.
  change (l ++ [a; b; c; d]) with (l ++ [a; b; c] ++ [d]).
  rewrite app_assoc. apply last_last.
Qed.

Lemma last_compile (E : environ) (w : world) (cf : cfile) :
  List.last (cli_compile_cfile E w cf) EmptyString = cf_opath cf.
Proof. unfold cli_compile_cfile. rewrite !app_assoc. apply last_snoc4. Qed.

Lemma last_link (E : environ) (w : world) :
  List.last (cli_link_library E w) EmptyString
  = rootdir w +:+ "/" +:+ appl w +:+ ".so".
Proof.
  unfold cli_link_library. cbn zeta. rewrite !app_assoc.
  change [?a; ?b] with ([a] ++ [b]). rewrite app_assoc. apply last_last.
Qed.

Lemma dated_at_lookup (O O' : gmap string inode) (path : string) (sec : Z) :
  O' !! path = O !! path → dated_at O path sec → dated_at O' path sec.
Proof. unfold dated_at, sys_stat. by intros ->. Qed.

Section Objects.

Variable E : environ.
Hypothesis Htidy : tidy E.

(** A child leaves every path but its output as it was. *)
Lemma cli_spawn_proc_objs (j : job) (w w' : world) (a : unit) :
  cli_spawn_proc E j w = Done a w' →
  w_dirs w' = w_dirs w
  ∧ ∀ path, path ≠ List.last (driver E j w) EmptyString →
            w_objs w' !! path = w_objs w !! path.
Proof.
  unfold cli_spawn_proc.
  destruct (spawn E (driver E j w) (w_objs w)) as [errno|pid objs [status|]] eqn:Hs;
    try discriminate.
  destruct (_ || _); [discriminate|]. intros H. injection H as _ <-.
  cbn. split; [done|]. intros path Hp. eapply Htidy; eauto.
Qed.

Lemma compile_unit_objs (cf : cfile) (w w' : world) :
  compile_unit E cf w = Done tt w' →
  w_dirs w' = w_dirs w
  ∧ (∀ path, path ≠ cf_opath cf → w_objs w' !! path = w_objs w !! path)
  ∧ (dated (w_objs w') cf
     ∨ Utimes (cf_opath cf) (st_mtime (cf_st cf)) (-1) ∈ since w w').
Proof.
  unfold compile_unit. intros H.
  apply bind_Done in H as ([] & w1 & [= <-] & H).
  apply bind_Done in H as ([] & w2 & H2 & H3).
  destruct (cli_spawn_proc_outcome E (Compile cf) (emit (Stdout ("compiling " +:+ cf_name cf)) w))
    as (_ & t & Ht & _).
  rewrite H2 in Ht. cbn [final w_trace emit] in Ht.
  apply cli_spawn_proc_objs in H2 as [Hd Ho].
  cbn [driver] in Ho. rewrite last_compile in Ho. cbn [w_objs w_dirs emit] in Ho, Hd.
  pose proof (set_object_times_spec E cf w2) as Hs. cbn zeta in Hs.
  destruct (sys_utimes (w_objs w2) (cf_opath cf) (st_mtime (cf_st cf)))
    as [errno|objs] eqn:Hu; rewrite Hs in H3; injection H3 as <-;
    cbn [w_dirs w_objs emit set_objs]; (split; [done|]).
  - split; [done|]. right.
    erewrite since_app; [|cbn [w_trace emit]; rewrite Ht, <- !app_assoc; reflexivity].
    rewrite !elem_of_app, !elem_of_cons. auto 10.
  - unfold sys_utimes in Hu.
    destruct (w_objs w2 !! cf_opath cf) as [[st [|]|e]|] eqn:Hl; simplify_eq.
    split.
    + intros path Hp. by rewrite lookup_insert_ne, Ho.
    + left. eexists. unfold sys_stat. rewrite lookup_insert_eq. by split.
Qed.

Lemma compile_loop_dated (cfs : list cfile) :
  ∀ r w r' w',
    compile_loop E cfs r w = Done r' w' →
    (∀ path sec ret, Utimes path sec ret ∈ since w w' → ret = 0) →
    NoDup (map cf_opath cfs) →
    w_dirs w' = w_dirs w
    ∧ (∀ u, u ∈ cfs → cf_build u = true → dated (w_objs w') u)
    ∧ (∀ path, path ∉ map cf_opath (flagged cfs) →
               w_objs w' !! path = w_objs w !! path).
Proof.
  induction cfs as [|cf cfs IH]; intros r w r' w' H Hu Hnd.
  { injection H as <- <-. split; [done|]. split; [|done]. intros u Hin.
    inversion Hin. }
  cbn [compile_loop] in H. rewrite flagged_cons.
  apply NoDup_cons in Hnd as [Hcf Hnd].
  destruct (cf_build cf) eqn:Hb; cbn [negb] in H.
  - apply bind_Done in H as ([] & w1 & H1 & H2).
    destruct (compile_unit_outcome E cf w) as (_ & t1 & Ht1 & _).
    rewrite H1 in Ht1. cbn [final] in Ht1.
    destruct (compile_loop_outcome E cfs (int_incr r) w1) as (_ & t2 & Ht2 & _).
    rewrite H2 in Ht2. cbn [final] in Ht2.
    assert (since w w' = t1 ++ since w1 w') as Hsince.
    { rewrite (since_app w1 w' t2 Ht2). apply since_app.
      by rewrite Ht2, Ht1, app_assoc. }
    destruct (compile_unit_objs cf w w1 H1) as (Hd1 & Ho1 & Hdated).
    destruct (IH _ _ _ _ H2) as (Hd2 & Hdone & Hrest); [|done|].
    { intros path sec ret Hin. apply (Hu path sec). rewrite Hsince.
      apply elem_of_app. by right. }
    assert (cf_opath cf ∉ map cf_opath (flagged cfs)) as Hnot.
    { intros Hin. apply Hcf. apply list_elem_of_fmap in Hin as (u & -> & Hin).
      apply list_elem_of_fmap. exists u. split; [done|].
      by apply list_elem_of_filter in Hin as [_ ?]. }
    split; [congruence|]. split.
    + intros u Hin Hbu. apply elem_of_cons in Hin as [->|Hin]; [|by apply Hdone].
      destruct Hdated as [Hdated|Hfail].
      * eapply dated_at_lookup; [|exact Hdated]. by apply Hrest.
      * exfalso. assert (-1 = 0); [|lia].
        apply (Hu (cf_opath cf) (st_mtime (cf_st cf))).
        rewrite Hsince, <- (since_app w w1 t1 Ht1). apply elem_of_app. by left.
    + intros path Hp. cbn [map] in Hp. apply not_elem_of_cons in Hp as [Hp1 Hp2].
      by rewrite Hrest, Ho1.
  - destruct (IH _ _ _ _ H Hu Hnd) as (Hd & Hdone & Hrest).
    split; [done|]. split; [|done].
    intros u Hin Hbu. apply elem_of_cons in Hin as [->|Hin]; [congruence|].
    by apply Hdone.
Qed.

End Objects.

(** ** A second run: the walks *)

(** What a step of a run that has nothing to do may change: it prints
    and appends units that are not to be built. *)
Definition idles (v v' : world) : Prop :=
  (∃ t, w_trace v' = w_trace v ++ t ∧ Forall printed t)
  ∧ rootdir v' = rootdir v ∧ appl v' = appl v ∧ w_objs v' = w_objs v
  ∧ w_dirs v' = w_dirs v
  ∧ (Forall (λ u, cf_build u = false) (source_files v) →
     Forall (λ u, cf_build u = false) (source_files v')).

Global Instance idles_refl : Reflexive idles.
Proof. intros v. split; [|done]. exists []. by rewrite app_nil_r. Qed.

Global Instance idles_trans : Transitive idles.
Proof.
  intros v1 v2 v3 ((t & Ht & Hp) & Hr & Ha & Ho & Hd & Hu)
    ((t' & Ht' & Hp') & Hr' & Ha' & Ho' & Hd' & Hu').
  split; [|repeat split; try congruence; auto].
  exists (t ++ t'). rewrite Ht', Ht, <- app_assoc. split; [done|].
  by apply Forall_app.
Qed.

Lemma idles_emit (e : event) (v : world) : printed e → idles v (emit e v).
Proof. intros He. split; [|done]. exists [e]. split; [done | by constructor]. Qed.

Lemma idles_text f (v : world) : idles v (set_text f v).
Proof. split; [|done]. exists []. simpl. by rewrite app_nil_r. Qed.

Lemma idles_add (u : cfile) (n : Z) (v : world) :
  cf_build u = false → idles v (set_source_files (source_files v ++ [u]) n v).
Proof.
  intros Hu. split; [exists []; simpl; by rewrite app_nil_r|].
  repeat split; try done. cbn. intros Hf.
  apply Forall_app_2; [done|]. by apply Forall_singleton.
Qed.

Section Walks.

Variable E : environ.

Lemma assets_walk_again (root : string) (objs : gmap string inode) (l : list found) :
  Forall (asset_fresh root objs) l →
  ∀ v, rootdir v = root → w_objs v = objs → write_errno E (s_fd v) = None →
       ∃ v', visit_all E (cli_build_asset E) l v = Done tt v'
             ∧ idles v v' ∧ s_fd v' = s_fd v.
Proof.
  induction 1 as [|[fpath d_name mtime data|line|msg] l Hf _ IH];
    intros v Hr Ho Hw; cbn [visit_all].
  - by exists v.
  - destruct Hf as [Hext Hf]. rewrite bind_unfold.
    assert (∃ v1, cli_build_asset E fpath d_name (StatOk (file_stat mtime data))
                    data v = Done tt v1 ∧ idles v v1 ∧ s_fd v1 = s_fd v)
      as (v1 & -> & Hi & Hf1).
    { destruct data as [|b data].
      - rewrite build_asset_empty by done. eexists. split; [done|].
        split; [by apply idles_emit | done].
      - destruct Hf as [?|Hf]; [done|]. rewrite <- Hr, <- Ho in Hf.
        destruct (build_asset_fresh E fpath d_name mtime (b :: data) v)
          as (u & n & e & -> & Hu); try done.
        eexists. split; [done|]. split; [|done]. etrans; [apply idles_text|].
        by apply (idles_add u _ (append_text _ _ v)). }
    pose proof Hi as (Ht & Hr1 & Ha1 & Ho1 & Hd1 & Hu1).
    destruct (IH v1) as (v' & -> & Hi' & Hf'); try congruence.
    exists v'. split; [done|]. split; [by etrans | congruence].
  - rewrite bind_unfold. cbn.
    destruct (IH (emit (Stderr line) v)) as (v' & -> & Hi' & Hf'); try done.
    exists v'. split; [done|]. split; [|done].
    etrans; [|exact Hi']. by apply idles_emit.
  - done.
Qed.

Lemma sources_walk_again (root : string) (objs : gmap string inode) (l : list found) :
  Forall (source_fresh root objs) l →
  ∀ v, rootdir v = root → w_objs v = objs →
       ∃ v', visit_all E (cli_register_cfile E) l v = Done tt v' ∧ idles v v'.
Proof.
  induction 1 as [|[fpath d_name mtime data|line|msg] l Hf _ IH];
    intros v Hr Ho; cbn [visit_all].
  - by exists v.
  - rewrite bind_unfold.
    assert (∃ v1, cli_register_cfile E fpath d_name (StatOk (file_stat mtime data))
                    data v = Done tt v1 ∧ idles v v1) as (v1 & -> & Hi).
    { destruct (is_source fpath) eqn:Hs.
      - destruct Hf as [?|Hf]; [congruence|]. rewrite <- Hr, <- Ho in Hf.
        destruct (register_fresh E fpath d_name (file_stat mtime data) data v)
          as (u & -> & Hu); [done | exact Hf |].
        eexists. split; [done|]. by apply idles_add.
      - rewrite register_ignored by done. by exists v. }
    pose proof Hi as (Ht & Hr1 & Ha1 & Ho1 & Hd1 & Hu1).
    destruct (IH v1) as (v' & -> & Hi'); try congruence.
    exists v'. split; [done|]. by etrans.
  - rewrite bind_unfold. cbn.
    destruct (IH (emit (Stderr line) v)) as (v' & -> & Hi'); try done.
    exists v'. split; [done|]. etrans; [|exact Hi']. by apply idles_emit.
  - done.
Qed.

(** A first run: every file the walk came across is registered. *)
Lemma assets_walk_Done (l : list found) :
  ∀ w w', visit_all E (cli_build_asset E) l w = Done tt w' →
    Forall (asset_seen (rootdir w) (source_files w')) l.
Proof.
  induction l as [|[fpath d_name mtime data|line|msg] l IH]; intros w w' H;
    cbn [visit_all] in H.
  - constructor.
  - apply bind_Done in H as ([] & w1 & H1 & H2).
    pose proof (discovers_build_asset E fpath d_name
                  (StatOk (file_stat mtime data)) data w) as D1.
    rewrite H1 in D1. cbn [final] in D1.
    pose proof (discovers_visit_all E (cli_build_asset E) l
                  (discovers_build_asset E) w1) as D2.
    rewrite H2 in D2. cbn [final] in D2.
    destruct D2 as [_ _ _ _ _ _ (us & Hus)].
    constructor.
    + apply build_asset_Done in H1 as [Hext Hu]. split; [done|].
      destruct Hu as [Hsz|(u & Hin & Hu)].
      * left. destruct data; [done|]. simpl in Hsz. lia.
      * right. exists u. split; [|done]. rewrite Hus. apply elem_of_app. by left.
    + rewrite <- (dv_root _ _ D1). by apply IH.
  - apply bind_Done in H as ([] & w1 & [= <-] & H2).
    constructor; [done|]. by apply (IH _ _ H2).
  - discriminate H.
Qed.

Lemma sources_walk_Done (l : list found) :
  ∀ w w', visit_all E (cli_register_cfile E) l w = Done tt w' →
    Forall (source_seen (rootdir w) (source_files w')) l.
Proof.
  induction l as [|[fpath d_name mtime data|line|msg] l IH]; intros w w' H;
    cbn [visit_all] in H.
  - constructor.
  - apply bind_Done in H as ([] & w1 & H1 & H2).
    pose proof (discovers_register_cfile E fpath d_name
                  (StatOk (file_stat mtime data)) data w) as D1.
    rewrite H1 in D1. cbn [final] in D1.
    pose proof (discovers_visit_all E (cli_register_cfile E) l
                  (discovers_register_cfile E) w1) as D2.
    rewrite H2 in D2. cbn [final] in D2.
    destruct D2 as [_ _ _ _ _ _ (us & Hus)].
    constructor.
    + apply register_cfile_Done in H1 as [Hs|(u & Hin & Hu)]; [by left|].
      right. exists u. split; [|exact Hu]. rewrite Hus. apply elem_of_app. by left.
    + rewrite <- (dv_root _ _ D1). by apply IH.
  - apply bind_Done in H as ([] & w1 & [= <-] & H2).
    constructor; [done|]. by apply (IH _ _ H2).
  - discriminate H.
Qed.

End Walks.

(** ** The steps of [cli_build], in a first run and in a second *)

Section Phases.

Variable E : environ.

Lemma dir_exists_mono (p : string) (w v : world) :
  w_dirs w ⊆ w_dirs v → dir_exists E p w = true → dir_exists E p v = true.
Proof.
  unfold dir_exists. rewrite !orb_true_iff, !bool_decide_eq_true.
  intros Hs [H|H]; [left; by apply Hs | by right].
Qed.

Lemma same_files_build_assets : respects same_files (build_assets E).
Proof.
  unfold build_assets. repeat frame_step.
  - intros w. by apply frame_s_fd.
  - intros w. rewrite cli_find_files_found. revert w.
    apply frame_visit_all; [apply _|]. intros. unfold cli_build_asset.
    repeat first
      [ apply frame_write_asset, _ | apply frame_add_cfile; by intros
      | frame_step ].
Qed.

Lemma same_files_build_sources : respects same_files (build_sources E).
Proof.
  unfold build_sources. repeat frame_step.
  intros w. rewrite cli_find_files_found. revert w.
  apply frame_visit_all; [apply _|]. intros. unfold cli_register_cfile.
  repeat first [ apply frame_add_cfile; by intros | frame_step ].
Qed.

Lemma build_names_again (argv : list string) (w w' v : world) :
  build_names E argv w = Done tt w' →
  ∃ v', build_names E argv v = Done tt v'
        ∧ rootdir v' = rootdir w' ∧ appl v' = appl w'
        ∧ w_objs v' = w_objs v ∧ w_dirs v' = w_dirs v
        ∧ w_trace v' = w_trace v ∧ source_files v' = [].
Proof.
  unfold build_names, mbind, M_bind, modify, cli_fatal, mret, M_ret.
  destruct argv as [|a argv]; [destruct (getcwd E) as [errno|pwd]|];
    destruct (getenv E "CC"); cbn; intros H; try discriminate;
    injection H as <-; (eexists; split; [reflexivity|]); done.
Qed.

Lemma build_check_again (w w' v : world) :
  build_check E w = Done tt w' →
  rootdir v = rootdir w → appl v = appl w → w_dirs w' ⊆ w_dirs v →
  build_check E v
  = Done tt (set_text (λ t, delete (assets_header (rootdir v)) t) v).
Proof.
  intros H Hr Ha Hd.
  pose proof (discovers_build_check E w) as D. rewrite H in D.
  unfold build_check in *.
  repeat (unfold mbind, M_bind, get, cli_dir_exists, cli_file_exists, mret, M_ret,
    unlink, modify, cli_mkdir, cli_fatal in *; cbv beta iota in H |- *).
  rewrite Hr, Ha.
  change (bool_decide (?p ∈ w_dirs ?w) || match tree E ?p with Some (Dir _ _) => true | _ => false end) with (dir_exists E p w) in *.
  destruct (dir_exists E (rootdir w +:+ "/src") w) eqn:Hs; [|discriminate H].
  rewrite (dir_exists_mono _ w v) by (by etrans; [apply D|]) || done.
  cbn [negb orb] in H |- *.
  destruct (negb _); [discriminate H|].
  assert (dir_exists E (rootdir w +:+ "/.objs") v = true) as ->.
  { destruct (dir_exists E (rootdir w +:+ "/.objs") w) eqn:Ho.
    - apply (dir_exists_mono _ w v); [by etrans; [apply D|] | done].
    - cbn [negb] in H. destruct (mkdir_errno E _); [discriminate H|].
      injection H as <-. unfold dir_exists.
      rewrite bool_decide_eq_true_2; [done|]. apply Hd. cbn.
      apply elem_of_union_l. by apply elem_of_singleton. }
  done.
Qed.

(** The directory of the certificates is there once the build has
    looked after it, and a later build finds it. *)
Lemma build_certs_Done (w w' : world) :
  build_certs E w = Done tt w' →
  w_objs w' = w_objs w
  ∧ (∀ p, p ∈ w_dirs w' → p ∈ w_dirs w ∨ p = rootdir w +:+ "/cert")
  ∧ dir_exists E (rootdir w +:+ "/cert") w' = true.
Proof.
  intros H. unfold build_certs in H.
  repeat (unfold mbind, M_bind, get, cli_dir_exists, mret, M_ret,
    unlink, modify, cli_mkdir, cli_fatal in H; cbv beta iota in H).
  change (bool_decide (?p ∈ w_dirs ?w)
          || match tree E ?p with Some (Dir _ _) => true | _ => false end)
    with (dir_exists E p w) in *.
  destruct (dir_exists E (rootdir w +:+ "/cert") _) eqn:Hc; cbn [negb] in H.
  - injection H as <-. split; [done|]. split; [by left | done].
  - destruct (mkdir_errno E _); [discriminate H|].
    match type of H with
    | cli_generate_certs E ?w1 = _ =>
        pose proof (frame_generate_certs E same_files w1) as [Hd Ho]
    end.
    rewrite H in Hd, Ho. cbn in Hd, Ho. split; [done|].
    split.
    + intros p. rewrite Hd, elem_of_union, elem_of_singleton. intros [?|?]; auto.
    + unfold dir_exists. rewrite bool_decide_eq_true_2; [done|].
      rewrite Hd. apply elem_of_union_l. by apply elem_of_singleton.
Qed.

Lemma build_certs_again (v : world) :
  dir_exists E (rootdir v +:+ "/cert") v = true →
  build_certs E v
  = Done tt (set_text (λ t, delete (assets_header (rootdir v)) t) v).
Proof.
  intros H. unfold build_certs.
  repeat (unfold mbind, M_bind, get, cli_dir_exists, mret, M_ret,
    unlink, modify; cbv beta iota).
  change (bool_decide (?p ∈ w_dirs ?w)
          || match tree E ?p with Some (Dir _ _) => true | _ => false end)
    with (dir_exists E p w).
  change (dir_exists E ?p (set_text ?f ?w)) with (dir_exists E p w).
  by rewrite H.
Qed.

Lemma frame_build_check R `{!Frame R, !FrameDirs R} : respects R (build_check E).
Proof. unfold build_check. repeat frame_step. Qed.

Lemma build_link_objs (r : Z) (w w' : world) :
  tidy E →
  build_link E r w = Done tt w' →
  w_dirs w' = w_dirs w
  ∧ ∀ path, path ≠ rootdir w +:+ "/" +:+ appl w +:+ ".so" →
            w_objs w' !! path = w_objs w !! path.
Proof.
  intros Htidy. unfold build_link. destruct (negb _).
  - intros H. apply bind_Done in H as ([] & w1 & H1 & H).
    apply bind_Done in H as (app & w2 & [= <- <-] & H).
    injection H as <-.
    apply (cli_spawn_proc_objs E Htidy) in H1 as [Hd Ho].
    split; [done|]. intros path Hp. cbn. apply Ho.
    cbn [driver]. by rewrite last_link.
  - intros [= <-]. by split.
Qed.

Lemma compile_loop_idle (cfs : list cfile) (r : Z) (w : world) :
  Forall (λ u, cf_build u = false) cfs → compile_loop E cfs r w = Done r w.
Proof.
  induction 1 as [|u cfs Hu _ IH]; [done|]. cbn [compile_loop]. by rewrite Hu.
Qed.

Lemma build_assets_Done (w w' : world) :
  build_assets E w = Done tt w' →
  dir_exists E (rootdir w +:+ "/assets") w = true →
  open_errno E (assets_header (rootdir w)) = None
  ∧ write_errno E (assets_header (rootdir w)) = None
  ∧ Forall (asset_seen (rootdir w) (source_files w'))
      (found_at E (rootdir w +:+ "/assets")).
Proof.
  intros H Hdir. unfold build_assets in H.
  apply bind_Done in H as (root & w1 & [= <- <-] & H).
  apply bind_Done in H as (b & w1 & Hb & H).
  change (cli_dir_exists E ?p ?w) with (Done (dir_exists E p w) w) in Hb.
  rewrite Hdir in Hb. injection Hb as <- <-.
  unfold cli_file_open in H.
  destruct (open_errno E (assets_header (rootdir w))) as [errno|] eqn:Hopen.
  { apply bind_Done in H as (? & ? & H & _). discriminate H. }
  split; [done|].
  apply bind_Done in H as (fd & w1 & H1 & H).
  cbv [mbind M_bind modify mret M_ret] in H1. injection H1 as <- <-.
  apply bind_Done in H as ([] & w2 & [= <-] & H).
  apply bind_Done in H as ([] & w3 & H3 & H).
  unfold cli_file_writef, cli_file_write in H3, H.
  destruct (write_errno E (assets_header (rootdir w))) as [errno|] eqn:Hw;
    [discriminate H3|].
  split; [done|]. injection H3 as <-.
  apply bind_Done in H as ([] & w4 & [= <-] & H).
  apply bind_Done in H as ([] & w5 & H5 & H).
  apply bind_Done in H as ([] & w6 & [= <-] & H).
  rewrite cli_find_files_found in H5. apply assets_walk_Done in H5.
  assert (source_files w' = source_files w5) as ->; [|exact H5].
  unfold cli_file_close in H.
  destruct (close_errno E _); by injection H as <-.
Qed.

Lemma build_assets_again (root : string) (objs : gmap string inode) (v : world) :
  rootdir v = root → w_objs v = objs →
  (dir_exists E (root +:+ "/assets") v = true →
   open_errno E (assets_header root) = None
   ∧ write_errno E (assets_header root) = None
   ∧ Forall (asset_fresh root objs) (found_at E (root +:+ "/assets"))) →
  ∃ v', build_assets E v = Done tt v' ∧ idles v v'.
Proof.
  intros Hr Ho H. unfold build_assets.
  rewrite bind_unfold. unfold get at 1. cbv beta iota.
  rewrite bind_unfold.
  change (cli_dir_exists E ?p ?w) with (Done (dir_exists E p w) w).
  cbv beta iota. rewrite Hr.
  destruct (dir_exists E (root +:+ "/assets") v); [|by exists v].
  destruct H as (Hopen & Hw & Hf); [done|].
  unfold cli_file_open. rewrite Hopen.
  cbv [mbind M_bind modify mret M_ret cli_file_writef cli_file_write].
  rewrite Hw, cli_find_files_found.
  match goal with
  | |- context [visit_all _ _ _ ?v2] =>
      destruct (assets_walk_again E root objs _ Hf v2) as (v3 & -> & Hi & _);
        [done | done | exact Hw |];
      assert (idles v v2) as Hi0
        by (split; [exists []; cbn; by rewrite app_nil_r | done])
  end.
  unfold cli_file_close.
  destruct (close_errno E _);
    (eexists; split; [reflexivity|]; etrans; [exact Hi0|]; etrans; [exact Hi|]).
  - etrans; [apply idles_text|]. by apply idles_emit.
  - apply idles_text.
Qed.

Lemma build_sources_again (root : string) (objs : gmap string inode) (v : world) :
  rootdir v = root → w_objs v = objs →
  Forall (source_fresh root objs) (found_at E (root +:+ "/src")) →
  ∃ v', build_sources E v = Done tt v' ∧ idles v v'.
Proof.
  intros Hr Ho Hf. unfold build_sources.
  rewrite bind_unfold. unfold get at 1. cbv beta iota.
  rewrite cli_find_files_found, Hr. by apply (sources_walk_again E root objs).
Qed.

Lemma build_sources_Done (w w' : world) :
  build_sources E w = Done tt w' →
  Forall (source_seen (rootdir w) (source_files w'))
    (found_at E (rootdir w +:+ "/src")).
Proof.
  unfold build_sources. intros H.
  apply bind_Done in H as (root & w1 & [= <- <-] & H).
  rewrite cli_find_files_found in H. by apply sources_walk_Done in H.
Qed.

End Phases.

(** ** The names of the objects and of the library *)

Lemma suffix_o_so (a b : string) : a +:+ ".o" ≠ b +:+ ".so".
Proof.
  revert b. induction a as [|x a IH]; intros b.
  - destruct b as [|c [|d [|e b]]]; rewrite ?append_cons, ?append_nil_l; congruence.
  - destruct b as [|c b].
    + destruct a as [|y [|z [|t a]]]; rewrite ?append_cons, ?append_nil_l; congruence.
    + rewrite !append_cons. intros [= _ H]. by apply IH in H.
Qed.

Lemma object_path_not_library (root name app : string) :
  object_path root name ≠ root +:+ "/" +:+ app +:+ ".so".
Proof.
  unfold object_path. intros H.
  apply (inj (String.app root)) in H.
  rewrite <- (append_assoc "/.objs/" name ".o") in H.
  rewrite <- (append_assoc "/" app ".so") in H.
  by apply suffix_o_so in H.
Qed.

Lemma assets_not_cert (root : string) : root +:+ "/assets" ≠ root +:+ "/cert".
Proof. intros H. by apply (inj (String.app root)) in H. Qed.

Lemma seen_asset_fresh (root : string) (units : list cfile)
    (objs : gmap string inode) (f : found) :
  (∀ u, u ∈ units → dated objs u) →
  asset_seen root units f → asset_fresh root objs f.
Proof.
  intros Hd. destruct f as [fpath d_name mtime data|line|msg]; try done.
  intros [Hext [->|(u & Hu & Ho & Hs)]]; (split; [done|]); [by left|right].
  apply Hd in Hu. unfold dated in Hu. by rewrite Ho, Hs in Hu.
Qed.

Lemma seen_source_fresh (root : string) (units : list cfile)
    (objs : gmap string inode) (f : found) :
  (∀ u, u ∈ units → dated objs u) →
  source_seen root units f → source_fresh root objs f.
Proof.
  intros Hd. destruct f as [fpath d_name mtime data|line|msg]; try done.
  intros [Hs|(u & Hu & Ho & Hs)]; [by left|right].
  apply Hd in Hu. unfold dated in Hu. by rewrite Ho, Hs in Hu.
Qed.

Lemma asset_seen_more (root : string) (units units' : list cfile) (f : found) :
  (∀ u, u ∈ units → u ∈ units') →
  asset_seen root units f → asset_seen root units' f.
Proof.
  intros Hs. destruct f as [fpath d_name mtime data|line|msg]; try done.
  intros [Hext [->|(u & Hu & Ho)]]; (split; [done|]); [by left|right].
  exists u. auto.
Qed.

Lemma NoDup_map_eq {A B} (f : A → B) (l : list A) (x y : A) :
  NoDup (map f l) → x ∈ l → y ∈ l → f x = f y → x = y.
Proof.
  induction l as [|a l IH]; [by intros _ ?%elem_of_nil|].
  cbn [map]. rewrite NoDup_cons, !elem_of_cons.
  intros [Ha Hl] [->|Hx] [->|Hy] Hf; auto.
  - destruct Ha. rewrite Hf. by apply (list_elem_of_fmap_2 f).
  - destruct Ha. rewrite <- Hf. by apply (list_elem_of_fmap_2 f).
Qed.

(** ** A first run, step by step *)

Lemma cli_build_Done (E : environ) (argv : list string) (w0 wf : world) :
  cli_build E argv w0 = Done tt wf →
  ∃ w1 w2 w3 w4 r w5 w6,
    build_names E argv w0 = Done tt w1
    ∧ build_check E w1 = Done tt w2
    ∧ build_assets E w2 = Done tt w3
    ∧ build_sources E w3 = Done tt w4
    ∧ build_objects E w4 = Done r w5
    ∧ build_certs E w5 = Done tt w6
    ∧ build_link E r w6 = Done tt wf.
Proof.
  unfold cli_build. intros H.
  apply bind_Done in H as ([] & w1 & H1 & H).
  apply bind_Done in H as ([] & w2 & H2 & H).
  apply bind_Done in H as ([] & w3 & H3 & H).
  apply bind_Done in H as ([] & w4 & H4 & H).
  apply bind_Done in H as (r & w5 & H5 & H).
  apply bind_Done in H as ([] & w6 & H6 & H).
  by exists w1, w2, w3, w4, r, w5, w6.
Qed.

Section First.

Variable E : environ.
Hypothesis Htidy : tidy E.
Variables (argv : list string) (w0 w1 w2 w3 w4 w5 w6 wf : world) (r : Z).
Hypothesis Hnames : build_names E argv w0 = Done tt w1.
Hypothesis Hcheck : build_check E w1 = Done tt w2.
Hypothesis Hassets : build_assets E w2 = Done tt w3.
Hypothesis Hsources : build_sources E w3 = Done tt w4.
Hypothesis Hobjects : build_objects E w4 = Done r w5.
Hypothesis Hcerts : build_certs E w5 = Done tt w6.
Hypothesis Hlink : build_link E r w6 = Done tt wf.
Hypothesis Hutimes : ∀ path sec ret, Utimes path sec ret ∈ since w0 wf → ret = 0.
Hypothesis Hnodup : NoDup (map cf_opath (source_files wf)).

Lemma run_check : discovers w1 w2.
Proof. pose proof (discovers_build_check E w1) as D. by rewrite Hcheck in D. Qed.

Lemma run_assets : discovers w2 w3 ∧ same_files w2 w3.
Proof.
  pose proof (discovers_build_assets E w2) as D.
  pose proof (same_files_build_assets E w2) as F.
  by rewrite Hassets in D, F.
Qed.

Lemma run_sources : discovers w3 w4 ∧ same_files w3 w4.
Proof.
  pose proof (discovers_build_sources E w3) as D.
  pose proof (same_files_build_sources E w3) as F.
  by rewrite Hsources in D, F.
Qed.

Lemma run_objects : settled w4 w5 ∧ ∃ t, w_trace w5 = w_trace w4 ++ t.
Proof.
  destruct (build_objects_outcome E w4) as (S & t & Ht & _).
  rewrite Hobjects in S, Ht. split; [exact S | by exists t].
Qed.

Lemma run_certs : discovers w5 w6 ∧ settled w5 w6.
Proof.
  pose proof (frame_build_certs E discovers w5) as D.
  pose proof (frame_build_certs E settled w5) as S.
  by rewrite Hcerts in D, S.
Qed.

Lemma run_link : settled w6 wf ∧ ∃ t, w_trace wf = w_trace w6 ++ t.
Proof.
  destruct (build_link_outcome E r w6) as (S & t & Ht & _).
  rewrite Hlink in S, Ht. split; [exact S | by exists t].
Qed.

Lemma run_root :
  rootdir w2 = rootdir w1 ∧ rootdir w3 = rootdir w1 ∧ rootdir w4 = rootdir w1
  ∧ rootdir w5 = rootdir w1 ∧ rootdir w6 = rootdir w1 ∧ rootdir wf = rootdir w1.
Proof.
  destruct run_check, run_assets as [[] _], run_sources as [[] _],
    run_objects as [[] _], run_certs as [[] _], run_link as [[] _].
  repeat split; congruence.
Qed.

Lemma run_appl : appl w6 = appl w1 ∧ appl wf = appl w1.
Proof.
  destruct run_check, run_assets as [[] _], run_sources as [[] _],
    run_objects as [[] _], run_certs as [[] _], run_link as [[] _].
  repeat split; congruence.
Qed.

Lemma run_units :
  source_files wf = source_files w4
  ∧ ∀ u, u ∈ source_files w3 → u ∈ source_files w4.
Proof.
  destruct run_sources as [[_ _ _ _ _ _ (us & Hus)] _], run_objects as [[] _],
    run_certs as [_ []], run_link as [[] _].
  split; [congruence|]. intros u Hu. rewrite Hus. apply elem_of_app. by left.
Qed.

Lemma run_trace :
  ∃ t t5 t', w_trace w4 = w_trace w0 ++ t ∧ w_trace w5 = w_trace w4 ++ t5
             ∧ w_trace wf = w_trace w5 ++ t'.
Proof.
  pose proof (build_names_outcome E argv w0) as Hn. rewrite Hnames in Hn.
  destruct Hn as (Ht1 & _).
  destruct run_check as [_ _ _ _ _ (t2 & Ht2 & _) _].
  destruct run_assets as [[_ _ _ _ _ (t3 & Ht3 & _) _] _].
  destruct run_sources as [[_ _ _ _ _ (t4 & Ht4 & _) _] _].
  destruct run_objects as [_ (t5 & Ht5)].
  destruct run_certs as [[_ _ _ _ _ (t6 & Ht6 & _) _] _].
  destruct run_link as [_ (t7 & Ht7)].
  exists (t2 ++ t3 ++ t4), t5, (t6 ++ t7).
  split; [by rewrite Ht4, Ht3, Ht2, Ht1, <- !app_assoc|].
  split; [done|]. by rewrite Ht7, Ht6, <- app_assoc.
Qed.

Lemma run_loop :
  w_dirs w5 = w_dirs w4
  ∧ (∀ u, u ∈ source_files w4 → cf_build u = true → dated (w_objs w5) u)
  ∧ (∀ path, path ∉ map cf_opath (flagged (source_files w4)) →
             w_objs w5 !! path = w_objs w4 !! path).
Proof.
  destruct run_trace as (t & t5 & t' & Ht & Ht5 & Ht').
  apply (compile_loop_dated E Htidy (source_files w4) 0 w4 r w5).
  - exact Hobjects.
  - intros path sec ret Hin. apply (Hutimes path sec).
    rewrite (since_app w4 w5 t5) in Hin by done.
    rewrite (since_app w0 wf (t ++ t5 ++ t')).
    + rewrite !elem_of_app. auto.
    + rewrite Ht', Ht5, Ht, <- !app_assoc. done.
  - by rewrite <- (proj1 run_units).
Qed.

Lemma run_dirs :
  w_dirs w2 ⊆ w_dirs wf
  ∧ (∀ p, p ∈ w_dirs wf → p ∈ w_dirs w2 ∨ p = rootdir w1 +:+ "/cert")
  ∧ dir_exists E (rootdir w1 +:+ "/cert") wf = true.
Proof.
  destruct run_assets as [_ [Hd3 _]], run_sources as [_ [Hd4 _]].
  destruct run_loop as (Hd5 & _).
  destruct (build_certs_Done E w5 w6 Hcerts) as (_ & Hd6 & Hc).
  destruct (build_link_objs E r w6 wf Htidy Hlink) as (Hd7 & _).
  destruct run_root as (_ & _ & _ & Hr5 & _).
  rewrite Hr5 in Hd6, Hc. rewrite Hd7.
  split; [|split].
  - intros p Hp. destruct run_certs as [[_ Hs _ _ _ _ _] _]. apply Hs.
    by rewrite Hd5, Hd4, Hd3.
  - intros p Hp. apply Hd6 in Hp. by rewrite Hd5, Hd4, Hd3 in Hp.
  - apply (dir_exists_mono E _ w6 wf); [by rewrite Hd7 | done].
Qed.

(** Every unit of a run that went well has an object that bears its
    time. *)
Lemma run_dated (u : cfile) : u ∈ source_files wf → dated (w_objs wf) u.
Proof.
  destruct run_units as [Hu _]. rewrite Hu. intros Hin.
  pose proof (build_names_outcome E argv w0) as Hn. rewrite Hnames in Hn.
  destruct Hn as (_ & _ & _ & _ & Hn).
  assert (fresh_units (w_objs w1) w4 ∧ from_project E (rootdir w1) w4)
    as [[Ho4 Hf] [_ Hp]].
  { pose proof (frame_build_check E (keeps (fresh_units (w_objs w1))) w1) as F2.
    pose proof (fresh_build_assets E (w_objs w1) w2) as F3.
    pose proof (fresh_build_sources E (w_objs w1) w3) as F4.
    pose proof (frame_build_check E (keeps (from_project E (rootdir w1))) w1) as P2.
    pose proof (units_build_assets E (rootdir w1) w2) as P3.
    pose proof (units_build_sources E (rootdir w1) w3) as P4.
    rewrite Hcheck in F2, P2. rewrite Hassets in F3, P3.
    rewrite Hsources in F4, P4.
    split.
    - apply F4, F3, F2. split; [done|]. rewrite Hn. constructor.
    - apply P4, P3, P2. split; [done|]. rewrite Hn. constructor. }
  rewrite Forall_forall in Hf. rewrite Forall_forall in Hp.
  destruct run_loop as (_ & Hflag & Hother).
  assert (dated (w_objs w5) u) as H5.
  { destruct (cf_build u) eqn:Hb; [by apply Hflag|].
    apply (dated_at_lookup (w_objs w4)); [|rewrite Ho4; by apply Hf].
    apply Hother. intros Hm.
    apply list_elem_of_fmap in Hm as (u' & Ho & Hu').
    apply list_elem_of_filter in Hu' as [Hb' Hu'].
    assert (u = u') as <-; [|congruence].
    apply (NoDup_map_eq cf_opath (source_files w4)); try done.
    by rewrite <- Hu. }
  destruct run_certs as [[Ho6 _ _ _ _ _ _] _].
  destruct (build_link_objs E r w6 wf Htidy Hlink) as (_ & Ho7).
  destruct run_root as (_ & _ & _ & _ & Hr6 & _), run_appl as [Ha6 _].
  apply (dated_at_lookup (w_objs w5)); [|exact H5].
  rewrite <- Ho6. apply Ho7. rewrite Hr6.
  destruct (Hp u Hin) as [(? & d_name & ? & ? & _ & -> & _)|(? & d_name & ? & ? & _ & -> & _)];
    apply object_path_not_library.
Qed.

(** What the walks of the run went past is left alone by a later build
    that finds the objects as the run left them. *)
Lemma run_assets_fresh :
  dir_exists E (rootdir w1 +:+ "/assets") wf = true →
  open_errno E (assets_header (rootdir w1)) = None
  ∧ write_errno E (assets_header (rootdir w1)) = None
  ∧ Forall (asset_fresh (rootdir w1) (w_objs wf))
      (found_at E (rootdir w1 +:+ "/assets")).
Proof.
  intros Hdir. destruct run_root as (Hr2 & _).
  destruct run_dirs as (_ & Hd & _).
  destruct (build_assets_Done E w2 w3 Hassets) as (Hopen & Hw & Hseen).
  { rewrite Hr2. unfold dir_exists in *.
    apply orb_true_iff in Hdir as [Hdir|Hdir]; [|by rewrite Hdir, orb_true_r].
    apply bool_decide_eq_true in Hdir. apply Hd in Hdir as [Hdir|Hdir].
    - by rewrite bool_decide_eq_true_2.
    - by apply assets_not_cert in Hdir. }
  rewrite Hr2 in Hopen, Hw, Hseen. split; [done|]. split; [done|].
  eapply Forall_impl; [exact Hseen|]. intros f Hf.
  apply (seen_asset_fresh _ (source_files wf)); [apply run_dated|].
  eapply asset_seen_more; [|exact Hf].
  destruct run_units as [-> Hu]. exact Hu.
Qed.

Lemma run_sources_fresh :
  Forall (source_fresh (rootdir w1) (w_objs wf))
    (found_at E (rootdir w1 +:+ "/src")).
Proof.
  destruct run_root as (_ & Hr3 & _).
  pose proof (build_sources_Done E w3 w4 Hsources) as Hseen.
  rewrite Hr3 in Hseen.
  eapply Forall_impl; [exact Hseen|]. intros f Hf.
  apply (seen_source_fresh _ (source_files w4)); [|exact Hf].
  destruct run_units as [<- _]. apply run_dated.
Qed.

(** The build, run again by a new process on what the run left. *)
Lemma run_again :
  ∃ v t, cli_build E argv (exec_kore wf) = Done tt v
         ∧ w_trace v = w_trace wf ++ t ++ [Stdout "nothing to be done"]
         ∧ Forall printed t.
Proof.
  destruct (build_names_again E argv w0 w1 (exec_kore wf) Hnames)
    as (v1 & Hv1 & Hr1 & Ha1 & Ho1 & Hd1 & Ht1 & Hu1).
  cbn [exec_kore w_objs w_dirs w_trace] in Ho1, Hd1, Ht1.
  destruct run_dirs as (Hsub & _ & Hcert).
  assert (w_dirs w2 ⊆ w_dirs v1) as Hsub1 by (by rewrite Hd1).
  pose proof (build_check_again E w1 w2 v1 Hcheck Hr1 Ha1 Hsub1) as Hv2.
  set (v2 := set_text (λ t, delete (assets_header (rootdir v1)) t) v1) in Hv2.
  destruct (build_assets_again E (rootdir w1) (w_objs wf) v2)
    as (v3 & Hv3 & (t3 & Ht3 & Hp3) & Hr3 & Ha3 & Ho3 & Hd3 & Hu3); [done | done | |].
  { intros Hdir. apply run_assets_fresh.
    apply (dir_exists_mono E _ v2 wf); [|done]. cbn. by rewrite Hd1. }
  destruct (build_sources_again E (rootdir w1) (w_objs wf) v3)
    as (v4 & Hv4 & (t4 & Ht4 & Hp4) & Hr4 & Ha4 & Ho4 & Hd4 & Hu4).
  { by rewrite Hr3. }
  { by rewrite Ho3. }
  { apply run_sources_fresh. }
  assert (build_objects E v4 = Done 0 v4) as Hv5.
  { apply (compile_loop_idle E (source_files v4) 0 v4).
    apply Hu4, Hu3. cbn. rewrite Hu1. constructor. }
  pose proof (build_certs_again E v4) as Hv6.
  set (v6 := set_text (λ t, delete (assets_header (rootdir v4)) t) v4) in Hv6.
  exists (emit (Stdout "nothing to be done") v6), (t3 ++ t4).
  split; [|split].
  - unfold cli_build.
    rewrite bind_unfold, Hv1, bind_unfold, Hv2, bind_unfold, Hv3,
      bind_unfold, Hv4, bind_unfold, Hv5, bind_unfold, Hv6; [done|].
    rewrite Hr4, Hr3. cbn [v2 rootdir set_text]. rewrite Hr1.
    apply (dir_exists_mono E _ wf v4); [|done].
    rewrite Hd4, Hd3. cbn. by rewrite Hd1.
  - cbn. rewrite Ht4, Ht3. cbn. by rewrite Ht1, <- !app_assoc.
  - by apply Forall_app.
Qed.

End First.

(** C5, as amended: when a build went well (no fatal error, every
    object given the time of its source, no two units with the same
    object, children that write their output only), the build run again
    at once by a new process starts no compiler and no linker and ends
    on "nothing to be done". *)
Theorem second_build_idle (E : environ) (argv : list string) (w0 wf : world) :
  tidy E →
  cli_build E argv w0 = Done tt wf →
  (∀ path sec ret, Utimes path sec ret ∈ since w0 wf → ret = 0) →
  NoDup (map cf_opath (source_files wf)) →
  second_run_idle E argv w0.
Proof.
  intros Htidy H Hutimes Hnodup.
  destruct (cli_build_Done E argv w0 wf H)
    as (w1 & w2 & w3 & w4 & r & w5 & w6 & H1 & H2 & H3 & H4 & H5 & H6 & H7).
  destruct (run_again E Htidy argv w0 w1 w2 w3 w4 w5 w6 wf r)
    as (v & t & Hv & Ht & Hp); try done.
  unfold second_run_idle. rewrite H. cbn [final]. rewrite Hv. cbn [final].
  rewrite (since_app wf v _ Ht). split.
  - rewrite jobs_of_app, (printed_jobs t Hp). done.
  - apply last_snoc.
Qed.

Lemma toolchain_tidy (t : string → option node) (writes : bool) (now status : Z) :
  tidy (Demo.env t (Demo.toolchain writes now status)).
Proof.
  intros argv objs pid objs' reaped H path Hp. cbn in H.
  unfold Demo.toolchain in H. injection H as _ <- _.
  destruct writes; [by rewrite lookup_insert_ne | done].
Qed.

Lemma second_build_idle_witness :
  let E := Demo.env (Demo.layout [Dirent "a.c" (File 42 Demo.text)]
                       [Dirent "page.html" (File 7 Demo.text)])
             (Demo.toolchain true 1700000000 0) in
  ∃ wf, cli_build E [] (Demo.boot ∅) = Done tt wf
        ∧ NoDup (map cf_opath (source_files wf))
        ∧ second_run_idle E [] (Demo.boot ∅).
Proof.
  intros E. eexists. split; [vm_compute; reflexivity|].
  assert (∀ l : list string, bool_decide (NoDup l) = true → NoDup l) as Hdec
    by (intros l; apply bool_decide_eq_true_1).
  split; [apply Hdec; vm_compute; reflexivity|].
  eapply (second_build_idle E [] (Demo.boot ∅)).
  - apply toolchain_tidy.
  - vm_compute; reflexivity.
  - intros path sec ret Hin. vm_compute in Hin.
    repeat (apply elem_of_cons in Hin as [Hin|Hin];
            [try discriminate Hin; by injection Hin as _ _ ->|]).
    by apply elem_of_nil in Hin.
  - apply Hdec; vm_compute; reflexivity.
Defined.

(** C5, as the specification words it, fails: two sources of the same
    name in two directories have one object, which bears the time of the
    one compiled last; the build run again compiles the other one and
    links. *)
Lemma same_name_rebuilt :
  let E := Demo.env
             (Demo.layout
                [Dirent "a" (Dir None [Dirent "x.c" (File 1 Demo.text)]);
                 Dirent "b" (Dir None [Dirent "x.c" (File 2 Demo.text)])] [])
             (Demo.toolchain true 1700000000 0) in
  let w1 := final (cli_build E [] (Demo.boot ∅)) in
  let w2 := final (cli_build E [] (exec_kore w1)) in
  cli_build E [] (Demo.boot ∅) = Done tt w1
  ∧ ¬ second_run_idle E [] (Demo.boot ∅)
  ∧ jobs_of (since w1 w2)
    = [Compile (Cfile (file_stat 1 Demo.text) true false
                  "x.c" "./src/a/x.c" "./.objs/x.c.o");
       Link]
  ∧ last (since w1 w2) = Some (Stdout "app built successfully!").
Proof.
  intros E w1 w2. split; [vm_compute; reflexivity|].
  split; [|split; vm_compute; reflexivity].
  intros [Hj _]. vm_compute in Hj. discriminate Hj.
Qed.

(** * Further properties of [cli.c] *)

(** ** The names of the assets *)

Lemma sanitize_char_cases (c : ascii) :
  (sanitize_char c = "_"%char
   ∧ (c = "."%char ∨ CStr.isspace c = true ∨ c = "-"%char))
  ∨ (sanitize_char c = c
     ∧ c ≠ "."%char ∧ CStr.isspace c = false ∧ c ≠ "-"%char).
Proof.
  unfold sanitize_char.
  destruct (Ascii.eqb c ".") eqn:H1; [apply Ascii.eqb_eq in H1; auto|].
  destruct (CStr.isspace c) eqn:H2; [auto|].
  destruct (Ascii.eqb c "-") eqn:H3; [apply Ascii.eqb_eq in H3; auto 6|].
  apply Ascii.eqb_neq in H1, H3. right. auto.
Qed.

Lemma sanitize_char_fixed (c : ascii) :
  sanitize_char (sanitize_char c) = sanitize_char c.
Proof.
  destruct (sanitize_char_cases c) as [[-> _]|[H (H1 & H2 & H3)]].
  - reflexivity.
  - rewrite H. exact H.
Qed.

Lemma sanitize_char_clean (c x : ascii) :
  x = "."%char ∨ CStr.isspace x = true ∨ x = "-"%char →
  Ascii.eqb (sanitize_char c) x = false.
Proof.
  intros Hx. apply Ascii.eqb_neq. intros Heq.
  destruct (sanitize_char_cases c) as [[Hc _]|[Hc (H1 & H2 & H3)]];
    rewrite Hc in Heq; subst x.
  - destruct Hx as [Hx|[Hx|Hx]]; discriminate Hx.
  - destruct Hx as [Hx|[Hx|Hx]]; congruence.
Qed.

Lemma mem_sanitized (s : string) (x : ascii) :
  x = "."%char ∨ CStr.isspace x = true ∨ x = "-"%char →
  CStr.mem x (CStr.map sanitize_char s) = false.
Proof.
  intros Hx. induction s as [|c s IH]; [reflexivity|].
  cbn [CStr.map CStr.mem]. by rewrite sanitize_char_clean, IH.
Qed.

(** X1: the loop of [cli_build_asset] over the name of an asset
    leaves a name of the same length in which no '.', no '-' and no white
    space is left, changes no other character, and changes nothing when
    it is run on its own result. *)
Theorem sanitized_name (s : string) :
  let name := CStr.map sanitize_char s in
  String.length name = String.length s
  ∧ (∀ x, x = "."%char ∨ CStr.isspace x = true ∨ x = "-"%char →
          CStr.mem x name = false)
  ∧ (∀ i c, String.get i s = Some c →
            c ≠ "."%char → CStr.isspace c = false → c ≠ "-"%char →
            String.get i name = Some c)
  ∧ CStr.map sanitize_char name = name.
Proof.
  cbn zeta. split; [|split; [|split]].
  - induction s as [|c s IH]; [reflexivity|]. cbn. by rewrite IH.
  - intros x Hx. by apply mem_sanitized.
  - induction s as [|a s IH]; intros i c; [by destruct i|].
    destruct i as [|i]; cbn [String.get CStr.map].
    + intros [= ->] H1 H2 H3.
      destruct (sanitize_char_cases c) as [[_ [?|[?|?]]]|[-> _]]; congruence.
    + apply IH.
  - induction s as [|c s IH]; [reflexivity|].
    cbn [CStr.map]. by rewrite sanitize_char_fixed, IH.
Qed.

Lemma map_upto (f : ascii → ascii) (i : nat) (s : string) :
  CStr.upto i (CStr.map f s) = CStr.map f (CStr.upto i s).
Proof.
  revert i. induction s as [|c s IH]; intros [|i]; try reflexivity.
  cbn. by rewrite IH.
Qed.

Lemma map_from (f : ascii → ascii) (i : nat) (s : string) :
  CStr.from i (CStr.map f s) = CStr.map f (CStr.from i s).
Proof.
  revert i. induction s as [|c s IH]; intros [|i]; try reflexivity.
  cbn. by rewrite IH.
Qed.

Lemma map_app (f : ascii → ascii) (a b : string) :
  CStr.map f (a +:+ b) = CStr.map f a +:+ CStr.map f b.
Proof.
  induction a as [|c a IH]; [reflexivity|].
  rewrite append_cons. cbn [CStr.map]. by rewrite append_cons, IH.
Qed.

(** [strrchr] points at the character it was asked for. *)
Lemma strrchr_split (s : string) (c : ascii) (i : nat) :
  CStr.strrchr s c = Some i →
  s = CStr.upto i s +:+ String c (CStr.from (S i) s).
Proof.
  revert i. induction s as [|a s IH]; intros i; simpl; [discriminate|].
  destruct (CStr.strrchr s c) as [j|].
  - intros [= <-]. cbn [CStr.upto CStr.from]. rewrite append_cons.
    f_equal. by apply IH.
  - destruct (Ascii.eqb a c) eqn:Ha; intros [= <-].
    apply Ascii.eqb_eq in Ha as ->. reflexivity.
Qed.

(** X2: the two parts the symbols of an asset are printed from, the
    name cut at its last dot and the extension after it, joined by the
    '_' of the format, are the whole sanitized file name: the three
    declarations [cli_build_asset] has [cli_write_asset] add to the
    header for [index.html] are those of [asset_index_html],
    [asset_len_index_html] and [asset_mtime_index_html], the name its
    object [index_html.o] has as well. *)
Theorem asset_symbol_stem (E : environ) (d_name : string) (ext : nat) (w : world) :
  let name := CStr.map sanitize_char d_name in
  CStr.strrchr d_name "." = Some ext →
  write_errno E (s_fd w) = None →
  cli_write_asset E (CStr.upto ext name) (CStr.from (S ext) name) w
  = Done tt (append_text (s_fd w)
               (("extern u_int8_t asset_" +:+ name +:+ "[];" +:+ nl) +:+
                ("extern u_int32_t asset_len_" +:+ name +:+ ";" +:+ nl) +:+
                ("extern time_t asset_mtime_" +:+ name +:+ ";" +:+ nl)) w).
Proof.
  cbn zeta. intros H Hw. apply strrchr_split in H.
  assert (CStr.upto ext (CStr.map sanitize_char d_name) +:+ "_"
          +:+ CStr.from (S ext) (CStr.map sanitize_char d_name)
          = CStr.map sanitize_char d_name) as Hj.
  { rewrite H at 3. rewrite map_app, map_upto, map_from. reflexivity. }
  rewrite (cli_write_asset_ok E _ _ w Hw). unfold asset_externs.
  set (n := CStr.upto ext (CStr.map sanitize_char d_name)) in *.
  set (e := CStr.from (S ext) (CStr.map sanitize_char d_name)) in *.
  rewrite <- Hj. by rewrite !append_assoc.
Qed.

Lemma asset_symbol_stem_witness :
  let E := Demo.env (Demo.layout [] []) (Demo.toolchain true 0 0) in
  let w := Demo.boot ∅ in
  cli_write_asset E (CStr.upto 5 (CStr.map sanitize_char "index.html"))
    (CStr.from 6 (CStr.map sanitize_char "index.html")) w
  = Done tt (append_text (s_fd w)
               (("extern u_int8_t asset_" +:+ CStr.map sanitize_char "index.html"
                 +:+ "[];" +:+ nl) +:+
                ("extern u_int32_t asset_len_" +:+ CStr.map sanitize_char "index.html"
                 +:+ ";" +:+ nl) +:+
                ("extern time_t asset_mtime_" +:+ CStr.map sanitize_char "index.html"
                 +:+ ";" +:+ nl)) w).
Proof.
  intros E w. apply (asset_symbol_stem E "index.html" 5 w); reflexivity.
Defined.

(** ** The argument vectors and their arrays *)

(** X3: whatever CFLAGS holds, as long as [kore_split_string] gives
    back no more than the CFLAGS_MAX elements it is asked for, the vector
    [cli_compile_cfile] builds, with its NULL, fits [args[32 + CFLAGS_MAX]];
    it starts with the compiler and ends with "-c", the source, "-o" and
    the object. *)
Theorem cli_compile_cfile_fits (E : environ) (w : world) (cf : cfile) :
  (∀ p, length (kore_split_string E p " " CFLAGS_MAX) ≤ CFLAGS_MAX)%nat →
  (length (cli_compile_cfile E w cf) + 1 ≤ 32 + CFLAGS_MAX)%nat
  ∧ ∃ flags, cli_compile_cfile E w cf
             = compiler w :: flags ++ ["-c"; cf_fpath cf; "-o"; cf_opath cf].
Proof.
  intros Hsplit. split.
  - unfold cli_compile_cfile, user_flags. rewrite !length_app.
    assert (length (match getenv E "CFLAGS" with
                    | Some p => kore_split_string E p " " CFLAGS_MAX
                    | None => []
                    end) ≤ CFLAGS_MAX)%nat as Hf.
    { destruct (getenv E "CFLAGS"); [apply Hsplit | simpl; lia]. }
    unfold CFLAGS_MAX in *.
    destruct (PREFIX E), (MACH E), (KORE_USE_PGSQL E), (cf_cpp cf),
      (getenv E "CXXSTD"); simpl; lia.
  - unfold cli_compile_cfile.
    set (tail := ["-c"; cf_fpath cf; "-o"; cf_opath cf]).
    rewrite !app_assoc.
    match goal with
    | |- ∃ flags, ?l ++ tail = _ =>
        exists (List.tl l); change (l ++ tail = (compiler w :: List.tl l) ++ tail)
    end.
    f_equal.
Qed.

Lemma cli_compile_cfile_fits_witness :
  let E := Demo.env (Demo.layout [] []) (Demo.toolchain true 0 0) in
  (length (cli_compile_cfile E (Demo.building ∅) (Demo.a_source 42)) + 1
   ≤ 32 + CFLAGS_MAX)%nat
  ∧ ∃ flags, cli_compile_cfile E (Demo.building ∅) (Demo.a_source 42)
             = "gcc" :: flags ++ ["-c"; "./src/a.c"; "-o"; "./.objs/a.c.o"].
Proof.
  intros E. apply (cli_compile_cfile_fits E (Demo.building ∅) (Demo.a_source 42)).
  intros p. simpl. lia.
Defined.


(** ** What the children leave of the world

    The compile loop and the link change the world through their
    children and their own lines of output only. *)
Record children_only (w w' : world) : Prop := ChildrenOnly {
  co_text : w_text w' = w_text w;
  co_dirs : w_dirs w' = w_dirs w;
  co_s_fd : s_fd w' = s_fd w;
  co_appl : appl w' = appl w;
  co_root : rootdir w' = rootdir w;
  co_compiler : compiler w' = compiler w;
  co_units : source_files w' = source_files w;
  co_count : cfiles_count w' = cfiles_count w
}.

Global Instance children_only_refl : Reflexive children_only.
Proof. intros w. by split. Qed.

Global Instance children_only_trans : Transitive children_only.
Proof. intros w1 w2 w3 [] []. split; congruence. Qed.

Section ChildrenOnly.

Variable E : environ.

Lemma children_spawn_proc (j : job) : respects children_only (cli_spawn_proc E j).
Proof.
  intros w. unfold cli_spawn_proc.
  destruct (spawn E _ _) as [errno|pid objs [status|]]; [by split| |by split].
  by destruct (_ || _).
Qed.

Lemma children_object_times (cf : cfile) :
  respects children_only (set_object_times E cf).
Proof.
  intros w. unfold set_object_times. by destruct (sys_utimes _ _ _).
Qed.

Lemma children_compile_unit (cf : cfile) :
  respects children_only (compile_unit E cf).
Proof.
  unfold compile_unit.
  apply respects_bind; [apply _ | by intros w | intros _].
  apply respects_bind; [apply _ | apply children_spawn_proc | intros _].
  apply children_object_times.
Qed.

Lemma children_compile_loop (cfs : list cfile) (r : Z) :
  respects children_only (compile_loop E cfs r).
Proof.
  revert r. induction cfs as [|cf cfs IH]; intros r; cbn [compile_loop].
  - by intros w.
  - destruct (negb _); [apply IH|].
    apply respects_bind; [apply _ | apply children_compile_unit | intros _].
    apply IH.
Qed.

Lemma children_build_objects : respects children_only (build_objects E).
Proof. intros w. apply children_compile_loop. Qed.

Lemma children_build_link (r : Z) : respects children_only (build_link E r).
Proof.
  unfold build_link. destruct (negb _); [|by intros w].
  apply respects_bind; [apply _ | apply children_spawn_proc | intros _].
  apply respects_bind; [apply _ | by intros w | intros app]. by intros w.
Qed.

End ChildrenOnly.

(** ** The count of the units *)

(** [cfiles_count] is the number of units, counted as an [int]. *)
Definition counted (w : world) : Prop :=
  cfiles_count w = Nat.iter (length (source_files w)) int_incr 0.

Global Instance counted_frame : Frame (keeps counted).
Proof. split; try apply _; intros; intros Hw; exact Hw. Qed.

Global Instance counted_frame_dirs : FrameDirs (keeps counted).
Proof. intros p w Hw. exact Hw. Qed.

Section Counted.

Variable E : environ.

Lemma counted_add_cfile name fpath opath st build cpp :
  respects (keeps counted) (cli_add_cfile name fpath opath st build cpp).
Proof.
  intros w Hw. unfold counted in *. cbn.
  rewrite length_app, Nat.add_comm. cbn. by rewrite Hw.
Qed.

Lemma counted_children {A} (m : M A) :
  respects children_only m → respects (keeps counted) m.
Proof. intros Hm w Hw. destruct (Hm w). unfold counted in *. congruence. Qed.

Lemma counted_build_asset fpath d_name sr data :
  respects (keeps counted) (cli_build_asset E fpath d_name sr data).
Proof.
  unfold cli_build_asset.
  repeat first
    [ apply frame_write_asset, _ | apply counted_add_cfile | frame_step ].
Qed.

Lemma counted_register_cfile fpath d_name sr data :
  respects (keeps counted) (cli_register_cfile E fpath d_name sr data).
Proof.
  unfold cli_register_cfile.
  repeat first [ apply counted_add_cfile | frame_step ].
Qed.

Lemma build_names_counted (argv : list string) (w : world) :
  match build_names E argv w with
  | Done _ w1 => source_files w1 = [] ∧ cfiles_count w1 = 0
  | Died w1 =>
      source_files w1 = source_files w ∧ cfiles_count w1 = cfiles_count w
  end.
Proof.
  unfold build_names, mbind, M_bind, modify, cli_fatal, mret, M_ret.
  destruct argv as [|a argv]; [destruct (getcwd E) as [errno|pwd]|];
    destruct (getenv E "CC"); cbn; auto.
Qed.

Lemma counted_build (argv : list string) :
  respects (keeps counted) (cli_build E argv).
Proof.
  unfold cli_build. intros w Hw. rewrite bind_unfold.
  pose proof (build_names_counted argv w) as Hn.
  destruct (build_names E argv w) as [[] w1|w1]; cbn [final].
  - revert w1 Hn. 
    assert (respects (keeps counted)
              (build_check E;; build_assets E;; build_sources E;;
               requires_relink ← build_objects E;
               build_certs E;; build_link E requires_relink)) as Hrest.
    { apply respects_bind; [apply _ | apply frame_build_check; apply _ | intros _].
      apply respects_bind; [apply _ | | intros _].
      { unfold build_assets. repeat frame_step.
        - intros w1. by apply frame_s_fd.
        - intros w1. rewrite cli_find_files_found. revert w1.
          apply frame_visit_all; [apply _|]. intros. apply counted_build_asset. }
      apply respects_bind; [apply _ | | intros _].
      { unfold build_sources. repeat frame_step.
        intros w1. rewrite cli_find_files_found. revert w1.
        apply frame_visit_all; [apply _|]. intros. apply counted_register_cfile. }
      apply respects_bind; [apply _ | | intros r].
      { apply counted_children, children_build_objects. }
      apply respects_bind; [apply _ | apply frame_build_certs; apply _ | intros _].
      apply counted_children, children_build_link. }
    intros w1 [Hu Hc]. apply Hrest. unfold counted. by rewrite Hu, Hc.
  - destruct Hn as [Hu Hc]. unfold counted in *. by rewrite Hu, Hc.
Qed.

End Counted.

(** X4: [cfiles_count] counts the units.  Whatever the build comes
    across and however it ends, the counter [cli_add_cfile] increments is
    the length of the list it appends to (as an [int]: equal to it below
    INT_MAX). *)
Theorem cfiles_count_units (E : environ) (argv : list string) (w : world) :
  let w' := final (cli_build E argv (exec_kore w)) in
  cfiles_count w' = Nat.iter (length (source_files w')) int_incr 0
  ∧ (Z.of_nat (length (source_files w')) <= INT_MAX →
     cfiles_count w' = Z.of_nat (length (source_files w'))).
Proof.
  cbn zeta.
  assert (counted (final (cli_build E argv (exec_kore w)))) as Hc
    by (by apply counted_build).
  split; [exact Hc|]. intros Hn. rewrite Hc. by apply iter_int_incr.
Qed.

Lemma cfiles_count_units_witness :
  let E := Demo.env (Demo.layout [Dirent "a.c" (File 42 Demo.text)]
                       [Dirent "page.html" (File 7 Demo.text)])
             (Demo.toolchain true 1700000000 0) in
  let w' := final (cli_build E [] (exec_kore (Demo.boot ∅))) in
  cfiles_count w' = Z.of_nat (length (source_files w')).
Proof.
  intros E w'.
  apply (proj2 (cfiles_count_units E [] (Demo.boot ∅))).
  vm_compute. discriminate.
Defined.

(** X5: the vector [cli_link_library] builds fits the array it is
    declared with.  At the link of a build with at most INT_MAX units,
    as long as [kore_split_string] gives back no more than the
    LD_FLAGS_MAX elements it is asked for, the arguments and their NULL
    are at most [cfiles_count + 11 + LD_FLAGS_MAX]. *)
Theorem cli_link_library_fits (E : environ) (argv : list string) (w : world) :
  let w' := final (cli_build E argv (exec_kore w)) in
  (∀ p, length (kore_split_string E p " " LD_FLAGS_MAX) ≤ LD_FLAGS_MAX)%nat →
  Z.of_nat (length (source_files w')) <= INT_MAX →
  Z.of_nat (length (cli_link_library E w')) + 1
  <= cfiles_count w' + 11 + Z.of_nat LD_FLAGS_MAX.
Proof.
  cbn zeta. intros Hsplit Hn.
  assert (counted (final (cli_build E argv (exec_kore w)))) as Hc
    by (by apply counted_build).
  unfold counted in Hc. rewrite iter_int_incr in Hc by done. rewrite Hc.
  unfold cli_link_library, user_flags. cbn zeta.
  rewrite !length_app, length_map.
  assert (length (match getenv E "LDFLAGS" with
                  | Some p => kore_split_string E p " " LD_FLAGS_MAX
                  | None => []
                  end) ≤ LD_FLAGS_MAX)%nat as Hf.
  { destruct (getenv E "LDFLAGS"); [apply Hsplit | simpl; lia]. }
  unfold LD_FLAGS_MAX in *.
  destruct (MACH E), (existsb _ _); simpl; lia.
Qed.

Lemma cli_link_library_fits_witness :
  let E := Demo.env (Demo.layout [Dirent "a.c" (File 42 Demo.text)] [])
             (Demo.toolchain true 1700000000 0) in
  let w' := final (cli_build E [] (exec_kore (Demo.boot ∅))) in
  Z.of_nat (length (cli_link_library E w')) + 1
  <= cfiles_count w' + 11 + Z.of_nat LD_FLAGS_MAX.
Proof.
  intros E w'. apply (cli_link_library_fits E [] (Demo.boot ∅)).
  - intros p. simpl. lia.
  - vm_compute. discriminate.
Defined.

(** ** Where the walker goes *)

(** A file handed to the callback lies below [path], under the name
    [readdir] gave, which is neither "." nor "..". *)
Definition below (path : string) (f : found) : Prop :=
  match f with
  | Visit fpath d_name _ _ =>
      (∃ rel, fpath = path +:+ rel +:+ "/" +:+ d_name)
      ∧ d_name ≠ "." ∧ d_name ≠ ".."
  | _ => True
  end.

Lemma below_deeper (path d : string) (f : found) :
  below (path +:+ "/" +:+ d) f → below path f.
Proof.
  destruct f as [fpath d_name mtime data|line|msg]; try done.
  intros [(rel & ->) Hd]. split; [|done].
  exists ("/" +:+ d +:+ rel). by rewrite !append_assoc.
Qed.

Lemma found_in_below (E : environ) (n : node) :
  ∀ path, Forall (below path) (found_in E path n).
Proof.
  induction n as [mtime data|o entries IH| |errno] using node_induction;
    intros path; try (by repeat constructor).
  destruct o as [errno|]; [by repeat constructor|].
  cbn [found_in].
  induction IH as [|[d_name nd] entries Hnd _ IHe]; [constructor|].
  apply Forall_app_2; [|exact IHe].
  destruct (CStr.streq d_name "." || CStr.streq d_name "..") eqn:Hdots;
    [constructor|].
  apply orb_false_iff in Hdots as [H1 H2].
  apply String.eqb_neq in H1, H2.
  destruct nd as [mtime data|o sub| |errno]; try (by repeat constructor).
  - constructor; [|constructor]. split; [|done]. by exists EmptyString.
  - eapply Forall_impl; [apply (Hnd (path +:+ "/" +:+ d_name))|].
    intros f. apply below_deeper.
Qed.

(** X6: [cli_find_files] calls the callback on regular files only,
    each under a path that is [path], the directories gone down, a slash
    and the [d_name] the callback gets with it; an entry "." or ".." is
    neither reported nor gone into. *)
Theorem cli_find_files_below (E : environ) (path : string) (cb : callback)
    (w : world) :
  cli_find_files E path cb w = visit_all E cb (found_at E path) w
  ∧ Forall (below path) (found_at E path).
Proof.
  split; [apply cli_find_files_found|].
  unfold found_at. destruct (tree E path); [apply found_in_below|].
  by repeat constructor.
Qed.

(** ** Failing loudly

    A computation is loud when it dies only through [cli_fatal]: the
    last thing in the trace is then the line "kore <command>: ...". *)
Definition loud (E : environ) {A} (m : M A) : Prop :=
  ∀ w w', m w = Died w' →
    ∃ msg, last (w_trace w') = Some (Stdout (fatal_line E msg)).

Section Loud.

Variable E : environ.

Lemma loud_bind {A B} (m : M A) (k : A → M B) :
  loud E m → (∀ a, loud E (k a)) → loud E (m ≫= k).
Proof.
  intros Hm Hk w w' H. apply bind_Died in H as [H|(a & w1 & _ & H)].
  - by apply (Hm w).
  - by apply (Hk a w1).
Qed.

Lemma loud_fatal {A} (msg : string) : loud E (@cli_fatal E A msg).
Proof. intros w w' [= <-]. exists (vsnprintf 2048 msg). cbn. apply last_snoc. Qed.

Lemma loud_fatal_at {A} (msg : string) (w w' : world) :
  @cli_fatal E A msg w = Died w' →
  ∃ msg, last (w_trace w') = Some (Stdout (fatal_line E msg)).
Proof. apply loud_fatal. Qed.

Ltac loud_step :=
  first
    [ apply loud_fatal
    | apply loud_bind; [|intros ?]
    | (intros ? ? [=]; fail)
    | match goal with
      | |- loud _ (match ?x with _ => _ end) => destruct x
      end ].

Lemma loud_requires_build (st : stat) (opath : string) :
  loud E (cli_file_requires_build E st opath).
Proof.
  intros w w'. unfold cli_file_requires_build.
  destruct (sys_stat _ _) as [ost|errno]; [discriminate|].
  destruct (errno =? ENOENT); [discriminate|]. apply loud_fatal.
Qed.

Lemma loud_mkdir (fpath : string) (mode : Z) : loud E (cli_mkdir E fpath mode).
Proof. unfold cli_mkdir. repeat loud_step. Qed.

Lemma loud_open (fpath : string) (flags : oflags) :
  loud E (cli_file_open E fpath flags).
Proof. unfold cli_file_open. repeat loud_step. Qed.

Lemma loud_close (fd : string) : loud E (cli_file_close E fd).
Proof. unfold cli_file_close. repeat loud_step. Qed.

Lemma loud_write (fd buf : string) : loud E (cli_file_write E fd buf).
Proof. unfold cli_file_write. repeat loud_step. Qed.

Lemma loud_writef (fd buf : string) : loud E (cli_file_writef E fd buf).
Proof. apply loud_write. Qed.

Lemma loud_write_bytes (out : string) (d : list Byte.byte) :
  loud E (write_bytes E out d).
Proof.
  induction d as [|b d IH]; cbn [write_bytes]; repeat loud_step.
  - apply loud_writef.
  - exact IH.
Qed.

Lemma loud_write_asset (n e : string) : loud E (cli_write_asset E n e).
Proof. unfold cli_write_asset. repeat first [apply loud_writef | loud_step]. Qed.

Lemma loud_file_create (name data : string) : loud E (cli_file_create E name data).
Proof.
  unfold cli_file_create.
  repeat first [apply loud_open | apply loud_write | apply loud_close | loud_step].
Qed.

Lemma loud_generate_certs : loud E (cli_generate_certs E).
Proof.
  unfold cli_generate_certs. repeat first [apply loud_file_create | loud_step].
Qed.

Ltac louder :=
  repeat first
    [ apply loud_requires_build | apply loud_mkdir | apply loud_open
    | apply loud_close | apply loud_writef | apply loud_write
    | apply loud_write_bytes | apply loud_write_asset
    | apply loud_file_create | apply loud_generate_certs | loud_step ].

Lemma loud_build_asset fpath d_name sr data :
  loud E (cli_build_asset E fpath d_name sr data).
Proof. unfold cli_build_asset. louder. Qed.

Lemma loud_register_cfile fpath d_name sr data :
  loud E (cli_register_cfile E fpath d_name sr data).
Proof. unfold cli_register_cfile. louder. Qed.

Lemma loud_visit_all (cb : callback) (l : list found) :
  (∀ fpath d_name sr data, loud E (cb fpath d_name sr data)) →
  loud E (visit_all E cb l).
Proof.
  intros Hcb. induction l as [|[fpath d_name mtime data|line|msg] l IH];
    cbn [visit_all]; louder; done.
Qed.

Lemma loud_find_files (path : string) (cb : callback) :
  (∀ fpath d_name sr data, loud E (cb fpath d_name sr data)) →
  loud E (cli_find_files E path cb).
Proof.
  intros Hcb w w'. rewrite cli_find_files_found. by apply loud_visit_all.
Qed.

Lemma loud_spawn_proc (j : job) : loud E (cli_spawn_proc E j).
Proof.
  intros w w'. unfold cli_spawn_proc.
  destruct (spawn E _ _) as [errno|pid objs [status|]]; try apply loud_fatal.
  destruct (_ || _); [apply loud_fatal | discriminate].
Qed.

Lemma loud_object_times (cf : cfile) : loud E (set_object_times E cf).
Proof.
  intros w w'. unfold set_object_times.
  destruct (sys_utimes _ _ _); discriminate.
Qed.

Lemma loud_compile_loop (cfs : list cfile) (r : Z) : loud E (compile_loop E cfs r).
Proof.
  revert r. induction cfs as [|cf cfs IH]; intros r; cbn [compile_loop].
  - louder.
  - destruct (negb _); [apply IH|]. unfold compile_unit.
    repeat first [apply loud_spawn_proc | apply loud_object_times | apply IH
                 | loud_step].
Qed.

Lemma loud_build (argv : list string) : loud E (cli_build E argv).
Proof.
  unfold cli_build, build_names, build_check, build_assets, build_sources,
    build_objects, build_certs, build_link, cli_dir_exists, cli_file_exists,
    unlink.
  repeat first
    [ apply loud_find_files; [apply loud_build_asset || apply loud_register_cfile]
    | apply loud_compile_loop | apply loud_spawn_proc
    | apply loud_requires_build | apply loud_mkdir | apply loud_open
    | apply loud_close | apply loud_writef | apply loud_write
    | apply loud_generate_certs | loud_step ].
Qed.

End Loud.

(** X7: a build that does not return went out through [cli_fatal]:
    the last thing the process did was print the line "kore <command>:
    <message>" (or "kore: <message>" when no command is set) on its
    standard output.  It never exits without a word. *)
Theorem cli_build_dies_loudly (E : environ) (argv : list string) (w w' : world) :
  cli_build E argv w = Died w' →
  ∃ msg, last (w_trace w') = Some (Stdout (fatal_line E msg)).
Proof. apply loud_build. Qed.

Lemma cli_build_dies_loudly_witness :
  let E := Demo.env (Demo.layout [Dirent "a.c" (File 42 Demo.text)] [])
             (Demo.toolchain false 1700000000 (wstatus (Exited 1))) in
  ∃ w', cli_build E [] (Demo.boot ∅) = Died w'
        ∧ ∃ msg, last (w_trace w') = Some (Stdout (fatal_line E msg)).
Proof.
  intros E. eexists. split; [vm_compute; reflexivity|].
  eapply (cli_build_dies_loudly E [] (Demo.boot ∅)). vm_compute; reflexivity.
Defined.

(** ** The compiler the children are *)

(** An [execvp] of the program [c], with [c] as [argv[0]]. *)
Definition execs_with (c : string) (e : event) : Prop :=
  match e with
  | Exec _ file argv => file = c ∧ head argv = Some c
  | _ => True
  end.

(** From a world where the compiler is [c]: it still is, and every
    program started since was [c]. *)
Definition runs (c : string) (w w' : world) : Prop :=
  compiler w = c →
  compiler w' = c
  ∧ ∃ t, w_trace w' = w_trace w ++ t ∧ Forall (execs_with c) t.

Global Instance runs_refl c : Reflexive (runs c).
Proof. intros w Hc. split; [done|]. exists []. by rewrite app_nil_r. Qed.

Global Instance runs_trans c : Transitive (runs c).
Proof.
  intros w1 w2 w3 H12 H23 Hc.
  destruct (H12 Hc) as (Hc2 & t & Ht & Hf).
  destruct (H23 Hc2) as (Hc3 & t' & Ht' & Hf').
  split; [done|]. exists (t ++ t'). rewrite Ht', Ht, <- app_assoc.
  split; [done | by apply Forall_app].
Qed.

Lemma runs_emit c (e : event) (w : world) : execs_with c e → runs c w (emit e w).
Proof. intros He Hc. split; [done|]. exists [e]. split; [done | by constructor]. Qed.

Lemma runs_quiet c (w w' : world) :
  compiler w' = compiler w → w_trace w' = w_trace w → runs c w w'.
Proof.
  intros Hc' Ht Hc. split; [congruence|]. exists []. by rewrite app_nil_r.
Qed.

Global Instance runs_frame c : Frame (runs c).
Proof.
  split; try apply _.
  - intros [] w He; try done; by apply runs_emit.
  - intros f w. by apply runs_quiet.
  - intros fd w. by apply runs_quiet.
Qed.

Global Instance runs_frame_dirs c : FrameDirs (runs c).
Proof. intros p w. by apply runs_quiet. Qed.

Section Runs.

Variable E : environ.
Variable c : string.

Lemma runs_add_cfile name fpath opath st build cpp :
  respects (runs c) (cli_add_cfile name fpath opath st build cpp).
Proof. intros w. by apply runs_quiet. Qed.

Lemma runs_build_asset fpath d_name sr data :
  respects (runs c) (cli_build_asset E fpath d_name sr data).
Proof.
  unfold cli_build_asset.
  repeat first
    [ apply frame_write_asset, _ | apply runs_add_cfile | frame_step ].
Qed.

Lemma runs_register_cfile fpath d_name sr data :
  respects (runs c) (cli_register_cfile E fpath d_name sr data).
Proof.
  unfold cli_register_cfile. repeat first [ apply runs_add_cfile | frame_step ].
Qed.

Lemma head_driver (j : job) (w : world) : head (driver E j w) = Some (compiler w).
Proof. by destruct j. Qed.

Lemma runs_trace (w w' : world) (t : list event) :
  compiler w' = compiler w → w_trace w' = w_trace w ++ t →
  (compiler w = c → Forall (execs_with c) t) → runs c w w'.
Proof. intros Hc' Ht Hf Hc. split; [congruence|]. exists t. auto. Qed.

Lemma runs_spawn_proc (j : job) : respects (runs c) (cli_spawn_proc E j).
Proof.
  intros w. unfold cli_spawn_proc.
  destruct (spawn E _ _) as [errno|pid objs [status|]]; cbn [final].
  - eapply (runs_trace _ _ [Fork _; Stdout _]);
      [done | cbn; by rewrite <- !app_assoc | by repeat constructor].
  - destruct (_ || _); cbn [final].
    + eapply (runs_trace _ _ [Fork _; Exec _ _ _; Waitpid _ _ _; Stdout _]);
        [done | cbn; by rewrite <- !app_assoc |].
      intros Hc. repeat constructor; [done | by rewrite head_driver, Hc].
    + eapply (runs_trace _ _ [Fork _; Exec _ _ _; Waitpid _ _ _]);
        [done | cbn; by rewrite <- !app_assoc |].
      intros Hc. repeat constructor; [done | by rewrite head_driver, Hc].
  - eapply (runs_trace _ _ [Fork _; Exec _ _ _; Waitpid _ _ _; Stdout _]);
      [done | cbn; by rewrite <- !app_assoc |].
    intros Hc. repeat constructor; [done | by rewrite head_driver, Hc].
Qed.

Lemma runs_object_times (cf : cfile) : respects (runs c) (set_object_times E cf).
Proof.
  intros w. unfold set_object_times.
  destruct (sys_utimes _ _ _); cbn [final].
  - eapply (runs_trace _ _ [Utimes _ _ _; Stdout _]);
      [done | cbn; by rewrite <- !app_assoc | by repeat constructor].
  - eapply (runs_trace _ _ [Utimes _ _ _]); [done | done | by repeat constructor].
Qed.

Lemma runs_compile_loop (cfs : list cfile) (r : Z) :
  respects (runs c) (compile_loop E cfs r).
Proof.
  revert r. induction cfs as [|cf cfs IH]; intros r; cbn [compile_loop].
  - apply respects_ret, _.
  - destruct (negb _); [apply IH|]. unfold compile_unit.
    repeat first [apply runs_spawn_proc | apply runs_object_times | apply IH
                 | frame_step].
Qed.

Lemma runs_build_rest :
  respects (runs c)
    (build_check E;; build_assets E;; build_sources E;;
     requires_relink ← build_objects E;
     build_certs E;; build_link E requires_relink).
Proof.
  apply respects_bind; [apply _ | apply frame_build_check; apply _ | intros _].
  apply respects_bind; [apply _ | | intros _].
  { unfold build_assets. repeat frame_step.
    - intros w1. by apply frame_s_fd.
    - intros w1. rewrite cli_find_files_found. revert w1.
      apply frame_visit_all; [apply _|]. intros. apply runs_build_asset. }
  apply respects_bind; [apply _ | | intros _].
  { unfold build_sources. repeat frame_step.
    intros w1. rewrite cli_find_files_found. revert w1.
    apply frame_visit_all; [apply _|]. intros. apply runs_register_cfile. }
  apply respects_bind; [apply _ | | intros r].
  { intros w. apply runs_compile_loop. }
  apply respects_bind; [apply _ | apply frame_build_certs; apply _ | intros _].
  unfold build_link. repeat first [apply runs_spawn_proc | frame_step].
Qed.

End Runs.

(** X8: the program named by CC, or gcc when CC is not set, is the
    program of every child of the build, compiles and link alike, and is
    what the child finds in [argv[0]]. *)
Theorem compiler_from_CC (E : environ) (argv : list string) (w : world) :
  let w0 := exec_kore w in
  let w' := final (cli_build E argv w0) in
  let cc := default "gcc" (getenv E "CC") in
  Forall (execs_with cc) (since w0 w').
Proof.
  cbn zeta. unfold cli_build. rewrite bind_unfold.
  destruct (build_names E argv (exec_kore w)) as [[] w1|w1] eqn:H1; cbn [final].
  - assert (compiler w1 = default "gcc" (getenv E "CC")
            ∧ w_trace w1 = w_trace (exec_kore w)) as [Hc Ht].
    { revert H1.
      unfold build_names, mbind, M_bind, modify, cli_fatal, mret, M_ret.
      destruct argv as [|a argv]; [destruct (getcwd E) as [errno|pwd]|];
        destruct (getenv E "CC"); cbn; intros H; try discriminate;
        by injection H as <-. }
    destruct (runs_build_rest E _ w1 Hc) as (_ & t & Ht' & Hf).
    by rewrite (since_app _ _ t) by (by rewrite Ht', Ht).
  - revert H1.
    unfold build_names, mbind, M_bind, modify, cli_fatal, mret, M_ret.
    destruct argv as [|a argv]; [destruct (getcwd E) as [errno|pwd]|];
      destruct (getenv E "CC"); cbn; intros H; try discriminate;
      injection H as <-; unfold since; cbn;
      rewrite drop_app_length; by repeat constructor.
Qed.

(** ** The children of a build that returns *)

(** X9: a build that returns (with at most INT_MAX units) has
    compiled each unit to build exactly once, in the order of the list,
    and nothing else; it has then linked, once, unless there was no unit
    to build; and no [waitpid] failed or found a child that ended
    other than with status 0. *)
Theorem cli_build_compiles (E : environ) (argv : list string) (w0 w' : world) :
  cli_build E argv w0 = Done tt w' →
  Z.of_nat (length (source_files w')) <= INT_MAX →
  calm (since w0 w')
  ∧ jobs_of (since w0 w')
    = match flagged (source_files w') with
      | [] => []
      | _ :: _ => plan (source_files w')
      end.
Proof.
  intros H Hn.
  destruct (cli_build_outcome E argv w0) as (t & Ht & Ho).
  rewrite H in Ht, Ho. cbn [final] in Ht. cbn zeta in Ho.
  destruct Ho as (Hc & Hj & _). rewrite (since_app _ _ _ Ht).
  split; [exact Hc|]. rewrite Hj. unfold plan.
  pose proof (flagged_length (source_files w')) as Hl.
  rewrite iter_int_incr by lia.
  destruct (flagged (source_files w')) as [|u fl]; [done|].
  cbn [length]. by destruct (Z.eqb_spec (Z.of_nat (S (length fl))) 0); [lia|].
Qed.

Lemma cli_build_compiles_witness :
  let E := Demo.env (Demo.layout [Dirent "a.c" (File 42 Demo.text)] [])
             (Demo.toolchain true 1700000000 0) in
  ∃ w', cli_build E [] (Demo.boot ∅) = Done tt w'
        ∧ calm (since (Demo.boot ∅) w')
        ∧ jobs_of (since (Demo.boot ∅) w') = [Compile (Demo.a_source 42); Link].
Proof.
  intros E. eexists. split; [vm_compute; reflexivity|].
  eapply (cli_build_compiles E [] (Demo.boot ∅)).
  - vm_compute; reflexivity.
  - vm_compute. discriminate.
Defined.

(** ** C and C++ *)

(** A unit is marked C++ exactly when its path ends in ".cpp". *)
Definition cpp_named (u : cfile) : Prop :=
  cf_cpp u = true ↔ ∃ stem, cf_fpath u = stem +:+ ".cpp".




Global Instance cpp_frame : Frame (keeps (λ w, Forall cpp_named (source_files w))).
Proof. split; try apply _; intros; intros Hw; exact Hw. Qed.

Global Instance cpp_frame_dirs :
  FrameDirs (keeps (λ w, Forall cpp_named (source_files w))).
Proof. intros p w Hw. exact Hw. Qed.

Section Cpp.

Variable E : environ.

Abbreviation Rc := (keeps (λ w, Forall cpp_named (source_files w))).







End Cpp.


(** ** The commands *)

Section LoudCommands.

Variable E : environ.

Lemma loud_make_dirs (dirs : list string) : loud E (make_dirs E dirs).
Proof.
  induction dirs as [|d dirs IH]; cbn [make_dirs].
  - by intros ? ? [=].
  - apply loud_bind; [by intros ? ? [=] | intros app].
    apply loud_bind; [apply loud_mkdir | intros _; exact IH].
Qed.

Lemma loud_make_files (gens : list (M unit)) :
  Forall (loud E) gens → loud E (make_files gens).
Proof.
  induction 1 as [|gen gens Hg _ IH]; cbn [make_files].
  - by intros ? ? [=].
  - apply loud_bind; [exact Hg | intros _; exact IH].
Qed.

Lemma loud_gen_files : Forall (loud E) (gen_files E).
Proof.
  repeat constructor; intros w w';
    unfold file_create_src, file_create_config, file_create_gitignore;
    rewrite bind_unfold; unfold get at 1; apply loud_file_create.
Qed.

Lemma loud_create (argv : list string) : loud E (cli_create E argv).
Proof.
  unfold cli_create.
  destruct argv as [|a [|b argv]]; try apply loud_fatal.
  apply loud_bind; [by intros ? ? [=] | intros _].
  apply loud_bind; [apply loud_mkdir | intros _].
  apply loud_bind; [by intros ? ? [=] | intros _].
  apply loud_bind; [apply loud_make_dirs | intros _].
  apply loud_bind; [apply loud_make_files, loud_gen_files | intros _].
  apply loud_bind; [apply loud_generate_certs | intros _].
  apply loud_bind; [by intros ? ? [=] | intros app].
  apply loud_bind; [by intros ? ? [=] | intros _].
  destruct (KORE_NO_TLS E); by intros ? ? [=].
Qed.

End LoudCommands.

(** X11: when [kore build], [kore run] or [kore create] ends in
    [exit], it went out through [cli_fatal], and the last line on its
    standard output starts with the name of the command that was typed:
    a build that fails under [kore run] says "kore run: ...". *)
Theorem kore_cli_main_fatal (cli_clean : environ → list string → M unit)
    (chdir_errno execvp_errno : string → option Z)
    (E : environ) (name : string) (rest : list string) (w w' : world) :
  name ∈ ["run"; "build"; "create"] →
  kore_cli_main cli_clean chdir_errno execvp_errno E (name :: rest) w = Exits w' →
  ∃ msg, last (w_trace w') = Some (Stdout ("kore " +:+ name +:+ ": " +:+ msg)).
Proof.
  intros Hname.
  apply elem_of_cons in Hname as [->|Hname];
    [|apply elem_of_cons in Hname as [->|Hname];
      [|apply list_elem_of_singleton in Hname as ->]];
    cbn [kore_cli_main find_cmd cmds CStr.streq String.eqb Ascii.eqb Bool.eqb call];
    intros H.
  - unfold cli_run in H.
    destruct (cli_build _ rest w) as [[] w1|w1] eqn:Hb.
    + destruct (chdir_errno _); [|by destruct (execvp_errno _)].
      injection H as <-. eexists. cbn. apply last_snoc.
    + injection H as <-. by apply (loud_build (with_command E "run") rest w).
  - destruct (cli_build _ rest w) as [[] w1|w1] eqn:Hb; [discriminate|].
    injection H as <-. by apply (loud_build (with_command E "build") rest w).
  - destruct (cli_create _ rest w) as [[] w1|w1] eqn:Hb; [discriminate|].
    injection H as <-. by apply (loud_create (with_command E "create") rest w).
Qed.

Lemma kore_cli_main_fatal_witness :
  let E := Demo.env (Demo.layout [Dirent "a.c" (File 42 Demo.text)] [])
             (Demo.toolchain false 1700000000 (wstatus (Exited 1))) in
  ∃ w', kore_cli_main (λ _ _, mret tt) (λ _, None) (λ _, None) E ["run"]
          (Demo.boot ∅) = Exits w'
        ∧ ∃ msg, last (w_trace w')
                 = Some (Stdout ("kore " +:+ "run" +:+ ": " +:+ msg)).
Proof.
  intros E. eexists. split; [vm_compute; reflexivity|].
  eapply (kore_cli_main_fatal (λ _ _, mret tt) (λ _, None) (λ _, None)
            E "run" [] (Demo.boot ∅)).
  - constructor.
  - vm_compute; reflexivity.
Defined.

(** The names of the table. *)
Definition cmd_names : list string := map (λ c, fst (fst c)) cmds.

(** The lines of the table, as [kore_cli_usage] prints them. *)
Definition cmd_rows : list string :=
  map (λ c, tab +:+ fst (fst c) +:+ tab +:+ snd (fst c)) cmds.

Lemma find_cmd_unknown (a : string) :
  a ∉ cmd_names → find_cmd cmds a = None.
Proof.
  unfold cmd_names, cmds. cbn [map fst snd]. intros Ha.
  cbn [find_cmd]. unfold CStr.streq.
  repeat match goal with
  | |- context [String.eqb a ?n] =>
      destruct (String.eqb_spec a n) as [->|_];
        [exfalso; apply Ha; repeat constructor|]
  end.
  reflexivity.
Qed.

(** X12: without a command, with a command that is not in the table,
    or with [help], [kore_cli_main] prints the usage and exits with
    status 1, [help] included.  It starts no command: files,
    directories and objects are as they were, and all it did was print;
    what is on the standard output is the table, a line for each
    command, and an unknown command is named first, on stderr. *)
Theorem kore_cli_main_usage (cli_clean : environ → list string → M unit)
    (chdir_errno execvp_errno : string → option Z)
    (E : environ) (argv : list string) (w : world) :
  match argv with
  | [] => True
  | a :: _ => a = "help" ∨ a ∉ cmd_names
  end →
  ∃ w', kore_cli_main cli_clean chdir_errno execvp_errno E argv w = Exits w'
        ∧ w_objs w' = w_objs w ∧ w_text w' = w_text w ∧ w_dirs w' = w_dirs w
        ∧ Forall printed (since w w')
        ∧ stdout_of (since w w') = cmd_rows
        ∧ match argv with
          | a :: _ =>
              a ∉ cmd_names →
              head (since w w') = Some (Stderr ("No such command: " +:+ a))
          | [] => True
          end.
Proof.
  destruct argv as [|a rest].
  - intros _. eexists. split; [reflexivity|]. repeat split.
    + unfold since. cbn. rewrite <- !app_assoc, drop_app_length.
      by repeat constructor.
    + unfold since. cbn. by rewrite <- !app_assoc, drop_app_length.
  - intros [->|Ha].
    + eexists. split; [reflexivity|]. repeat split.
      * unfold since. cbn. rewrite <- !app_assoc, drop_app_length.
        by repeat constructor.
      * unfold since. cbn. by rewrite <- !app_assoc, drop_app_length.
      * intros Hn. exfalso. apply Hn. repeat constructor.
    + cbn [kore_cli_main]. rewrite (find_cmd_unknown a Ha).
      eexists. split; [reflexivity|]. repeat split.
      * unfold since. cbn. rewrite <- !app_assoc, drop_app_length.
        by repeat constructor.
      * unfold since. cbn. by rewrite <- !app_assoc, drop_app_length.
      * intros _. unfold since. cbn. by rewrite <- !app_assoc, drop_app_length.
Qed.

Lemma kore_cli_main_usage_witness :
  let E := Demo.env (Demo.layout [] []) (Demo.toolchain true 0 0) in
  ∃ w', kore_cli_main (λ _ _, mret tt) (λ _, None) (λ _, None) E ["biuld"]
          (Demo.boot ∅) = Exits w'
        ∧ w_objs w' = ∅ ∧ w_text w' = ∅ ∧ w_dirs w' = ∅
        ∧ Forall printed (since (Demo.boot ∅) w')
        ∧ stdout_of (since (Demo.boot ∅) w') = cmd_rows
        ∧ ("biuld" ∉ cmd_names →
           head (since (Demo.boot ∅) w')
           = Some (Stderr ("No such command: " +:+ "biuld"))).
Proof.
  intros E.
  apply (kore_cli_main_usage (λ _ _, mret tt) (λ _, None) (λ _, None) E
           ["biuld"] (Demo.boot ∅)).
  right. intros H. vm_compute in H.
  repeat (apply elem_of_cons in H as [H|H]; [discriminate H|]).
  by apply elem_of_nil in H.
Defined.

(** ** [cli_create] *)

(** X13: [cli_create] makes nothing unless it is given exactly one
    name and can make the directory of that name: with no name or
    several, or when [mkdir] fails (the directory exists already, say),
    it dies at once, with no directory made and no file written, so an
    existing application is never written over. *)
Theorem cli_create_refuses (E : environ) (argv : list string) (w : world) :
  (length argv ≠ 1%nat ∨ ∃ a errno, argv = [a] ∧ mkdir_errno E a = Some errno) →
  ∃ w' msg, cli_create E argv w = Died w'
            ∧ since w w' = [Stdout (fatal_line E msg)]
            ∧ w_dirs w' = w_dirs w ∧ w_text w' = w_text w
            ∧ w_objs w' = w_objs w.
Proof.
  intros [Hn|(a & errno & -> & Hm)].
  - destruct argv as [|a [|b argv]]; [|done|];
      (eexists _, _; split; [reflexivity|]; repeat split;
       unfold since; cbn; by rewrite drop_app_length).
  - unfold cli_create. rewrite bind_unfold. cbn [modify].
    rewrite bind_unfold. unfold cli_mkdir. rewrite Hm.
    eexists _, _. split; [reflexivity|]. repeat split.
    unfold since. cbn. by rewrite drop_app_length.
Qed.

Lemma cli_create_refuses_witness :
  let E := Demo.env (Demo.layout [] []) (Demo.toolchain true 0 0) in
  ∃ w' msg, cli_create E ["one"; "two"] (Demo.boot ∅) = Died w'
            ∧ since (Demo.boot ∅) w' = [Stdout (fatal_line E msg)]
            ∧ w_dirs w' = ∅ ∧ w_text w' = ∅ ∧ w_objs w' = ∅.
Proof.
  intros E. apply (cli_create_refuses E ["one"; "two"] (Demo.boot ∅)).
  left. simpl. lia.
Defined.

Section Create.

Variable E : environ.
Hypothesis Hmkdir : ∀ p, mkdir_errno E p = None.
Hypothesis Hopen : ∀ p, open_errno E p = None.
Hypothesis Hwrite : ∀ p, write_errno E p = None.

(** What a step of [cli_create] leaves: the names, and what was made
    before. *)
Record grows (w w' : world) : Prop := Grows {
  gr_appl : appl w' = appl w;
  gr_root : rootdir w' = rootdir w;
  gr_dirs : w_dirs w ⊆ w_dirs w';
  gr_objs : w_objs w' = w_objs w
}.

Global Instance grows_refl : Reflexive grows.
Proof. intros w. by split. Qed.

Global Instance grows_trans : Transitive grows.
Proof. intros w1 w2 w3 [] []. split; try congruence. by etrans. Qed.

Lemma file_create_ok (name data : string) (w : world) :
  ∃ w', cli_file_create E name data w = Done tt w'
        ∧ w_text w' = <[rootdir w +:+ "/" +:+ name := data]> (w_text w)
        ∧ w_dirs w' = w_dirs w ∧ grows w w'.
Proof.
  cbv [cli_file_create cli_file_open cli_file_write cli_file_close
       mbind M_bind get modify mret M_ret printf].
  rewrite Hopen, Hwrite.
  assert (∀ fd (t : gmap string string),
            <[fd := default EmptyString (<[fd := EmptyString]> t !! fd) +:+ data]>
              (<[fd := EmptyString]> t) = <[fd := data]> t) as Hins.
  { intros fd t. by rewrite lookup_insert_eq, insert_insert_eq. }
  destruct (close_errno E _); cbv beta iota;
    (eexists; split; [reflexivity|]; cbn; rewrite Hins; by repeat split).
Qed.

Lemma make_dirs_ok (dirs : list string) (w : world) :
  ∃ w', make_dirs E dirs w = Done tt w'
        ∧ w_text w' = w_text w ∧ grows w w'
        ∧ ∀ d, d ∈ dirs → appl w +:+ "/" +:+ d ∈ w_dirs w'.
Proof.
  revert w. induction dirs as [|d dirs IH]; intros w; cbn [make_dirs].
  - exists w. repeat split; try done. by intros d ?%elem_of_nil.
  - rewrite bind_unfold. unfold get at 1. cbv beta iota.
    rewrite bind_unfold. unfold cli_mkdir. rewrite Hmkdir. cbn [modify].
    match goal with
    | |- context [make_dirs E dirs ?w1] =>
        destruct (IH w1) as (w' & -> & Ht & [Ha Hr Hd Ho] & Hin)
    end.
    exists w'. split; [done|]. split; [done|]. split.
    + split; try done. cbn in Hd. intros p Hp. apply Hd.
      by apply elem_of_union_r.
    + intros d' [->|Hd']%elem_of_cons; [|by apply Hin].
      apply Hd. cbn. apply elem_of_union_l. by apply elem_of_singleton.
Qed.

Lemma under_inj (a x y : string) :
  a +:+ "/" +:+ x = a +:+ "/" +:+ y → x = y.
Proof.
  intros H. apply (inj (String.app a)) in H.
  rewrite !append_cons, !append_nil_l in H. by injection H.
Qed.

Hypothesis Hssl : KORE_NO_TLS E = false → openssl_error E = None.

Lemma src_ok (w : world) :
  file_create_src E w
  = cli_file_create E ("src/" +:+ appl w +:+ ".c") src_data w.
Proof. reflexivity. Qed.

Lemma config_ok (w : world) :
  file_create_config E w
  = cli_file_create E ("conf/" +:+ appl w +:+ ".conf") (config_data E (appl w)) w.
Proof. reflexivity. Qed.

Lemma gitignore_ok (w : world) :
  file_create_gitignore E w
  = cli_file_create E ".gitignore" (gitignore_data (appl w)) w.
Proof. reflexivity. Qed.

Lemma gen_ok (gen : M unit) (name data : string) (w : world) :
  gen w = cli_file_create E name data w →
  ∃ w', gen w = Done tt w'
        ∧ w_text w' = <[rootdir w +:+ "/" +:+ name := data]> (w_text w)
        ∧ w_dirs w' = w_dirs w ∧ grows w w'.
Proof. intros ->. apply file_create_ok. Qed.

Lemma create_ok (a : string) (w : world) :
  ∃ w', cli_create E [a] w = Done tt w'
        ∧ appl w' = a ∧ rootdir w' = a
        ∧ a ∈ w_dirs w'
        ∧ (∀ d, d ∈ gen_dirs E → a +:+ "/" +:+ d ∈ w_dirs w')
        ∧ w_text w' !! (a +:+ "/" +:+ "src/" +:+ a +:+ ".c") = Some src_data
        ∧ w_text w' !! (a +:+ "/" +:+ "conf/" +:+ a +:+ ".conf")
          = Some (config_data E a)
        ∧ w_text w' !! (a +:+ "/" +:+ ".gitignore") = Some (gitignore_data a)
        ∧ (KORE_NO_TLS E = false →
           w_text w' !! (a +:+ "/" +:+ "dh2048.pem") = Some dh2048_data)
        ∧ w_objs w' = w_objs w.
Proof.
  unfold cli_create.
  rewrite bind_unfold. cbn [modify].
  rewrite bind_unfold. unfold cli_mkdir at 1. rewrite Hmkdir. cbn [modify].
  rewrite bind_unfold. cbn [modify].
  match goal with
  | |- context [(make_dirs E (gen_dirs E) ≫= _) ?w3] =>
      set (v := w3);
      destruct (make_dirs_ok (gen_dirs E) v) as (w4 & H4 & Ht4 & [Ha4 Hr4 Hd4 Ho4] & Hin4)
  end.
  rewrite bind_unfold, H4. cbn [make_files gen_files].
  rewrite bind_unfold, bind_unfold.
  destruct (gen_ok _ _ _ _ (src_ok w4)) as (w5 & -> & Ht5 & Hd5 & [Ha5 Hr5 _ Ho5]).
  rewrite bind_unfold.
  destruct (gen_ok _ _ _ _ (config_ok w5)) as (w6 & -> & Ht6 & Hd6 & [Ha6 Hr6 _ Ho6]).
  rewrite bind_unfold.
  destruct (gen_ok _ _ _ _ (gitignore_ok w6)) as (w7 & -> & Ht7 & Hd7 & [Ha7 Hr7 _ Ho7]).
  cbn [mret M_ret].
  assert (appl w6 = a ∧ appl w5 = a ∧ appl w4 = a
          ∧ rootdir w6 = a ∧ rootdir w5 = a ∧ rootdir w4 = a)
    as (Ea6 & Ea5 & Ea4 & Er6 & Er5 & Er4).
  { subst v. cbn in Ha4, Hr4. repeat split; congruence. }
  rewrite Ea6, Er6 in *. rewrite Ea5, Er5 in *. rewrite Ea4, Er4 in *.
  assert (∃ w8, cli_generate_certs E w7 = Done tt w8
                ∧ appl w8 = a ∧ rootdir w8 = a ∧ w_dirs w8 = w_dirs w7
                ∧ w_objs w8 = w_objs w7
                ∧ w_text w8
                  = (if KORE_NO_TLS E then w_text w7
                     else <[a +:+ "/" +:+ "dh2048.pem" := dh2048_data]> (w_text w7)))
    as (w8 & H8 & Ea8 & Er8 & Hd8 & Ho8 & Ht8).
  { unfold cli_generate_certs. destruct (KORE_NO_TLS E) eqn:Htls.
    - exists w7. repeat split; congruence.
    - rewrite bind_unfold.
      destruct (file_create_ok "dh2048.pem" dh2048_data w7)
        as (w8 & -> & Ht8 & Hd8 & [Ha8 Hr8 _ Ho8]).
      rewrite (Hssl eq_refl). exists w8. rewrite Hr7 in Ht8.
      repeat split; congruence. }
  rewrite bind_unfold, H8, bind_unfold. unfold get at 1. cbv beta iota.
  rewrite bind_unfold. cbn [printf modify].
  assert (w_dirs v ⊆ w_dirs w8) as Hsub by (by rewrite Hd8, Hd7, Hd6, Hd5).
  assert (∀ P : world → Prop,
            (∀ u, appl u = a → rootdir u = a → w_dirs u = w_dirs w8 →
                  w_text u = w_text w8 → w_objs u = w_objs w8 → P u) →
            ∃ w', (if KORE_NO_TLS E then mret tt
                   else printf
                     "note: do NOT use the created DH parameters/certificates in production")
                    (emit (Stdout (appl w8 +:+ " created successfully!")) w8)
                  = Done tt w' ∧ P w') as Hend.
  { intros P HP. destruct (KORE_NO_TLS E); (eexists; split; [reflexivity|]);
      by apply HP. }
  apply Hend. intros u Eau Eru Hdu Htu Hou.
  split; [done|]. split; [done|]. rewrite Hdu, Htu, Hou.
  split; [apply Hsub; subst v; cbn; apply elem_of_union_l; by apply elem_of_singleton|].
  split.
  { intros d Hd. rewrite Hd8, Hd7, Hd6, Hd5. subst v. by apply Hin4. }
  assert (w_text w8 !! (a +:+ "/" +:+ "src/" +:+ a +:+ ".c") = Some src_data
          ∧ w_text w8 !! (a +:+ "/" +:+ "conf/" +:+ a +:+ ".conf")
            = Some (config_data E a)
          ∧ w_text w8 !! (a +:+ "/" +:+ ".gitignore") = Some (gitignore_data a))
    as (T1 & T2 & T3).
  { assert (w_text w7 !! (a +:+ "/" +:+ "src/" +:+ a +:+ ".c") = Some src_data
            ∧ w_text w7 !! (a +:+ "/" +:+ "conf/" +:+ a +:+ ".conf")
              = Some (config_data E a)
            ∧ w_text w7 !! (a +:+ "/" +:+ ".gitignore") = Some (gitignore_data a))
      as (T1 & T2 & T3).
    { rewrite Ht7, Ht6, Ht5. repeat split.
      - rewrite lookup_insert_ne, lookup_insert_ne, lookup_insert_eq; [done| |];
          intros H%under_inj; rewrite ?append_cons in H; discriminate H.
      - rewrite lookup_insert_ne, lookup_insert_eq; [done|].
        intros H%under_inj; rewrite ?append_cons in H; discriminate H.
      - by rewrite lookup_insert_eq. }
    rewrite Ht8. destruct (KORE_NO_TLS E); [done|].
    rewrite !lookup_insert_ne; [done| | |];
      intros H%under_inj; rewrite ?append_cons in H; discriminate H. }
  repeat split; try done.
  - intros Htls. rewrite Ht8, Htls. by rewrite lookup_insert_eq.
  - rewrite Ho8, Ho7, Ho6, Ho5, Ho4. by subst v.
Qed.

End Create.

(** X14: when every call succeeds, [cli_create] on one name makes
    the directory of that name and in it [src], [conf], [assets] and,
    with TLS, [cert]; it writes the source, the configuration (which
    loads [./<name>.so]) and [.gitignore], each with exactly the text of
    its template, and with TLS the DH parameters; the application and its
    root directory are both the name, and no object is touched. *)
Theorem cli_create_makes (E : environ) (a : string) (w : world) :
  (∀ p, mkdir_errno E p = None) →
  (∀ p, open_errno E p = None) →
  (∀ p, write_errno E p = None) →
  (KORE_NO_TLS E = false → openssl_error E = None) →
  ∃ w', cli_create E [a] w = Done tt w'
        ∧ appl w' = a ∧ rootdir w' = a
        ∧ a ∈ w_dirs w'
        ∧ (∀ d, d ∈ gen_dirs E → a +:+ "/" +:+ d ∈ w_dirs w')
        ∧ w_text w' !! (a +:+ "/" +:+ "src/" +:+ a +:+ ".c") = Some src_data
        ∧ w_text w' !! (a +:+ "/" +:+ "conf/" +:+ a +:+ ".conf")
          = Some (config_data E a)
        ∧ w_text w' !! (a +:+ "/" +:+ ".gitignore") = Some (gitignore_data a)
        ∧ (KORE_NO_TLS E = false →
           w_text w' !! (a +:+ "/" +:+ "dh2048.pem") = Some dh2048_data)
        ∧ w_objs w' = w_objs w.
Proof. intros Hmkdir Hopen Hwrite Hssl. by apply create_ok. Qed.

Lemma cli_create_makes_witness :
  let E := Demo.env (Demo.layout [] []) (Demo.toolchain true 0 0) in
  ∃ w', cli_create E ["blog"] (Demo.boot ∅) = Done tt w'
        ∧ appl w' = "blog" ∧ rootdir w' = "blog"
        ∧ "blog" ∈ w_dirs w'
        ∧ (∀ d, d ∈ gen_dirs E → "blog" +:+ "/" +:+ d ∈ w_dirs w')
        ∧ w_text w' !! ("blog" +:+ "/" +:+ "src/" +:+ "blog" +:+ ".c")
          = Some src_data
        ∧ w_text w' !! ("blog" +:+ "/" +:+ "conf/" +:+ "blog" +:+ ".conf")
          = Some (config_data E "blog")
        ∧ w_text w' !! ("blog" +:+ "/" +:+ ".gitignore")
          = Some (gitignore_data "blog")
        ∧ (KORE_NO_TLS E = false →
           w_text w' !! ("blog" +:+ "/" +:+ "dh2048.pem") = Some dh2048_data)
        ∧ w_objs w' = ∅.
Proof.
  intros E. apply (cli_create_makes E).
  - intros p. reflexivity.
  - intros p. reflexivity.
  - intros p. reflexivity.
  - intros _. reflexivity.
Defined.

(** ** [cli_run] *)




(** ** The asset header *)

Lemma file_create_Done (E : environ) (name data : string) (w w' : world) :
  cli_file_create E name data w = Done tt w' →
  w_text w' = <[rootdir w +:+ "/" +:+ name := data]> (w_text w)
  ∧ rootdir w' = rootdir w.
Proof.
  cbv [cli_file_create cli_file_open cli_file_write cli_file_close
       mbind M_bind get modify mret M_ret printf cli_fatal].
  destruct (open_errno E _); [discriminate|].
  destruct (write_errno E _); [discriminate|].
  destruct (close_errno E _); intros [= <-]; cbn;
    by rewrite lookup_insert_eq, insert_insert_eq.
Qed.

Lemma header_not_dh (root : string) :
  assets_header root ≠ root +:+ "/" +:+ "dh2048.pem".
Proof.
  unfold assets_header. intros H. apply (inj (String.app root)) in H.
  rewrite !append_cons in H. discriminate H.
Qed.

Lemma build_certs_header (E : environ) (w w' : world) :
  build_certs E w = Done tt w' →
  w_text w' !! assets_header (rootdir w) = None ∧ rootdir w' = rootdir w.
Proof.
  unfold build_certs. intros H.
  apply bind_Done in H as (root & w1 & [= <- <-] & H).
  apply bind_Done in H as ([] & w1 & [= <-] & H).
  apply bind_Done in H as (is_cert & w2 & [= <- <-] & H).
  destruct (negb _).
  - apply bind_Done in H as ([] & w2 & H2 & H).
    unfold cli_mkdir in H2. destruct (mkdir_errno E _); [discriminate H2|].
    injection H2 as <-. unfold cli_generate_certs in H.
    destruct (KORE_NO_TLS E).
    + injection H as <-. cbn. split; [apply lookup_delete_eq | done].
    + apply bind_Done in H as ([] & w3 & H3 & H).
      apply file_create_Done in H3 as [Ht Hr].
      destruct (openssl_error E); [discriminate H|]. injection H as <-.
      split; [|exact Hr]. rewrite Ht. cbn.
      rewrite lookup_insert_ne by (intros Heq; by apply (header_not_dh (rootdir w))).
      apply lookup_delete_eq.
  - injection H as <-. cbn. split; [apply lookup_delete_eq | done].
Qed.

(** X17: the asset header is there for the compiles only.  When a
    build returns, [src/assets.h] is gone again, whether or not the
    project has assets. *)
Theorem assets_header_removed (E : environ) (argv : list string) (w w' : world) :
  cli_build E argv w = Done tt w' →
  w_text w' !! assets_header (rootdir w') = None.
Proof.
  intros H.
  destruct (cli_build_Done E argv w w' H)
    as (w1 & w2 & w3 & w4 & r & w5 & w6 & H1 & H2 & H3 & H4 & H5 & H6 & H7).
  apply build_certs_header in H6 as [Ht Hr].
  pose proof (children_build_link E r w6) as D7. rewrite H7 in D7.
  destruct D7. cbn [final] in *. congruence.
Qed.

Lemma assets_header_removed_witness :
  let E := Demo.env (Demo.layout [Dirent "a.c" (File 42 Demo.text)]
                       [Dirent "page.html" (File 7 Demo.text)])
             (Demo.toolchain true 1700000000 0) in
  ∃ w', cli_build E [] (Demo.boot ∅) = Done tt w'
        ∧ w_text w' !! assets_header (rootdir w') = None.
Proof.
  intros E. eexists. split; [vm_compute; reflexivity|].
  eapply (assets_header_removed E [] (Demo.boot ∅)). vm_compute; reflexivity.
Defined.

(** What [cli_build_asset] adds to the header for a file: the three
    declarations of an asset that is not empty. *)
Definition externs_of (f : found) : string :=
  match f with
  | Visit _ d_name _ (_ :: _) =>
      match CStr.strrchr d_name "." with
      | Some ext =>
          let name := CStr.map sanitize_char d_name in
          asset_externs (CStr.upto ext name) (CStr.from (S ext) name)
      | None => EmptyString
      end
  | _ => EmptyString
  end.

Definition header_externs (l : list found) : string :=
  foldr (λ f rest, externs_of f +:+ rest) EmptyString l.

(** The header of a project with assets, as [cli_build] writes it. *)
Definition header_text (l : list found) : string :=
  ("#ifndef __H_KORE_ASSETS_H" +:+ nl) +:+
  ("#define __H_KORE_ASSETS_H" +:+ nl) +:+
  header_externs l +:+
  (nl +:+ "#endif" +:+ nl).

(** A computation that, when it returns, has added [x] to the header of
    the project in [r] and left the root directory and [s_fd] alone. *)
Definition logs (r x : string) {A} (m : M A) : Prop :=
  ∀ w a w', m w = Done a w' →
    rootdir w = r → s_fd w = assets_header r →
    rootdir w' = r ∧ s_fd w' = assets_header r
    ∧ default EmptyString (w_text w' !! assets_header r)
      = default EmptyString (w_text w !! assets_header r) +:+ x.

Section Logs.

Variable E : environ.
Variable r : string.

Lemma logs_bind {A B} (x y : string) (m : M A) (k : A → M B) :
  logs r x m → (∀ a, logs r y (k a)) → logs r (x +:+ y) (m ≫= k).
Proof.
  intros Hm Hk w b w' H Hr Hf.
  apply bind_Done in H as (a & w1 & H1 & H2).
  destruct (Hm w a w1 H1 Hr Hf) as (Hr1 & Hf1 & Ht1).
  destruct (Hk a w1 b w' H2 Hr1 Hf1) as (Hr2 & Hf2 & Ht2).
  split; [done|]. split; [done|]. by rewrite Ht2, Ht1, append_assoc.
Qed.

Lemma logs_after {A B} (x : string) (m : M A) (k : A → M B) :
  logs r EmptyString m → (∀ a, logs r x (k a)) → logs r x (m ≫= k).
Proof. apply (logs_bind EmptyString x). Qed.

Lemma logs_before {A B} (x : string) (m : M A) (k : A → M B) :
  logs r x m → (∀ a, logs r EmptyString (k a)) → logs r x (m ≫= k).
Proof.
  intros Hm Hk. rewrite <- (append_nil_r x). by apply logs_bind.
Qed.

Lemma logs_same {A} (m : M A) :
  (∀ w a w', m w = Done a w' →
     rootdir w' = rootdir w ∧ s_fd w' = s_fd w
     ∧ w_text w' !! assets_header r = w_text w !! assets_header r) →
  logs r EmptyString m.
Proof.
  intros Hm w a w' H Hr Hf. destruct (Hm w a w' H) as (Hr' & Hf' & Ht).
  split; [congruence|]. split; [congruence|]. by rewrite Ht, append_nil_r.
Qed.

Lemma logs_fatal {A} (x msg : string) : logs r x (@cli_fatal E A msg).
Proof. intros w a w' H. discriminate H. Qed.

Lemma logs_get_root {A} (x : string) (k : string → M A) :
  logs r x (k r) → logs r x (get rootdir ≫= k).
Proof.
  intros Hk w a w' H Hr Hf. rewrite bind_unfold in H. cbn in H.
  rewrite Hr in H. by apply (Hk w a w').
Qed.

Lemma logs_open {A} (x p : string) (flags : oflags) (k : string → M A) :
  flags = O_RDONLY ∨ p ≠ assets_header r →
  logs r x (k p) → logs r x (cli_file_open E p flags ≫= k).
Proof.
  intros Hp Hk w a w' H Hr Hf. rewrite bind_unfold in H.
  unfold cli_file_open in H. destruct (open_errno E p); [discriminate H|].
  destruct flags.
  - by apply (Hk w a w').
  - destruct Hp as [?|Hp]; [done|]. cbn in H.
    destruct (Hk _ a w' H Hr Hf) as (Hr' & Hf' & Ht).
    split; [done|]. split; [done|]. rewrite Ht. cbn.
    by rewrite lookup_insert_ne.
Qed.

Lemma logs_writef (fd buf : string) :
  fd ≠ assets_header r → logs r EmptyString (cli_file_writef E fd buf).
Proof.
  intros Hfd. apply logs_same. intros w a w'.
  unfold cli_file_writef, cli_file_write.
  destruct (write_errno E fd); [discriminate|]. intros [= _ <-].
  repeat split. cbn. by rewrite lookup_insert_ne.
Qed.

Lemma logs_write_bytes (out : string) (d : list Byte.byte) :
  out ≠ assets_header r → logs r EmptyString (write_bytes E out d).
Proof.
  intros Hout. induction d as [|b d IH]; cbn [write_bytes].
  - apply logs_same. by intros w a w' [= _ <-].
  - apply logs_after; [by apply logs_writef | intros _; exact IH].
Qed.

Lemma logs_close (fd : string) : logs r EmptyString (cli_file_close E fd).
Proof.
  apply logs_same. intros w a w'. unfold cli_file_close.
  destruct (close_errno E fd); by intros [= _ <-].
Qed.

Lemma logs_printf (line : string) : logs r EmptyString (printf line).
Proof. apply logs_same. by intros w a w' [= _ <-]. Qed.

Lemma logs_stderr (line : string) : logs r EmptyString (fprintf_stderr line).
Proof. apply logs_same. by intros w a w' [= _ <-]. Qed.

Lemma logs_add_cfile name fpath opath st build cpp :
  logs r EmptyString (cli_add_cfile name fpath opath st build cpp).
Proof. apply logs_same. by intros w a w' [= _ <-]. Qed.

Lemma logs_requires_build {A} (x : string) (st : stat) (opath : string)
    (k : bool → M A) :
  (∀ b, logs r x (k b)) → logs r x (cli_file_requires_build E st opath ≫= k).
Proof.
  intros Hk. apply logs_after; [|exact Hk].
  apply logs_same. intros w a w'. unfold cli_file_requires_build.
  destruct (sys_stat _ _) as [ost|errno]; [by intros [= <- <-]|].
  destruct (errno =? ENOENT); [by intros [= <- <-] | discriminate].
Qed.

Lemma logs_write_asset (n e : string) :
  logs r (asset_externs n e) (cli_write_asset E n e).
Proof.
  intros w a w' H Hr Hf.
  destruct (write_errno E (s_fd w)) as [errno|] eqn:Hw.
  - unfold cli_write_asset in H. rewrite bind_unfold in H. cbn [get] in H.
    rewrite bind_unfold in H. unfold cli_file_writef, cli_file_write in H.
    rewrite Hw in H. discriminate H.
  - rewrite (cli_write_asset_ok E n e w Hw) in H. injection H as _ <-.
    split; [done|]. split; [done|]. cbn. rewrite Hf.
    by rewrite lookup_insert_eq.
Qed.

Lemma objs_not_header (name : string) :
  r +:+ "/.objs/" +:+ name +:+ ".c" ≠ assets_header r.
Proof.
  unfold assets_header. intros H. apply (inj (String.app r)) in H.
  rewrite !append_cons in H. discriminate H.
Qed.

Lemma logs_build_asset fpath d_name mtime data :
  logs r (externs_of (Visit fpath d_name mtime data))
    (cli_build_asset E fpath d_name (StatOk (file_stat mtime data)) data).
Proof.
  unfold cli_build_asset, externs_of.
  destruct (CStr.strrchr d_name ".") as [ext|].
  2: { destruct data; apply logs_fatal. }
  destruct data as [|b data]; [apply logs_printf|].
  cbn [file_stat st_size length]. 
  destruct (Z.eqb_spec (Z.of_nat (S (length data))) 0) as [|_]; [lia|].
  apply logs_get_root. apply logs_requires_build. intros stale.
  destruct stale; cbn [negb].
  - apply logs_open; [by left|].
    destruct (mmap_errno E fpath); [apply logs_fatal|].
    apply logs_open; [right; apply objs_not_header|].
    pose proof (objs_not_header (CStr.map sanitize_char d_name)) as Hc.
    apply logs_after; [apply logs_printf | intros _].
    apply logs_after; [by apply logs_writef | intros _].
    apply logs_after; [by apply logs_writef | intros _].
    apply logs_after; [by apply logs_writef | intros _].
    apply logs_after; [by apply logs_write_bytes | intros _].
    apply logs_after; [by apply logs_writef | intros _].
    apply logs_after; [by apply logs_writef | intros _].
    apply logs_after; [by apply logs_writef | intros _].
    apply logs_after; [by apply logs_writef | intros _].
    apply logs_before; [apply logs_write_asset | intros _].
    destruct (munmap_errno E fpath); [apply logs_fatal|].
    apply logs_after; [apply logs_close | intros _].
    apply logs_after; [apply logs_close | intros _].
    apply logs_add_cfile.
  - apply logs_before; [apply logs_write_asset | intros _].
    apply logs_add_cfile.
Qed.

Lemma logs_visit_all (l : list found) :
  logs r (header_externs l) (visit_all E (cli_build_asset E) l).
Proof.
  induction l as [|[fpath d_name mtime data|line|msg] l IH];
    cbn [visit_all header_externs foldr].
  - apply logs_same. by intros w a w' [= _ <-].
  - apply logs_bind; [apply logs_build_asset | intros _; exact IH].
  - apply logs_after; [apply logs_stderr | intros _; exact IH].
  - apply logs_fatal.
Qed.

End Logs.

(** X18: the header the compiles see.  When the project has an
    [assets] directory and the build gets through it, [src/assets.h]
    holds the include guard and, between its two halves, the three
    declarations of every asset that is not empty, in the order the walk
    came across them, whether the asset was converted again or found up
    to date; it holds nothing else. *)
Theorem assets_header_text (E : environ) (w w' : world) :
  dir_exists E (rootdir w +:+ "/assets") w = true →
  build_assets E w = Done tt w' →
  w_text w' !! assets_header (rootdir w)
  = Some (header_text (found_at E (rootdir w +:+ "/assets"))).
Proof.
  intros Hdir H. unfold build_assets in H.
  apply bind_Done in H as (root & w1 & [= <- <-] & H).
  apply bind_Done in H as (b & w1 & Hb & H).
  change (cli_dir_exists E ?p ?w) with (Done (dir_exists E p w) w) in Hb.
  rewrite Hdir in Hb. injection Hb as <- <-.
  unfold cli_file_open in H.
  destruct (open_errno E (assets_header (rootdir w))) as [errno|].
  { apply bind_Done in H as (? & ? & H & _). discriminate H. }
  apply bind_Done in H as (fd & w1 & H1 & H).
  cbv [mbind M_bind modify mret M_ret] in H1. injection H1 as <- <-.
  apply bind_Done in H as ([] & w2 & [= <-] & H).
  apply bind_Done in H as ([] & w3 & H3 & H).
  unfold cli_file_writef, cli_file_write in H3, H.
  destruct (write_errno E (assets_header (rootdir w))) as [errno|];
    [discriminate H3|].
  injection H3 as <-.
  apply bind_Done in H as ([] & w4 & [= <-] & H).
  apply bind_Done in H as ([] & w5 & H5 & H).
  apply bind_Done in H as ([] & w6 & [= <-] & H).
  rewrite cli_find_files_found in H5.
  destruct (logs_visit_all E (rootdir w) _ _ _ _ H5) as (Hr5 & Hf5 & Ht5);
    [reflexivity | reflexivity |].
  cbn in Ht5. rewrite !lookup_insert_eq in Ht5. cbn in Ht5.
  assert (w_text w' = w_text (append_text (assets_header (rootdir w))
                                (nl +:+ "#endif" +:+ nl) w5)) as ->.
  { unfold cli_file_close in H. destruct (close_errno E _); by injection H as <-. }
  cbn. rewrite lookup_insert_eq, Ht5. unfold header_text.
  by rewrite !append_assoc.
Qed.

Lemma assets_header_text_witness :
  let E := Demo.env (Demo.layout [] [Dirent "page.html" (File 7 Demo.text);
                                     Dirent "empty.css" (File 8 [])])
             (Demo.toolchain true 1700000000 0) in
  ∃ w', build_assets E (Demo.building ∅) = Done tt w'
        ∧ w_text w' !! assets_header (rootdir (Demo.building ∅))
          = Some (header_text
                    (found_at E (rootdir (Demo.building ∅) +:+ "/assets"))).
Proof.
  intros E.
  destruct (build_assets E (Demo.building ∅)) as [[] w'|w'] eqn:H;
    [|vm_compute in H; discriminate H].
  exists w'. split; [reflexivity|].
  apply (assets_header_text E (Demo.building ∅) w'); [|exact H].
  vm_compute; reflexivity.
Defined.

(** ** A directory that cannot be read *)

Lemma visit_all_stops (E : environ) (cb : callback) (l : list found)
    (msg : string) (w : world) :
  Stop msg ∈ l → ∃ w', visit_all E cb l w = Died w'.
Proof.
  revert w. induction l as [|[fpath d_name mtime data|line|m] l IH]; intros w Hin.
  - by apply elem_of_nil in Hin.
  - apply elem_of_cons in Hin as [[=]|Hin]. cbn [visit_all].
    rewrite bind_unfold. destruct (cb _ _ _ _ w) as [[] w1|w1]; eauto.
  - apply elem_of_cons in Hin as [[=]|Hin]. cbn [visit_all].
    rewrite bind_unfold. cbn. eauto.
  - cbn [visit_all]. eexists. reflexivity.
Qed.

(** X19: a directory in the way stops the build before any child.
    When a directory below [src], or below [assets] when the project has
    one, cannot be opened (or [src] itself cannot), the build dies
    without having started a compiler, for a compile or for the link, and
    without having changed an object. *)
Theorem unreadable_directory_stops (E : environ) (argv : list string)
    (w0 w1 : world) (msg : string) :
  build_names E argv w0 = Done tt w1 →
  Stop msg ∈ found_at E (rootdir w1 +:+ "/src")
  ∨ (dir_exists E (rootdir w1 +:+ "/assets") w1 = true
     ∧ Stop msg ∈ found_at E (rootdir w1 +:+ "/assets")) →
  ∃ w', cli_build E argv w0 = Died w'
        ∧ jobs_of (since w0 w') = []
        ∧ w_objs w' = w_objs w0.
Proof.
  intros H1 Hstop.
  pose proof (build_names_outcome E argv w0) as Hn. rewrite H1 in Hn.
  destruct Hn as (Ht1 & Ho1 & _).
  set (front := build_check E;; build_assets E;; build_sources E).
  assert (respects discovers front) as Hfront.
  { apply respects_bind; [apply _ | apply discovers_build_check | intros _].
    apply respects_bind; [apply _ | apply discovers_build_assets | intros _].
    apply discovers_build_sources. }
  assert (∃ w', front w1 = Died w') as (w' & Hd).
  { unfold front. rewrite bind_unfold.
    pose proof (discovers_build_check E w1) as D2.
    destruct (build_check E w1) as [[] w2|w2]; [|eauto]. cbn [final] in D2.
    rewrite bind_unfold.
    destruct (build_assets E w2) as [[] w3|w3] eqn:H3; [|eauto].
    pose proof (discovers_build_assets E w2) as D3. rewrite H3 in D3.
    cbn [final] in D3.
    destruct Hstop as [Hs|[Hdir Hs]].
    - unfold build_sources. rewrite bind_unfold. cbn [get].
      rewrite cli_find_files_found.
      rewrite (dv_root _ _ D3), (dv_root _ _ D2).
      by apply (visit_all_stops E _ _ msg).
    - exfalso. unfold build_assets in H3.
      apply bind_Done in H3 as (root & v & [= <- <-] & H3).
      apply bind_Done in H3 as (b & v & Hb & H3).
      change (cli_dir_exists E ?p ?w) with (Done (dir_exists E p w) w) in Hb.
      rewrite (dv_root _ _ D2) in Hb, H3.
      rewrite (dir_exists_mono E _ w1 w2 (dv_dirs _ _ D2) Hdir) in Hb.
      injection Hb as <- <-.
      apply bind_Done in H3 as (fd & v1 & _ & H3).
      apply bind_Done in H3 as ([] & v2 & _ & H3).
      apply bind_Done in H3 as ([] & v3 & _ & H3).
      apply bind_Done in H3 as ([] & v4 & _ & H3).
      apply bind_Done in H3 as ([] & v5 & H5 & _).
      rewrite cli_find_files_found in H5.
      destruct (visit_all_stops E (cli_build_asset E) _ msg v4 Hs) as (v' & Hv).
      rewrite Hv in H5. discriminate H5. }
  exists w'. pose proof (Hfront w1) as D. rewrite Hd in D. cbn [final] in D.
  destruct D as [Ho _ _ _ _ (t & Ht & Hp) _].
  assert (cli_build E argv w0 = Died w') as Hb.
  { unfold cli_build. rewrite bind_unfold, H1.
    revert Hd. unfold front. clear Hfront. clearbody front.
    rewrite !bind_unfold.
    destruct (build_check E w1) as [[] w2|w2]; [|intros H; exact H].
    rewrite !bind_unfold.
    destruct (build_assets E w2) as [[] w3|w3]; [|intros H; exact H].
    rewrite !bind_unfold. by intros ->. }
  split; [exact Hb|].
  rewrite (since_app w0 w' t) by (by rewrite Ht, Ht1).
  split; [by apply printed_jobs | congruence].
Qed.

Lemma unreadable_directory_stops_witness :
  let E := Demo.env (Demo.layout [Dirent "a.c" (File 42 Demo.text);
                                  Dirent "priv" (Dir (Some EACCES) [])] [])
             (Demo.toolchain true 1700000000 0) in
  ∃ w', cli_build E [] (Demo.boot ∅) = Died w'
        ∧ jobs_of (since (Demo.boot ∅) w') = []
        ∧ w_objs w' = w_objs (Demo.boot ∅).
Proof.
  intros E.
  destruct (build_names E [] (Demo.boot ∅)) as [[] w1|w1] eqn:H1;
    [|vm_compute in H1; discriminate H1].
  apply (unreadable_directory_stops E [] (Demo.boot ∅) w1
           (opendir_failed E ("./src" +:+ "/" +:+ "priv") EACCES) H1).
  left. vm_compute in H1. injection H1 as <-.
  vm_compute. right. left.
Defined.

(** ** Where the build writes *)

(** A path that is none of the files a build in [r] writes itself: not
    the asset header, not the DH parameters, not a generated source in the
    object directory, and not the key or the certificate, which
    [cli_generate_certs] has OpenSSL write and of which the world keeps no
    text. *)
Definition outside (r p : string) : Prop :=
  p ≠ assets_header r
  ∧ p ≠ r +:+ "/" +:+ "dh2048.pem"
  ∧ (∀ name, p ≠ r +:+ "/.objs/" +:+ name +:+ ".c")
  ∧ p ≠ r +:+ "/cert/server.key"
  ∧ p ≠ r +:+ "/cert/server.crt".

(** From a world of the project in [r]: the root directory stays, [s_fd]
    stays, and the text outside is as it was. *)
Definition stays (r : string) (w w' : world) : Prop :=
  rootdir w = r →
  rootdir w' = r ∧ s_fd w' = s_fd w
  ∧ ∀ p, outside r p → w_text w' !! p = w_text w !! p.

Global Instance stays_refl r : Reflexive (stays r).
Proof. intros w Hr. by repeat split. Qed.

Global Instance stays_trans r : Transitive (stays r).
Proof.
  intros w1 w2 w3 H12 H23 Hr.
  destruct (H12 Hr) as (Hr2 & Hf2 & Ht2).
  destruct (H23 Hr2) as (Hr3 & Hf3 & Ht3).
  split; [done|]. split; [congruence|]. intros p Hp.
  by rewrite Ht3, Ht2.
Qed.

Lemma stays_same r (w w' : world) :
  rootdir w' = rootdir w → s_fd w' = s_fd w → w_text w' = w_text w →
  stays r w w'.
Proof. intros Hr' Hf Ht Hr. rewrite Ht. split; [congruence|]. by split. Qed.

Lemma stays_children r {A} (m : M A) :
  respects children_only m → respects (stays r) m.
Proof. intros Hm w. destruct (Hm w). by apply stays_same. Qed.

Section Stays.

Variable E : environ.
Variable r : string.

Lemma stays_get_root {A} (k : string → M A) :
  respects (stays r) (k r) → respects (stays r) (get rootdir ≫= k).
Proof.
  intros Hk w Hr. rewrite bind_unfold. cbn [get]. rewrite Hr. by apply Hk.
Qed.

Lemma stays_quiet {A} (m : M A) :
  (∀ w, rootdir (final (m w)) = rootdir w ∧ s_fd (final (m w)) = s_fd w
        ∧ w_text (final (m w)) = w_text w) →
  respects (stays r) m.
Proof. intros Hm w. destruct (Hm w) as (? & ? & ?). by apply stays_same. Qed.

Lemma stays_fatal {A} msg : respects (stays r) (@cli_fatal E A msg).
Proof. by apply stays_quiet. Qed.

Lemma stays_printf line : respects (stays r) (printf line).
Proof. by apply stays_quiet. Qed.

Lemma stays_stderr line : respects (stays r) (fprintf_stderr line).
Proof. by apply stays_quiet. Qed.

Lemma stays_ret {A} (a : A) : respects (stays r) (mret a).
Proof. by apply stays_quiet. Qed.

Lemma stays_add_cfile name fpath opath st build cpp :
  respects (stays r) (cli_add_cfile name fpath opath st build cpp).
Proof. by apply stays_quiet. Qed.

Lemma stays_mkdir fpath mode : respects (stays r) (cli_mkdir E fpath mode).
Proof.
  apply stays_quiet. intros w. unfold cli_mkdir. by destruct (mkdir_errno E _).
Qed.

Lemma stays_close fd : respects (stays r) (cli_file_close E fd).
Proof.
  apply stays_quiet. intros w. unfold cli_file_close.
  by destruct (close_errno E _).
Qed.

Lemma stays_requires_build st opath :
  respects (stays r) (cli_file_requires_build E st opath).
Proof.
  apply stays_quiet. intros w. unfold cli_file_requires_build.
  destruct (sys_stat _ _) as [ost|errno]; [done|]. by destruct (_ =? _).
Qed.

(** Opening, and writing to, a file that is not outside. *)
Lemma stays_open {A} (p : string) (flags : oflags) (k : string → M A) :
  flags = O_RDONLY ∨ ¬ outside r p →
  respects (stays r) (k p) → respects (stays r) (cli_file_open E p flags ≫= k).
Proof.
  intros Hp Hk w. rewrite bind_unfold. unfold cli_file_open.
  destruct (open_errno E p); [by apply stays_fatal|].
  destruct flags; [apply Hk|]. destruct Hp as [?|Hp]; [done|].
  cbn. etrans; [|apply Hk]. intros Hr. repeat split; try done.
  intros q Hq. cbn. rewrite lookup_insert_ne; [done|]. by intros <-.
Qed.

Lemma stays_writef (fd buf : string) :
  ¬ outside r fd → respects (stays r) (cli_file_writef E fd buf).
Proof.
  intros Hfd w. unfold cli_file_writef, cli_file_write.
  destruct (write_errno E fd); [by apply stays_fatal|].
  intros Hr. repeat split; try done.
  intros q Hq. cbn. rewrite lookup_insert_ne; [done|]. by intros <-.
Qed.

Lemma stays_write_bytes (out : string) (d : list Byte.byte) :
  ¬ outside r out → respects (stays r) (write_bytes E out d).
Proof.
  intros Hout. induction d as [|b d IH]; cbn [write_bytes].
  - apply stays_ret.
  - apply respects_bind; [apply _ | by apply stays_writef | intros _; exact IH].
Qed.

Lemma header_inside : ¬ outside r (assets_header r).
Proof. by intros [H _]. Qed.

Lemma dh_inside : ¬ outside r (r +:+ "/" +:+ "dh2048.pem").
Proof. by intros (_ & H & _). Qed.

Lemma source_inside (name : string) :
  ¬ outside r (r +:+ "/.objs/" +:+ name +:+ ".c").
Proof. intros (_ & _ & H & _). by apply (H name). Qed.

Lemma stays_unlink_header : respects (stays r) (unlink (assets_header r)).
Proof.
  intros w Hr. repeat split; try done. intros q [Hq _]. cbn.
  by rewrite lookup_delete_ne.
Qed.

(** [cli_write_asset] writes to [s_fd], which is the header while the
    assets are walked. *)
Definition heads (w w' : world) : Prop :=
  s_fd w = assets_header r → stays r w w'.

Global Instance heads_refl : Reflexive heads.
Proof. intros w _. reflexivity. Qed.

Global Instance heads_trans : Transitive heads.
Proof.
  intros w1 w2 w3 H12 H23 Hf Hr.
  destruct (H12 Hf Hr) as (Hr2 & Hf2 & Ht2).
  destruct (H23 (eq_trans Hf2 Hf) Hr2) as (Hr3 & Hf3 & Ht3).
  split; [done|]. split; [congruence|]. intros p Hp. by rewrite Ht3, Ht2.
Qed.

Lemma heads_stays {A} (m : M A) : respects (stays r) m → respects heads m.
Proof. intros Hm w _. apply Hm. Qed.

Lemma heads_get_root {A} (k : string → M A) :
  respects heads (k r) → respects heads (get rootdir ≫= k).
Proof.
  intros Hk w Hf Hr. rewrite bind_unfold. cbn [get]. rewrite Hr. by apply Hk.
Qed.

Lemma heads_open {A} (p : string) (flags : oflags) (k : string → M A) :
  flags = O_RDONLY ∨ ¬ outside r p →
  respects heads (k p) → respects heads (cli_file_open E p flags ≫= k).
Proof.
  intros Hp Hk w. rewrite bind_unfold. unfold cli_file_open.
  destruct (open_errno E p); [intros Hf; by apply stays_fatal|].
  destruct flags; [apply Hk|]. destruct Hp as [?|Hp]; [done|].
  cbn. etrans; [|apply Hk]. intros Hf Hr. repeat split; try done.
  intros q Hq. cbn. rewrite lookup_insert_ne; [done|]. by intros <-.
Qed.

Lemma heads_write_asset (n e : string) : respects heads (cli_write_asset E n e).
Proof.
  intros w Hf. unfold cli_write_asset. rewrite bind_unfold. cbn [get].
  rewrite Hf. revert w Hf.
  assert (respects (stays r)
            (cli_file_writef E (assets_header r)
               ("extern u_int8_t asset_" +:+ n +:+ "_" +:+ e +:+ "[];" +:+ nl);;
             cli_file_writef E (assets_header r)
               ("extern u_int32_t asset_len_" +:+ n +:+ "_" +:+ e +:+ ";" +:+ nl);;
             cli_file_writef E (assets_header r)
               ("extern time_t asset_mtime_" +:+ n +:+ "_" +:+ e +:+ ";" +:+ nl)))
    as H; [|by intros w _; apply H].
  repeat (apply respects_bind; [apply _ | apply stays_writef, header_inside | intros _]).
  apply stays_writef, header_inside.
Qed.

Lemma heads_build_asset fpath d_name sr data :
  respects heads (cli_build_asset E fpath d_name sr data).
Proof.
  unfold cli_build_asset.
  destruct (CStr.strrchr d_name ".") as [ext|]; [|apply heads_stays, stays_fatal].
  destruct sr as [st|errno]; [|apply heads_stays, stays_fatal].
  destruct (st_size st =? 0); [apply heads_stays, stays_printf|].
  apply heads_get_root.
  apply respects_bind; [apply _ | apply heads_stays, stays_requires_build | intros stale].
  destruct stale; cbn [negb].
  - pose proof (source_inside (CStr.map sanitize_char d_name)) as Hc.
    apply heads_open; [by left|].
    destruct (mmap_errno E fpath); [apply heads_stays, stays_fatal|].
    apply heads_open; [by right|].
    repeat (apply respects_bind;
            [ apply _
            | first [ apply heads_write_asset
                    | apply heads_stays;
                      first [ apply stays_printf | by apply stays_writef
                            | by apply stays_write_bytes ] ]
            | intros _ ]).
    destruct (munmap_errno E fpath); [apply heads_stays, stays_fatal|].
    repeat (apply respects_bind;
            [apply _ | apply heads_stays, stays_close | intros _]).
    apply heads_stays, stays_add_cfile.
  - apply respects_bind; [apply _ | apply heads_write_asset | intros _].
    apply heads_stays, stays_add_cfile.
Qed.

Lemma heads_visit_all (l : list found) :
  respects heads (visit_all E (cli_build_asset E) l).
Proof.
  induction l as [|[fpath d_name mtime data|line|msg] l IH]; cbn [visit_all].
  - apply heads_stays, stays_ret.
  - apply respects_bind; [apply _ | apply heads_build_asset | intros _; exact IH].
  - apply respects_bind; [apply _ | apply heads_stays, stays_stderr | intros _].
    exact IH.
  - apply heads_stays, stays_fatal.
Qed.

Lemma stays_register_cfile fpath d_name sr data :
  respects (stays r) (cli_register_cfile E fpath d_name sr data).
Proof.
  unfold cli_register_cfile.
  destruct (CStr.strrchr fpath ".") as [i|]; [|apply stays_ret].
  destruct (_ && _); [apply stays_ret|].
  destruct sr as [st|errno]; [|apply stays_fatal].
  apply stays_get_root.
  apply respects_bind; [apply _ | apply stays_requires_build | intros stale].
  destruct (negb stale); apply stays_add_cfile.
Qed.

Lemma stays_visit_sources (l : list found) :
  respects (stays r) (visit_all E (cli_register_cfile E) l).
Proof.
  induction l as [|[fpath d_name mtime data|line|msg] l IH]; cbn [visit_all].
  - apply stays_ret.
  - apply respects_bind; [apply _ | apply stays_register_cfile | intros _; exact IH].
  - apply respects_bind; [apply _ | apply stays_stderr | intros _; exact IH].
  - apply stays_fatal.
Qed.

Lemma stays_dir_exists {A} (p : string) (k : bool → M A) :
  (∀ b, respects (stays r) (k b)) → respects (stays r) (cli_dir_exists E p ≫= k).
Proof. intros Hk w. rewrite bind_unfold. apply Hk. Qed.

Lemma stays_build_check : respects (stays r) (build_check E).
Proof.
  unfold build_check. apply stays_get_root.
  apply respects_bind; [apply _ | by apply stays_quiet | intros app].
  apply stays_dir_exists. intros is_src.
  apply respects_bind; [apply _ | by apply stays_quiet | intros is_conf].
  apply respects_bind; [apply _ | | intros _].
  { destruct (_ || _); [apply stays_fatal | apply stays_ret]. }
  apply stays_dir_exists. intros is_obj.
  apply respects_bind; [apply _ | | intros _].
  { destruct (negb _); [apply stays_mkdir | apply stays_ret]. }
  apply stays_unlink_header.
Qed.

Lemma stays_build_sources : respects (stays r) (build_sources E).
Proof.
  unfold build_sources. apply stays_get_root.
  intros w. rewrite cli_find_files_found. apply stays_visit_sources.
Qed.

Lemma stays_file_create (name data : string) :
  ¬ outside r (r +:+ "/" +:+ name) →
  respects (stays r) (cli_file_create E name data).
Proof.
  intros Hn. unfold cli_file_create. apply stays_get_root.
  apply stays_open; [by right|].
  apply respects_bind; [apply _ | by apply stays_writef | intros _].
  apply respects_bind; [apply _ | apply stays_close | intros _].
  apply stays_printf.
Qed.

Lemma stays_build_certs : respects (stays r) (build_certs E).
Proof.
  unfold build_certs. apply stays_get_root.
  apply respects_bind; [apply _ | apply stays_unlink_header | intros _].
  apply stays_dir_exists. intros is_cert.
  destruct (negb _); [|apply stays_ret].
  apply respects_bind; [apply _ | apply stays_mkdir | intros _].
  unfold cli_generate_certs. destruct (KORE_NO_TLS E); [apply stays_ret|].
  apply respects_bind; [apply _ | apply stays_file_create, dh_inside | intros _].
  destruct (openssl_error E); [apply stays_fatal | apply stays_ret].
Qed.

(** The same, but for [s_fd], which [cli_build] sets when it opens the
    header. *)
Definition inside (w w' : world) : Prop :=
  rootdir w = r →
  rootdir w' = r ∧ ∀ p, outside r p → w_text w' !! p = w_text w !! p.

Global Instance inside_refl : Reflexive inside.
Proof. intros w Hr. by split. Qed.

Global Instance inside_trans : Transitive inside.
Proof.
  intros w1 w2 w3 H12 H23 Hr.
  destruct (H12 Hr) as (Hr2 & Ht2). destruct (H23 Hr2) as (Hr3 & Ht3).
  split; [done|]. intros p Hp. by rewrite Ht3, Ht2.
Qed.

Lemma inside_stays {A} (m : M A) : respects (stays r) m → respects inside m.
Proof. intros Hm w Hr. destruct (Hm w Hr) as (? & _ & ?). by split. Qed.

Lemma inside_build_assets : respects inside (build_assets E).
Proof.
  unfold build_assets. intros w Hr. revert Hr.
  change (inside w (final ((get rootdir ≫= λ root,
            is_assets ← cli_dir_exists E (root +:+ "/assets");
            if (is_assets : bool) then
              fd ← cli_file_open E (assets_header root) O_CREAT_TRUNC_WRONLY;
              modify (set_s_fd fd);;
              cli_file_writef E fd ("#ifndef __H_KORE_ASSETS_H" +:+ nl);;
              cli_file_writef E fd ("#define __H_KORE_ASSETS_H" +:+ nl);;
              cli_find_files E (root +:+ "/assets") (cli_build_asset E);;
              cli_file_writef E fd (nl +:+ "#endif" +:+ nl);;
              cli_file_close E fd
            else mret tt) w))).
  intros Hr. rewrite bind_unfold. cbn [get]. rewrite Hr.
  rewrite bind_unfold.
  change (cli_dir_exists E ?p ?w) with (Done (dir_exists E p w) w).
  cbv beta iota. destruct (dir_exists E _ w); [|by split].
  rewrite bind_unfold. unfold cli_file_open.
  destruct (open_errno E _).
  { apply (inside_stays _ (stays_fatal _) w Hr). }
  unfold mret, M_ret. rewrite bind_unfold. unfold modify at 1.
  cbv beta iota. rewrite bind_unfold. unfold modify at 1. cbv beta iota.
  match goal with
  | |- context [final (?m ?w2)] =>
      assert (respects heads m) as Hm;
        [|destruct (Hm w2 eq_refl Hr) as (Hr' & _ & Ht)]
  end.
  - repeat (apply respects_bind;
            [ apply _
            | first [ apply heads_stays, stays_writef, header_inside
                    | intros w1; rewrite cli_find_files_found;
                      apply heads_visit_all ]
            | intros _ ]).
    apply heads_stays, stays_close.
  - split; [exact Hr'|]. intros p Hp. etrans; [exact (Ht p Hp)|]. cbn.
    destruct Hp as [Hp _]. by rewrite lookup_insert_ne.
Qed.

End Stays.

(** X20: where a build writes.  With its own file functions a
    build writes (or removes) the asset header, the generated sources of
    the assets in the object directory and, when it makes certificates,
    the DH parameters; the key and the certificate apart, every other
    file is, at the end of the build and however it ends, as it was at
    its start. *)
Theorem cli_build_writes_inside (E : environ) (argv : list string) (w0 : world)
    (p : string) :
  let w' := final (cli_build E argv w0) in
  outside (rootdir w') p → w_text w' !! p = w_text w0 !! p.
Proof.
  cbn zeta. unfold cli_build. rewrite bind_unfold.
  destruct (build_names E argv w0) as [[] w1|w1] eqn:H1; cbn [final].
  - assert (w_text w1 = w_text w0) as <-.
    { pose proof (build_names_outcome E argv w0) as Hn. rewrite H1 in Hn.
      by destruct Hn as (_ & _ & _ & -> & _). }
    assert (respects (inside (rootdir w1))
              (build_check E;; build_assets E;; build_sources E;;
               requires_relink ← build_objects E;
               build_certs E;; build_link E requires_relink)) as Hrest.
    { apply respects_bind; [apply _ | | intros _].
      { apply inside_stays, stays_build_check. }
      apply respects_bind; [apply _ | apply inside_build_assets | intros _].
      apply respects_bind; [apply _ | | intros _].
      { apply inside_stays, stays_build_sources. }
      apply respects_bind; [apply _ | | intros r].
      { apply inside_stays, stays_children, children_build_objects. }
      apply respects_bind; [apply _ | | intros _].
      { apply inside_stays, stays_build_certs. }
      apply inside_stays, stays_children, children_build_link. }
    destruct (Hrest w1 eq_refl) as (Hr & Ht). rewrite Hr. apply Ht.
  - intros _. revert H1.
    unfold build_names, mbind, M_bind, modify, cli_fatal, mret, M_ret.
    destruct argv as [|a argv]; [destruct (getcwd E) as [errno|pwd]|];
      destruct (getenv E "CC"); cbn; intros H; try discriminate;
      by injection H as <-.
Qed.

Lemma cli_build_writes_inside_witness :
  let E := Demo.env (Demo.layout [Dirent "a.c" (File 42 Demo.text)]
                       [Dirent "page.html" (File 7 Demo.text)])
             (Demo.toolchain true 1700000000 0) in
  w_text (final (cli_build E [] (Demo.boot ∅))) !! "./src/a.c"
  = w_text (Demo.boot ∅) !! "./src/a.c".
Proof.
  intros E.
  assert (rootdir (final (cli_build E [] (Demo.boot ∅))) = ".") as Hr
    by (vm_compute; reflexivity).
  apply (cli_build_writes_inside E [] (Demo.boot ∅) "./src/a.c").
  rewrite Hr. unfold outside, assets_header. repeat split.
  - discriminate.
  - discriminate.
  - intros name H. rewrite !append_cons in H. discriminate H.
  - discriminate.
  - discriminate.
Defined.

(** ** The objects a build leaves alone *)

Lemma compile_loop_objs (E : environ) (cfs : list cfile) :
  tidy E →
  ∀ r w r' w', compile_loop E cfs r w = Done r' w' →
    ∀ path, path ∉ map cf_opath (flagged cfs) →
            w_objs w' !! path = w_objs w !! path.
Proof.
  intros Htidy. induction cfs as [|cf cfs IH]; intros r w r' w' H path Hp.
  - by injection H as _ <-.
  - cbn [compile_loop] in H. rewrite flagged_cons in Hp.
    destruct (cf_build cf); cbn [negb] in H; [|by eapply IH].
    apply bind_Done in H as ([] & w1 & H1 & H).
    destruct (compile_unit_objs E Htidy cf w w1 H1) as (_ & Ho & _).
    cbn [map] in Hp. apply not_elem_of_cons in Hp as [Hne Hp].
    rewrite (IH _ _ _ _ H path Hp). by apply Ho.
Qed.

(** X21: the objects a build changes.  When the children write
    their output only, a build that returns has left every object as it
    was, in content and in time, that is at none of the object paths of
    the units it compiled and is not the library.  (The object of a unit
    found up to date is among them unless a compiled unit has the same
    object path.) *)
Theorem cli_build_objects_changed (E : environ) (argv : list string)
    (w0 w' : world) (path : string) :
  tidy E →
  cli_build E argv w0 = Done tt w' →
  path ∉ map cf_opath (flagged (source_files w')) →
  path ≠ rootdir w' +:+ "/" +:+ appl w' +:+ ".so" →
  w_objs w' !! path = w_objs w0 !! path.
Proof.
  intros Htidy H Hp Hlib.
  destruct (cli_build_Done E argv w0 w' H)
    as (w1 & w2 & w3 & w4 & r & w5 & w6 & H1 & H2 & H3 & H4 & H5 & H6 & H7).
  pose proof (build_names_outcome E argv w0) as Hn. rewrite H1 in Hn.
  destruct Hn as (_ & Ho1 & _).
  pose proof (discovers_build_check E w1) as D2. rewrite H2 in D2.
  pose proof (discovers_build_assets E w2) as D3. rewrite H3 in D3.
  pose proof (discovers_build_sources E w3) as D4. rewrite H4 in D4.
  pose proof (children_build_objects E w4) as D5. rewrite H5 in D5.
  pose proof (frame_build_certs E discovers w5) as D6. rewrite H6 in D6.
  pose proof (children_build_link E r w6) as D7. rewrite H7 in D7.
  pose proof (frame_build_certs E settled w5) as S6. rewrite H6 in S6.
  destruct (build_link_objs E r w6 w' Htidy H7) as (_ & Ho7).
  cbn [final] in *.
  rewrite Ho7
    by (rewrite <- (co_root _ _ D7), <- (co_appl _ _ D7); exact Hlib).
  rewrite (dv_objs _ _ D6).
  rewrite (compile_loop_objs E (source_files w4) Htidy 0 w4 r w5 H5 path).
  - by rewrite (dv_objs _ _ D4), (dv_objs _ _ D3), (dv_objs _ _ D2), Ho1.
  - by rewrite <- (co_units _ _ D5), <- (sd_units _ _ S6), <- (co_units _ _ D7).
Qed.

Lemma cli_build_objects_changed_witness :
  let E := Demo.env (Demo.layout [Dirent "a.c" (File 42 Demo.text);
                                  Dirent "b.c" (File 7 Demo.text)] [])
             (Demo.toolchain true 1700000000 0) in
  let old : gmap string inode :=
    {["./.objs/b.c.o" := Inode (Demo.a_stat 7) true]} in
  ∃ w', cli_build E [] (Demo.boot old) = Done tt w'
        ∧ map cf_opath (flagged (source_files w')) = ["./.objs/a.c.o"]
        ∧ w_objs w' !! "./.objs/b.c.o" = w_objs (Demo.boot old) !! "./.objs/b.c.o".
Proof.
  intros E old.
  destruct (cli_build E [] (Demo.boot old)) as [[] w'|w'] eqn:H;
    [|vm_compute in H; discriminate H].
  assert (map cf_opath (flagged (source_files w')) = ["./.objs/a.c.o"]
          ∧ rootdir w' +:+ "/" +:+ appl w' +:+ ".so" = "./app.so") as [Hf Hl].
  { vm_compute in H. injection H as <-. split; vm_compute; reflexivity. }
  exists w'. split; [reflexivity|]. split; [exact Hf|].
  apply (cli_build_objects_changed E [] (Demo.boot old) w' _
           (toolchain_tidy _ _ _ _) H).
  - rewrite Hf. intros Hin. apply list_elem_of_singleton in Hin.
    discriminate Hin.
  - rewrite Hl. discriminate.
Defined.
